(** * NMEA-AIS-Generator: the AIS payload codec and the AIVDM sentence framer

    A shallow embedding of [nmea_msg.py]: the two message classes
    ([AISMsgPayloadType1], [AISMsgType5]), their common [encode] method and
    [NMEAMessage.get_sentences], followed by the properties the
    specification states about them.

    Conventions of the embedding.
    - A Python [str] is a [string]; a bit field is a [string] of the
      characters 0 and 1.
    - A Python [int] is a [Z].  A Python [float] is a binary64 number, the
      primitive [float]: a product is rounded to nearest even as the
      processor does, a comparison with a NaN is false, and [int(x)]
      truncates the rounded value toward zero, raising [OverflowError] on an
      infinity and [ValueError] on a NaN.
    - A raised exception is the [Raise] branch of [result]; the message text
      of a [ValueError] is abstracted to the name of the attribute or field
      that was being converted when it was raised.
    - A mutated attribute ([fill_bits]) is threaded explicitly: a method that
      assigns to [self] returns the updated object. *)

From Stdlib Require Import ZArith List String Ascii Bool Lia.
From Stdlib Require Import DecimalString Floats.
Import ListNotations.

(* A decimal literal denotes the nearest binary64 number, as in Python. *)
Set Warnings "-inexact-float".

Local Open Scope string_scope.
Local Open Scope Z_scope.

(** ** Exceptions *)

Inductive error : Type :=
| ValueError (field : string)
| OverflowError
| RangeError
| InvalidCharacterError.

Inductive result (A : Type) : Type :=
| Ok (a : A)
| Raise (e : error).

Arguments Ok {A} a.
Arguments Raise {A} e.

Definition bind {A B : Type} (r : result A) (k : A -> result B) : result B :=
  match r with
  | Ok a => k a
  | Raise e => Raise e
  end.

Notation "x <- r ;; k" := (bind r (fun x => k))
  (at level 61, r at next level, right associativity).
Notation "' p <- r ;; k" := (bind r (fun p => k))
  (at level 61, p pattern, r at next level, right associativity).

(** ** Python built-ins used by the module *)

(** [s * n] for a one-character string [s]. *)
Fixpoint str_repeat (c : ascii) (n : nat) : string :=
  match n with
  | O => EmptyString
  | S k => String c (str_repeat c k)
  end.

(** The integer part of [m * 2 ^ e]. *)
Definition trunc_mag (m : positive) (e : Z) : Z :=
  if 0 <=? e then Zpos m * 2 ^ e else Zpos m / 2 ^ (- e).

(** [int(x)] on a float: a finite [x] is [(-1) ^ s * m * 2 ^ e] and is
    truncated toward zero; an infinity raises [OverflowError] and a NaN
    raises [ValueError].  [field] names the attribute being converted. *)
Definition int_of_float (field : string) (x : float) : result Z :=
  match Prim2SF x with
  | S754_zero _ => Ok 0
  | S754_infinity _ => Raise OverflowError
  | S754_nan => Raise (ValueError field)
  | S754_finite s m e => Ok (cond_Zopp s (trunc_mag m e))
  end.

(** [str(n)] for an integer, as an f-string renders it. *)
Definition str_of_int (n : Z) : string := NilZero.string_of_int (Z.to_int n).

(** [textwrap.wrap(text, width)] on a text that holds no whitespace and no
    hyphen (bit strings and armored payloads are such texts): the text is one
    long word, broken into lines of [width] characters, the last line holding
    what remains; the empty text gives no line. *)
Fixpoint wrap_lines (fuel : nat) (text : string) (width : nat) : list string :=
  match fuel with
  | O => []
  | S fuel' =>
      if (String.length text =? 0)%nat then []
      else if (String.length text <=? width)%nat then [text]
      else substring 0 width text
           :: wrap_lines fuel' (substring width (String.length text - width) text) width
  end.

Definition wrap (text : string) (width : nat) : list string :=
  wrap_lines (String.length text) text width.

(** ** [nmea_utils] *)

Definition bit_char (b : bool) : ascii := if b then "1"%char else "0"%char.

(** The [w] low bits of [n], most significant first. *)
Fixpoint bits_of (w : nat) (n : Z) : string :=
  match w with
  | O => EmptyString
  | S w' => String (bit_char (Z.testbit n (Z.of_nat w'))) (bits_of w' n)
  end.

(** Modelled from the spec: [nmea_utils.convert_int_to_bits] is not among the
    sources.  Spec 4.1: it produces a bit field of exactly [bits_count]
    characters; with [signed] a negative value is written in two's complement
    at that width and a positive one is zero-extended; it fails with
    [RangeError] when the value cannot be represented in [bits_count] bits. *)
Definition convert_int_to_bits (num : Z) (bits_count : nat) (signed : bool)
  : result string :=
  let w := Z.of_nat bits_count in
  if signed then
    if (- 2 ^ (w - 1) <=? num) && (num <? 2 ^ (w - 1))
    then Ok (bits_of bits_count (num mod 2 ^ w))
    else Raise RangeError
  else
    if (0 <=? num) && (num <? 2 ^ w)
    then Ok (bits_of bits_count num)
    else Raise RangeError.

Fixpoint bits_value (bits : string) (acc : Z) : result Z :=
  match bits with
  | EmptyString => Ok acc
  | String c rest =>
      if Ascii.eqb c "0" then bits_value rest (2 * acc)
      else if Ascii.eqb c "1" then bits_value rest (2 * acc + 1)
      else Raise (ValueError "bits")
  end.

(** Modelled from the spec: [nmea_utils.convert_bits_to_int] is not among the
    sources.  Spec 4.1: the unsigned interpretation of a bit field.  A
    character other than 0 and 1 is not part of a bit field and is refused. *)
Definition convert_bits_to_int (bits : string) : result Z := bits_value bits 0.

(** Modelled from the spec: [nmea_utils.convert_decimal_to_ascii_code] is not
    among the sources.  Spec 4.1: the two-range lookup
    [value < 40 ? value + 48 : value + 56]. *)
Definition convert_decimal_to_ascii_code (decimal_num : Z) : Z :=
  if decimal_num <? 40 then decimal_num + 48 else decimal_num + 56.

(** Modelled from the spec: [nmea_utils.get_char_of_ascii_code] is not among
    the sources.  Second stage of the armoring of spec 4.1 and 4.5: the
    character whose code is [ascii_code]. *)
Definition get_char_of_ascii_code (ascii_code : Z) : ascii :=
  ascii_of_N (Z.to_N ascii_code).

(** Modelled from the spec: [nmea_utils.convert_ascii_char_to_ascii6_code] is
    not among the sources.  Spec 4.1: an uppercase letter, a digit or a
    punctuation character of the AIS alphabet is mapped to its six-bit
    ordinal; any other character fails with [InvalidCharacterError].  The AIS
    alphabet table: codes 64..95 (at sign, A..Z, brackets, backslash, caret,
    underscore) have ordinals 0..31; codes 32..63 (space, punctuation,
    digits) keep their code as ordinal. *)
Definition convert_ascii_char_to_ascii6_code (char : ascii) : result Z :=
  let code := Z.of_N (N_of_ascii char) in
  if (64 <=? code) && (code <=? 95) then Ok (code - 64)
  else if (32 <=? code) && (code <=? 63) then Ok code
  else Raise InvalidCharacterError.

(** Modelled from the spec: [nmea_utils.add_padding] is not among the
    sources.  Spec 4.2: a text shorter than the declared character count is
    right-padded with space characters to that count. *)
Definition add_padding (text : string) (required_length : nat) : string :=
  text ++ str_repeat " " (required_length - String.length text).

(** Modelled from the spec: [nmea_utils.add_padding_0_bits] is not among the
    sources.  The caller unpacks a pair of the padded bit string and a
    fill-bit count (spec 9: a setter that also mutates the fill-bit counter):
    zero bits are appended up to [required_length] and counted. *)
Definition add_padding_0_bits (bits_string : string) (required_length : nat)
  : string * Z :=
  let missing := (required_length - String.length bits_string)%nat in
  (bits_string ++ str_repeat "0" missing, Z.of_nat missing).

Definition hex_digit (n : Z) : ascii :=
  if n <? 10 then ascii_of_N (Z.to_N (48 + n)) else ascii_of_N (Z.to_N (55 + n)).

Fixpoint xor_bytes (data : string) (acc : Z) : Z :=
  match data with
  | EmptyString => acc
  | String c rest => xor_bytes rest (Z.lxor acc (Z.of_N (N_of_ascii c)))
  end.

(** Modelled from the spec: [nmea_utils.nmea_checksum] is not among the
    sources.  Spec 4.1: the XOR of every byte of the sentence body, rendered
    as two uppercase hexadecimal digits, zero-padded. *)
Definition nmea_checksum (data : string) : string :=
  let x := xor_bytes data 0 in
  String (hex_digit (x / 16)) (String (hex_digit (x mod 16)) EmptyString).

(** ** [ais_utils] *)

(** Modelled from the spec: [ais_utils.ShipDimension] is not among the
    sources.  Spec 4.3: four unsigned sub-fields, each clamped to its largest
    representable value (511 for bow and stern at 9 bits, 63 for port and
    starboard at 6 bits) before encoding, concatenated in this order into a
    30-bit block. *)
Record ShipDimension : Type := {
  to_bow : Z;
  to_stern : Z;
  to_port : Z;
  to_starboard : Z
}.

Definition ShipDimension_bits (d : ShipDimension) : result string :=
  bow <- convert_int_to_bits (Z.min (to_bow d) 511) 9 false ;;
  stern <- convert_int_to_bits (Z.min (to_stern d) 511) 9 false ;;
  port <- convert_int_to_bits (Z.min (to_port d) 63) 6 false ;;
  starboard <- convert_int_to_bits (Z.min (to_starboard d) 63) 6 false ;;
  Ok (bow ++ stern ++ port ++ starboard).

(** Modelled from the spec: [ais_utils.ShipEta] is not among the sources.
    Spec 4.3: four unsigned sub-fields (month 4 bits, day 5 bits, hour 5
    bits, minute 6 bits) concatenated into a 20-bit block; an omitted
    sub-field takes its not-available value (month 0, day 0, hour 24,
    minute 60). *)
Record ShipEta : Type := {
  month : Z;
  day : Z;
  hour : Z;
  minute : Z
}.

Definition ShipEta_default : ShipEta :=
  {| month := 0; day := 0; hour := 24; minute := 60 |}.

Definition ShipEta_bits (e : ShipEta) : result string :=
  mo <- convert_int_to_bits (month e) 4 false ;;
  d <- convert_int_to_bits (day e) 5 false ;;
  h <- convert_int_to_bits (hour e) 5 false ;;
  mi <- convert_int_to_bits (minute e) 6 false ;;
  Ok (mo ++ d ++ h ++ mi).

(** ** [constants] *)

(** The keys of [FieldBitsCountEnum]: the attributes of the position report
    and the names of its constants. *)
Module Key.

Inductive name : Type :=
| repeat_indicator | mmsi | nav_status | speed | lon | lat | course
| true_heading | timestamp
| msg_type | rot | pos_accuracy | maneuver | spare_type_1 | raim
| radio_status.

(** The key as the [str] it is in the source. *)
Definition to_string (a : name) : string :=
  match a with
  | repeat_indicator => "repeat_indicator"
  | mmsi => "mmsi"
  | nav_status => "nav_status"
  | speed => "speed"
  | lon => "lon"
  | lat => "lat"
  | course => "course"
  | true_heading => "true_heading"
  | timestamp => "timestamp"
  | msg_type => "msg_type"
  | rot => "rot"
  | pos_accuracy => "pos_accuracy"
  | maneuver => "maneuver"
  | spare_type_1 => "spare_type_1"
  | raim => "raim"
  | radio_status => "radio_status"
  end.

Definition eqb (a b : name) : bool :=
  match a, b with
  | repeat_indicator, repeat_indicator | mmsi, mmsi | nav_status, nav_status
  | speed, speed | lon, lon | lat, lat | course, course
  | true_heading, true_heading | timestamp, timestamp
  | msg_type, msg_type | rot, rot | pos_accuracy, pos_accuracy
  | maneuver, maneuver | spare_type_1, spare_type_1 | raim, raim
  | radio_status, radio_status => true
  | _, _ => false
  end.

(** [field in names]. *)
Definition among (field : name) (names : list name) : bool :=
  existsb (eqb field) names.

End Key.

(** Modelled from the spec: [constants.FieldBitsCountEnum] is not among the
    sources.  Spec 4.2 declares 28 bits for [lon] and 27 bits for [lat]; the
    other widths are those of the position report of ITU-R M.1371, which add
    up to the 168 bits of spec 3. *)
Definition FieldBitsCountEnum (field : Key.name) : nat :=
  match field with
  | Key.msg_type => 6
  | Key.repeat_indicator => 2
  | Key.mmsi => 30
  | Key.nav_status => 4
  | Key.rot => 8
  | Key.speed => 10
  | Key.pos_accuracy => 1
  | Key.lon => 28
  | Key.lat => 27
  | Key.course => 12
  | Key.true_heading => 9
  | Key.timestamp => 6
  | Key.maneuver => 2
  | Key.spare_type_1 => 3
  | Key.raim => 1
  | Key.radio_status => 19
  end%nat.

(** Modelled from the spec: [constants.AISMsgType1ConstsEnum] is not among
    the sources.  The values are those of the payload example in the
    docstring of [AISMsgPayloadType1], [133m@ogP00PD;88MD5MTDww@2D7k]. *)
Definition AISMsgType1ConstsEnum : list (Key.name * Z) :=
  [ (Key.msg_type, 1); (Key.rot, 128); (Key.pos_accuracy, 1);
    (Key.maneuver, 0); (Key.spare_type_1, 0); (Key.raim, 1);
    (Key.radio_status, 82419) ].

(** A Python dict from these keys to bit fields. *)
Definition dict : Type := Key.name -> string.

Definition dict_empty : dict := fun _ => EmptyString.

Definition dict_set (d : dict) (k : Key.name) (v : string) : dict :=
  fun k' => if Key.eqb k' k then v else d k'.

(** ** The message classes *)

(** What [AISMsgPayload] and [AISMsg] ask of a message: the abstract
    [payload_bits] and the [fill_bits] attribute, read and assigned. *)
Class AISMessage (A : Type) : Type := {
  payload_bits : A -> result string;
  fill_bits : A -> Z;
  set_fill_bits : A -> Z -> A
}.

(** [while len(item) < 6: item += '0'; self.fill_bits += 1], which runs
    [6 - len(item)] times. *)
Fixpoint pad_item (n : nat) (item : string) (fill : Z) : string * Z :=
  match n with
  | O => (item, fill)
  | S k => pad_item k (item ++ "0") (fill + 1)
  end.

(** The body of [encode], over the six-bit items, with the accumulated
    payload and the current [self.fill_bits]. *)
Fixpoint encode_items (items : list string) (payload : string) (fill : Z)
  : result (string * Z) :=
  match items with
  | [] => Ok (payload, fill)
  | item :: rest =>
      let '(item, fill) := pad_item (6 - String.length item) item fill in
      decimal_num <- convert_bits_to_int item ;;
      let ascii_code := convert_decimal_to_ascii_code decimal_num in
      let payload_char := get_char_of_ascii_code ascii_code in
      encode_items rest (payload ++ String payload_char EmptyString) fill
  end.

Definition _payload_sixbits_list {A : Type} `{AISMessage A} (self : A)
  : result (list string) :=
  bits <- payload_bits self ;;
  Ok (wrap bits 6).

(** [AISMsgPayload.encode] and [AISMsg.encode] (the two bodies are the same):
    the armored payload and the message with its [fill_bits] as the loop left
    it. *)
Definition encode {A : Type} `{AISMessage A} (self : A) : result (string * A) :=
  items <- _payload_sixbits_list self ;;
  ' (payload, fill) <- encode_items items "" (fill_bits self) ;;
  Ok (payload, set_fill_bits self fill).

(** A number held by a pydantic attribute: an [int] or a [float]. *)
Inductive value : Type :=
| Int (n : Z)
| Float (x : float).

(** [int(value * k)] for an [int] literal [k], whose conversion to a float is
    [kf]: the product of two [int]s is exact, the product with a [float] is
    the binary64 product. *)
Definition int_of_scaled (field : string) (value : value) (k : Z) (kf : float)
  : result Z :=
  match value with
  | Int n => Ok (n * k)
  | Float x => int_of_float field (x * kf)
  end.

(** *** [AISMsgPayloadType1]: position report, class A *)

Module AISMsgPayloadType1.

Record t : Type := {
  repeat_indicator : Z;
  mmsi : Z;
  fill_bits : Z;
  nav_status : Z;
  speed : float;
  lon : float;
  lat : float;
  course : float;
  true_heading : Z;
  timestamp : Z
}.

(** [{name: convert_int_to_bits(num=value, bits_count=bits[name]) ...}]. *)
Fixpoint constants_loop (const : list (Key.name * Z)) (d : dict) : result dict :=
  match const with
  | [] => Ok d
  | (name, value) :: rest =>
      bits <- convert_int_to_bits value (FieldBitsCountEnum name) false ;;
      constants_loop rest (dict_set d name bits)
  end.

Definition _constants_bits : result dict :=
  constants_loop AISMsgType1ConstsEnum dict_empty.

(** [self.dict(exclude={'fill_bits'})], in the order of declaration. *)
Definition dict_items (self : t) : list (Key.name * value) :=
  [ (Key.repeat_indicator, Int (repeat_indicator self));
    (Key.mmsi, Int (mmsi self));
    (Key.nav_status, Int (nav_status self));
    (Key.speed, Float (speed self));
    (Key.lon, Float (lon self));
    (Key.lat, Float (lat self));
    (Key.course, Float (course self));
    (Key.true_heading, Int (true_heading self));
    (Key.timestamp, Int (timestamp self)) ].

(** One turn of the loop of [_fields_to_bits].  The attributes that are not
    scaled are declared [int], so the [Float] case of the last match is never
    reached. *)
Definition field_to_bits (field : Key.name) (value : value) : result string :=
  let bits_count := FieldBitsCountEnum field in
  if Key.among field [Key.lon; Key.lat] then
    value <- int_of_scaled (Key.to_string field) value 600000 600000 ;;
    convert_int_to_bits value bits_count true
  else
    value <-
      (if Key.among field [Key.course; Key.speed]
       then n <- int_of_scaled (Key.to_string field) value 10 10 ;; Ok (Int n)
       else Ok value) ;;
    match value with
    | Int num => convert_int_to_bits num bits_count false
    | Float _ => Raise (ValueError "num")
    end.

Fixpoint fields_loop (fields : list (Key.name * value)) (fields_in_bits : dict)
  : result dict :=
  match fields with
  | [] => Ok fields_in_bits
  | (field, value) :: rest =>
      bits_value <- field_to_bits field value ;;
      fields_loop rest (dict_set fields_in_bits field bits_value)
  end.

Definition _fields_to_bits (self : t) : result dict :=
  fields_loop (dict_items self) dict_empty.

Definition payload_bits (self : t) : result string :=
  consts <- _constants_bits ;;
  fields <- _fields_to_bits self ;;
  Ok (String.concat ""
        [ consts Key.msg_type;
          fields Key.repeat_indicator;
          fields Key.mmsi;
          fields Key.nav_status;
          consts Key.rot;
          fields Key.speed;
          consts Key.pos_accuracy;
          fields Key.lon;
          fields Key.lat;
          fields Key.course;
          fields Key.true_heading;
          fields Key.timestamp;
          consts Key.maneuver;
          consts Key.spare_type_1;
          consts Key.raim;
          consts Key.radio_status ]).

Definition set_fill_bits (self : t) (n : Z) : t :=
  {| repeat_indicator := repeat_indicator self;
     mmsi := mmsi self;
     fill_bits := n;
     nav_status := nav_status self;
     speed := speed self;
     lon := lon self;
     lat := lat self;
     course := course self;
     true_heading := true_heading self;
     timestamp := timestamp self |}.

End AISMsgPayloadType1.

#[export] Instance AISMsgPayloadType1_message : AISMessage AISMsgPayloadType1.t := {
  payload_bits := AISMsgPayloadType1.payload_bits;
  fill_bits := AISMsgPayloadType1.fill_bits;
  set_fill_bits := AISMsgPayloadType1.set_fill_bits
}.

(** The message of the [__main__] block. *)
Definition example_type1 : AISMsgPayloadType1.t :=
  {| AISMsgPayloadType1.repeat_indicator := 0;
     AISMsgPayloadType1.mmsi := 205344990;
     AISMsgPayloadType1.fill_bits := 0;
     AISMsgPayloadType1.nav_status := 15;
     AISMsgPayloadType1.speed := 0%float;
     AISMsgPayloadType1.lon := 4.407046666667%float;
     AISMsgPayloadType1.lat := 51.229636666667%float;
     AISMsgPayloadType1.course := 110.7%float;
     AISMsgPayloadType1.true_heading := 511;
     AISMsgPayloadType1.timestamp := 40 |}.

(** The same message at another longitude. *)
Definition example_type1_at (lon : float) : AISMsgPayloadType1.t :=
  {| AISMsgPayloadType1.repeat_indicator := 0;
     AISMsgPayloadType1.mmsi := 205344990;
     AISMsgPayloadType1.fill_bits := 0;
     AISMsgPayloadType1.nav_status := 15;
     AISMsgPayloadType1.speed := 0%float;
     AISMsgPayloadType1.lon := lon;
     AISMsgPayloadType1.lat := 51.229636666667%float;
     AISMsgPayloadType1.course := 110.7%float;
     AISMsgPayloadType1.true_heading := 511;
     AISMsgPayloadType1.timestamp := 40 |}.

(** *** [AISMsgType5]: static and voyage related data *)

(** The loop of the three string setters: each character goes through ASCII6
    and is written on six bits. *)
Fixpoint ascii6_bits (text : string) (acc : string) : result string :=
  match text with
  | EmptyString => Ok acc
  | String char rest =>
      ascii6_code <- convert_ascii_char_to_ascii6_code char ;;
      six_bits <- convert_int_to_bits ascii6_code 6 false ;;
      ascii6_bits rest (acc ++ six_bits)
  end.

Module AISMsgType5.

Record t : Type := {
  repeat_indicator : string;
  mmsi : string;
  fill_bits : Z;
  msg_type : string;
  ais_version : string;
  imo : string;
  call_sign : string;
  ship_name : string;
  ship_type : string;
  dimension : string;
  pos_fix_type : string;
  eta : string;
  draught : string;
  destination : string;
  dte : string;
  spare : string
}.

(** Each setter is given what it reads and returns what it stores in the
    private attribute; the [call_sign] setter may also assign
    [self.fill_bits], so it takes and returns that attribute too. *)

Definition mmsi_setter (mmsi : Z) : result string :=
  convert_int_to_bits mmsi 30 false.

Definition imo_setter (value : Z) : result string :=
  convert_int_to_bits value 30 false.

(** The text of a fixed-length string attribute before the ASCII6 loop. *)
Definition fixed_text (text : string) (required_char_count : nat) : string :=
  if (String.length text =? 0)%nat
  then str_repeat "@" required_char_count
  else add_padding text required_char_count.

Definition call_sign_setter (fill_bits : Z) (call_sign : string)
  : result (string * Z) :=
  let required_bit_count := 42%nat in
  let required_char_count := 7%nat in
  if negb (String.length call_sign <? required_char_count + 1)%nat
  then Raise (ValueError "call_sign")
  else
    let call_sign := fixed_text call_sign required_char_count in
    call_sign_bits <- ascii6_bits call_sign "" ;;
    if (String.length call_sign_bits <? required_bit_count)%nat
    then Ok (add_padding_0_bits call_sign_bits required_bit_count)
    else Ok (call_sign_bits, fill_bits).

Definition ship_name_setter (ship_name : string) : result string :=
  let required_char_count := 20%nat in
  if negb (String.length ship_name <? required_char_count + 1)%nat
  then Raise (ValueError "ship_name")
  else
    let ship_name := fixed_text ship_name required_char_count in
    ascii6_bits ship_name "".

Definition ship_type_setter (value : Z) : result string :=
  if negb ((1 <=? value) && (value <? 100))
  then Raise (ValueError "ship_type")
  else convert_int_to_bits value 8 false.

Definition dimension_setter (dimension : ShipDimension) : result string :=
  ShipDimension_bits dimension.

Definition eta_setter (eta : ShipEta) : result string :=
  ShipEta_bits eta.

Definition draught_setter (value : float) : result string :=
  if (value <? 0)%float then Raise (ValueError "draught")
  else
    let value := if (25.5 <? value)%float then 25.5%float else value in
    num <- int_of_float "draught" (value * 10) ;;
    convert_int_to_bits num 8 false.

Definition destination_setter (destination : string) : result string :=
  let required_char_count := 20%nat in
  if negb (String.length destination <? required_char_count + 1)%nat
  then Raise (ValueError "destination")
  else
    let destination := fixed_text destination required_char_count in
    ascii6_bits destination "".

(** [AISMsgType5.__init__], [AISMsg.__init__] first. *)
Definition init (mmsi imo : Z) (call_sign ship_name : string) (ship_type : Z)
    (dimension : ShipDimension) (eta : ShipEta) (draught : float)
    (destination : string) : result t :=
  repeat_indicator_ <- convert_int_to_bits 0 2 false ;;
  mmsi_ <- mmsi_setter mmsi ;;
  let fill_bits_ := 0 in
  msg_type_ <- convert_int_to_bits 5 6 false ;;
  ais_version_ <- convert_int_to_bits 2 2 false ;;
  imo_ <- imo_setter imo ;;
  ' (call_sign_, fill_bits_) <- call_sign_setter fill_bits_ call_sign ;;
  ship_name_ <- ship_name_setter ship_name ;;
  ship_type_ <- ship_type_setter ship_type ;;
  dimension_ <- dimension_setter dimension ;;
  pos_fix_type_ <- convert_int_to_bits 1 4 false ;;
  eta_ <- eta_setter eta ;;
  draught_ <- draught_setter draught ;;
  destination_ <- destination_setter destination ;;
  dte_ <- convert_int_to_bits 0 1 false ;;
  spare_ <- convert_int_to_bits 0 1 false ;;
  Ok {| repeat_indicator := repeat_indicator_;
        mmsi := mmsi_;
        fill_bits := fill_bits_;
        msg_type := msg_type_;
        ais_version := ais_version_;
        imo := imo_;
        call_sign := call_sign_;
        ship_name := ship_name_;
        ship_type := ship_type_;
        dimension := dimension_;
        pos_fix_type := pos_fix_type_;
        eta := eta_;
        draught := draught_;
        destination := destination_;
        dte := dte_;
        spare := spare_ |}.

Definition payload_bits (self : t) : string :=
  msg_type self ++ repeat_indicator self ++ mmsi self ++ ais_version self
  ++ imo self ++ call_sign self ++ ship_name self ++ ship_type self
  ++ dimension self ++ pos_fix_type self ++ eta self ++ draught self
  ++ destination self ++ dte self ++ spare self.

Definition set_fill_bits (self : t) (n : Z) : t :=
  {| repeat_indicator := repeat_indicator self;
     mmsi := mmsi self;
     fill_bits := n;
     msg_type := msg_type self;
     ais_version := ais_version self;
     imo := imo self;
     call_sign := call_sign self;
     ship_name := ship_name self;
     ship_type := ship_type self;
     dimension := dimension self;
     pos_fix_type := pos_fix_type self;
     eta := eta self;
     draught := draught self;
     destination := destination self;
     dte := dte self;
     spare := spare self |}.

End AISMsgType5.

#[export] Instance AISMsgType5_message : AISMessage AISMsgType5.t := {
  payload_bits := fun self => Ok (AISMsgType5.payload_bits self);
  fill_bits := AISMsgType5.fill_bits;
  set_fill_bits := AISMsgType5.set_fill_bits
}.

(** ** [NMEAMessage] *)

Definition CRLF : string :=
  String (ascii_of_N 13) (String (ascii_of_N 10) EmptyString).

(** [self.payload] is a reference to the message object the caller passed,
    not a copy.  The record keeps the other attributes; the object behind the
    reference is passed to each method in the state it has at the call. *)
Record NMEAMessage : Type := {
  nmea_msg_type : string;
  payload_parts : list string;
  number_of_sentences : nat;
  ais_channel : string
}.

(** [NMEAMessage.__init__]: it calls [payload.encode()], so it also returns
    the message object as that call left it. *)
Definition NMEAMessage_init {A : Type} `{AISMessage A} (payload : A)
  : result (NMEAMessage * A) :=
  ' (armored, payload) <- encode payload ;;
  let parts := wrap armored 60 in
  Ok ({| nmea_msg_type := "AIVDM";
         payload_parts := parts;
         number_of_sentences := List.length parts;
         ais_channel := "A" |}, payload).

(** The data of one sentence, from which the checksum is calculated. *)
Definition sentence_data (self : NMEAMessage) (sentence_number : nat)
    (sequential_msg_id sentence_payload : string) (fill_bits : Z) : string :=
  nmea_msg_type self ++ "," ++ str_of_int (Z.of_nat (number_of_sentences self))
  ++ "," ++ str_of_int (Z.of_nat sentence_number) ++ "," ++ sequential_msg_id
  ++ "," ++ ais_channel self ++ "," ++ sentence_payload ++ ","
  ++ str_of_int fill_bits.

(** The loop of [get_sentences] over [enumerate(self.payload_parts, 1)];
    [payload_fill_bits] is [self.payload.fill_bits]. *)
Fixpoint sentences_loop (self : NMEAMessage) (payload_fill_bits : Z)
    (parts : list string) (sentence_number : nat) : list string :=
  match parts with
  | [] => []
  | sentence_payload :: rest =>
      let fill_bits :=
        if (sentence_number =? number_of_sentences self)%nat
        then payload_fill_bits else 0 in
      let sequential_msg_id :=
        if (1 <? number_of_sentences self)%nat then "1" else "" in
      let data :=
        sentence_data self sentence_number sequential_msg_id sentence_payload
          fill_bits in
      ("!" ++ data ++ "*" ++ nmea_checksum data ++ CRLF)
      :: sentences_loop self payload_fill_bits rest (S sentence_number)
  end.

Definition get_sentences {A : Type} `{AISMessage A} (self : NMEAMessage)
    (payload : A) : list string :=
  sentences_loop self (fill_bits payload) (payload_parts self) 1.

(** The message of the commented block of [__main__]. *)
Definition example_dimension : ShipDimension :=
  {| to_bow := 225; to_stern := 70; to_port := 1; to_starboard := 31 |}.

Definition example_eta : ShipEta :=
  {| month := 5; day := 15; hour := 14; minute := 0 |}.

Definition example_type5 : result AISMsgType5.t :=
  AISMsgType5.init 205344990 9134270 "3FOF8" "EVER DIADEM" 70
    example_dimension example_eta 12.2 "NEW YORK".

(** ** Predicates and examples of the properties *)

(** [all(p(c) for c in s)]. *)
Fixpoint all_chars (p : ascii -> bool) (s : string) : bool :=
  match s with
  | EmptyString => true
  | String c rest => p c && all_chars p rest
  end.

(** The two characters of a bit field. *)
Definition is_bit (c : ascii) : bool := Ascii.eqb c "0" || Ascii.eqb c "1".

(** A bit field: only the characters 0 and 1. *)
Definition is_bits (s : string) : bool := all_chars is_bit s.

(** The object that [example_type5] builds. *)
Definition example_type5_msg : AISMsgType5.t :=
  Eval vm_compute in
    match example_type5 with
    | Ok m => m
    | Raise _ => AISMsgType5.set_fill_bits
                   (AISMsgType5.Build_t "" "" 0 "" "" "" "" "" "" "" "" "" "" "" "" "") 0
    end.

(** The characters of the ASCII6 alphabet: codes 32 to 95. *)
Definition in_ascii6 (c : ascii) : bool :=
  let code := Z.of_N (N_of_ascii c) in (32 <=? code) && (code <=? 95).

(** Follows the spec's words (section 8, "decoding the encoded signed
    bit-field back to an integer"): the two's-complement reading of a bit
    field.  The module has no decoder of its own. *)
Definition decode_signed (bits : string) : result Z :=
  u <- convert_bits_to_int bits ;;
  let w := Z.of_nat (String.length bits) in
  Ok (if u <? 2 ^ (w - 1) then u else u - 2 ^ w).

(** A float that is zero or of magnitude at most [mb * 2 ^ eb]. *)
Definition magnitude_le (x : float) (mb : positive) (eb : Z) : Prop :=
  match Prim2SF x with
  | S754_zero _ => True
  | S754_finite _ m e => e <= eb /\ Zpos m <= Zpos mb * 2 ^ (eb - e)
  | _ => False
  end.

(** A float that is a zero, or positive (finite or not). *)
Definition not_negative (x : float) : Prop :=
  match Prim2SF x with
  | S754_zero _ | S754_finite false _ _ | S754_infinity false => True
  | _ => False
  end.

(** Every exception that [r] can raise satisfies [P]. *)
Definition raises_only {A : Type} (P : error -> Prop) (r : result A) : Prop :=
  forall e, r = Raise e -> P e.

(** The fields of a sentence: the text between the commas. *)
Fixpoint split_on (sep : ascii) (s : string) (cur : string) : list string :=
  match s with
  | EmptyString => [cur]
  | String c rest =>
      if Ascii.eqb c sep then cur :: split_on sep rest ""
      else split_on sep rest (cur ++ String c "")
  end.

(** The characters of an armored payload: codes 48 to 87 and 96 to 119,
    none of them whitespace, hyphen or comma. *)
Definition is_armor_char (c : ascii) : bool :=
  let code := Z.of_N (N_of_ascii c) in
  ((48 <=? code) && (code <=? 87)) || ((96 <=? code) && (code <=? 119)).

(** A character that does not end a field. *)
Definition no_comma (c : ascii) : bool := negb (Ascii.eqb c ",").

(** The digits 0-9 and the letters A-F. *)
Definition is_upper_hex (c : ascii) : bool :=
  let code := Z.of_N (N_of_ascii c) in
  ((48 <=? code) && (code <=? 57)) || ((65 <=? code) && (code <=? 70)).

(** The sentences of the static and voyage message of [__main__], built from
    the fresh object. *)
Definition example_nmea : NMEAMessage :=
  {| nmea_msg_type := "AIVDM";
     payload_parts :=
       [ "533m@o`2;H;s<HtKR20EHE:0@T4@Dn2222222216L961O5Gf0NSQEp6ClRp8";
         "88888888880" ];
     number_of_sentences := 2;
     ais_channel := "A" |}.

(** ** Further methods and readers *)

(** [AISMsgPayloadType1.__str__] and [AISMsgType5.__str__]: the text is what
    [encode] returns, and the call to [encode] acts on the object. *)
Definition __str__ {A : Type} `{AISMessage A} (self : A) : result (string * A) :=
  ' (payload, self) <- encode self ;;
  Ok (payload, self).

(** The characters that frame the fields of a sentence, and the two that
    [textwrap.wrap] breaks at. *)
Definition is_delimiter (c : ascii) : bool :=
  existsb (Ascii.eqb c) [","; "*"; "!"; " "; "-"]%char.

(** The reverse of the armoring, to state that [encode] loses nothing (the
    module has no decoder): the six-bit value of an armored character, by
    the two ranges of [convert_decimal_to_ascii_code] read backwards, and the
    bits of an armored text. *)
Definition sixbits_of_armor_char (c : ascii) : Z :=
  let code := Z.of_N (N_of_ascii c) in
  if code <? 88 then code - 48 else code - 56.

Fixpoint unarmor (s : string) : string :=
  match s with
  | EmptyString => EmptyString
  | String c rest => bits_of 6 (sixbits_of_armor_char c) ++ unarmor rest
  end.

(** [str(msg)], [times] times in a row, on the object each call leaves. *)
Fixpoint str_repeatedly {A : Type} `{AISMessage A} (times : nat) (self : A)
  : result A :=
  match times with
  | O => Ok self
  | S times' =>
      ' (_, self) <- __str__ self ;;
      str_repeatedly times' self
  end.

(** * Properties *)

Ltac bind_head r :=
  lazymatch r with
  | bind ?r' _ => bind_head r'
  | _ => r
  end.

(** One step through a chain of binds that returned: its first call
    returned too. *)
Ltac bind_step H :=
  match type of H with
  | bind ?r _ = Ok _ =>
      let E := fresh "E" in
      let r0 := bind_head r in
      destruct r0 eqn:E; cbn [bind] in H; [| discriminate H]
  end.

(** ** Strings *)

Lemma length_append (a b : string) :
  String.length (a ++ b) = (String.length a + String.length b)%nat.
Proof. induction a as [|c a IH]; simpl; [reflexivity | now rewrite IH]. Qed.

Lemma append_nil_r (a : string) : a ++ "" = a.
Proof. induction a as [|c a IH]; simpl; [reflexivity | now rewrite IH]. Qed.

Lemma append_assoc (a b c : string) : (a ++ b) ++ c = a ++ (b ++ c).
Proof. induction a as [|x a IH]; simpl; [reflexivity | now rewrite IH]. Qed.

Lemma length_str_repeat (c : ascii) (n : nat) :
  String.length (str_repeat c n) = n.
Proof. induction n as [|n IH]; simpl; [reflexivity | now rewrite IH]. Qed.

Lemma all_chars_append (p : ascii -> bool) (a b : string) :
  all_chars p (a ++ b) = all_chars p a && all_chars p b.
Proof.
  induction a as [|c a IH]; simpl; [reflexivity |].
  now rewrite IH, andb_assoc.
Qed.

Lemma all_chars_str_repeat (p : ascii -> bool) (c : ascii) (n : nat) :
  p c = true -> all_chars p (str_repeat c n) = true.
Proof. intros Hc; induction n as [|n IH]; simpl; [reflexivity | now rewrite Hc, IH]. Qed.

Lemma length_substring (s : string) (n m : nat) :
  (n + m <= String.length s)%nat -> String.length (substring n m s) = m.
Proof.
  revert n m; induction s as [|c s IH]; intros n m Hle; simpl in *.
  - destruct n, m; simpl; lia.
  - destruct n as [|n].
    + destruct m as [|m]; simpl; [reflexivity |].
      rewrite (IH 0%nat m); [reflexivity | simpl; lia].
    + apply IH. lia.
Qed.

Lemma substring_split (s : string) (m : nat) :
  (m <= String.length s)%nat ->
  substring 0 m s ++ substring m (String.length s - m) s = s.
Proof.
  revert m; induction s as [|c s IH]; intros m Hle; simpl in *.
  - destruct m; simpl; [reflexivity | lia].
  - destruct m as [|m]; simpl.
    + f_equal. specialize (IH 0%nat (Nat.le_0_l _)).
      rewrite Nat.sub_0_r in IH.
      destruct s; simpl in *; [reflexivity | exact IH].
    + f_equal. apply IH. lia.
Qed.

Lemma all_chars_substring (p : ascii -> bool) (s : string) (n m : nat) :
  all_chars p s = true -> all_chars p (substring n m s) = true.
Proof.
  revert n m; induction s as [|c s IH]; intros n m Hs; simpl in *.
  - destruct n, m; reflexivity.
  - apply andb_true_iff in Hs as [Hc Hs].
    destruct n as [|n].
    + destruct m as [|m]; simpl; [reflexivity |].
      now rewrite Hc, (IH 0%nat m Hs).
    + now apply IH.
Qed.

(** ** Bit fields *)

Lemma length_bits_of (w : nat) (n : Z) : String.length (bits_of w n) = w.
Proof. induction w as [|w IH]; simpl; [reflexivity | now rewrite IH]. Qed.

Lemma is_bits_bits_of (w : nat) (n : Z) : is_bits (bits_of w n) = true.
Proof.
  induction w as [|w IH]; simpl; [reflexivity |].
  unfold is_bits in *; simpl; rewrite IH.
  now destruct (Z.testbit n (Z.of_nat w)).
Qed.

(** A bit field that [convert_int_to_bits] returns has the width asked for. *)
Lemma convert_int_to_bits_ok (num : Z) (w : nat) (sg : bool) (bits : string) :
  convert_int_to_bits num w sg = Ok bits ->
  String.length bits = w /\ is_bits bits = true.
Proof.
  unfold convert_int_to_bits. intros H.
  destruct sg.
  - destruct (_ && _); [| discriminate].
    injection H as <-. split; [apply length_bits_of | apply is_bits_bits_of].
  - destruct (_ && _); [| discriminate].
    injection H as <-. split; [apply length_bits_of | apply is_bits_bits_of].
Qed.

Lemma convert_int_to_bits_unsigned (num : Z) (w : nat) :
  0 <= num < 2 ^ Z.of_nat w ->
  convert_int_to_bits num w false = Ok (bits_of w num).
Proof.
  intros [H0 H1]. unfold convert_int_to_bits.
  apply Z.leb_le in H0. apply Z.ltb_lt in H1. now rewrite H0, H1.
Qed.

Lemma bits_value_bits_of (w : nat) (n acc : Z) :
  bits_value (bits_of w n) acc = Ok (acc * 2 ^ Z.of_nat w + n mod 2 ^ Z.of_nat w).
Proof.
  revert acc; induction w as [|w IH]; intros acc.
  - simpl. rewrite Z.mod_1_r. f_equal. lia.
  - cbn [bits_of bits_value].
    assert (Hrec : n mod 2 ^ Z.of_nat (S w)
                   = n mod 2 ^ Z.of_nat w
                     + 2 ^ Z.of_nat w * Z.b2z (Z.testbit n (Z.of_nat w))).
    { rewrite Z.testbit_spec' by lia.
      rewrite Nat2Z.inj_succ, Z.pow_succ_r by lia.
      rewrite (Z.mul_comm 2). apply Z.rem_mul_r; lia. }
    assert (Hpow : 2 ^ Z.of_nat (S w) = 2 * 2 ^ Z.of_nat w).
    { rewrite Nat2Z.inj_succ, Z.pow_succ_r by lia. reflexivity. }
    destruct (Z.testbit n (Z.of_nat w)); cbn [bit_char Z.b2z] in *;
      change (Ascii.eqb "1" "0") with false;
      change (Ascii.eqb "1" "1") with true;
      change (Ascii.eqb "0" "0") with true; cbv iota;
      rewrite IH, Hrec, Hpow; f_equal; ring.
Qed.

Lemma bits_value_total (bits : string) (acc : Z) :
  is_bits bits = true -> exists v, bits_value bits acc = Ok v.
Proof.
  revert acc; induction bits as [|c bits IH]; intros acc Hb; simpl in *.
  - now exists acc.
  - unfold is_bits in Hb; simpl in Hb.
    apply andb_true_iff in Hb as [Hc Hb].
    unfold is_bit in Hc.
    destruct (Ascii.eqb c "0"); [now apply IH |].
    destruct (Ascii.eqb c "1"); [now apply IH | discriminate].
Qed.

(** ** Binary64 numbers *)

(** The product of two finite floats is the rounding of the exact product of
    their mantissas ([mul_spec]); the lemmas below bound what the rounding
    returns, and read the order of two floats on their mantissas and
    exponents. *)

(** The mantissa of a finite float and its number of digits. *)
Lemma digits2_pos_bounds (m : positive) :
  2 ^ (Zpos (digits2_pos m) - 1) <= Zpos m < 2 ^ Zpos (digits2_pos m).
Proof.
  induction m as [m IH | m IH |]; cbn [digits2_pos].
  - rewrite Pos2Z.inj_succ.
    replace (Z.succ (Zpos (digits2_pos m)) - 1) with (Z.succ (Zpos (digits2_pos m) - 1)) by lia.
    rewrite !Z.pow_succ_r by lia. lia.
  - rewrite Pos2Z.inj_succ.
    replace (Z.succ (Zpos (digits2_pos m)) - 1) with (Z.succ (Zpos (digits2_pos m) - 1)) by lia.
    rewrite !Z.pow_succ_r by lia. lia.
  - cbn. lia.
Qed.

(** A right shift of the mantissa is a division by a power of two. *)
Lemma shr_1_m (mrs : shr_record) :
  0 <= shr_m mrs -> shr_m (shr_1 mrs) = shr_m mrs / 2.
Proof.
  destruct mrs as [m r s]. cbn [shr_m shr_1]. intros H.
  destruct m as [|p|p]; [reflexivity | | lia].
  destruct p as [p|p|]; cbn [shr_m].
  - rewrite Pos2Z.inj_xI. apply Z.div_unique with (r := 1); lia.
  - rewrite Pos2Z.inj_xO. apply Z.div_unique with (r := 0); lia.
  - reflexivity.
Qed.

Lemma iter_shr_1_m (p : positive) :
  forall mrs, 0 <= shr_m mrs ->
  shr_m (iter_pos shr_1 p mrs) = shr_m mrs / 2 ^ Zpos p.
Proof.
  induction p as [p IH | p IH |]; intros mrs H; cbn [iter_pos].
  - assert (H1 : 0 <= shr_m (shr_1 mrs)).
    { rewrite shr_1_m by exact H. apply Z.div_pos; lia. }
    assert (H2 : 0 <= shr_m (iter_pos shr_1 p (shr_1 mrs))).
    { rewrite IH by exact H1. apply Z.div_pos; [exact H1 | apply Z.pow_pos_nonneg; lia]. }
    rewrite IH by exact H2. rewrite IH by exact H1. rewrite shr_1_m by exact H.
    rewrite !Z.div_div by (try apply Z.pow_pos_nonneg; lia).
    f_equal.
    replace (Zpos p~1) with (1 + Zpos p + Zpos p) by lia.
    rewrite !Z.pow_add_r by lia. change (2 ^ 1) with 2. ring.
  - assert (H2 : 0 <= shr_m (iter_pos shr_1 p mrs)).
    { rewrite IH by exact H. apply Z.div_pos; [exact H | apply Z.pow_pos_nonneg; lia]. }
    rewrite IH by exact H2. rewrite IH by exact H.
    rewrite !Z.div_div by (try apply Z.pow_pos_nonneg; lia).
    f_equal.
    replace (Zpos p~0) with (Zpos p + Zpos p) by lia.
    rewrite !Z.pow_add_r by lia. reflexivity.
  - rewrite shr_1_m by exact H. reflexivity.
Qed.

Lemma shr_spec (mrs : shr_record) (e n : Z) :
  0 <= shr_m mrs ->
  shr_m (fst (shr mrs e n)) = shr_m mrs / 2 ^ Z.max 0 n
  /\ snd (shr mrs e n) = e + Z.max 0 n.
Proof.
  intros H. unfold shr. destruct n as [|p|p]; cbn [fst snd].
  - cbn. rewrite Z.div_1_r. lia.
  - rewrite iter_shr_1_m by exact H. rewrite Z.max_r by lia. split; reflexivity.
  - cbn. rewrite Z.div_1_r. lia.
Qed.

(** Rounding to nearest adds at most one unit to the shifted mantissa. *)
Lemma round_nearest_even_bounds (q : Z) (l : location) :
  q <= round_nearest_even q l <= q + 1.
Proof.
  unfold round_nearest_even.
  destruct l as [|[| |]]; try lia. destruct (Z.even q); lia.
Qed.

Lemma Zdigits2_le (m k : Z) :
  0 <= m < 2 ^ k -> 0 <= k -> Zdigits2 m <= k.
Proof.
  intros [H0 H1] Hk. destruct m as [|p|p]; [cbn; lia | | lia].
  cbn [Zdigits2].
  pose proof (digits2_pos_bounds p) as [Hl _].
  destruct (Z_le_gt_dec (Zpos (digits2_pos p)) k) as [Hle | Hgt]; [exact Hle |].
  exfalso.
  assert (2 ^ k <= 2 ^ (Zpos (digits2_pos p) - 1)) by (apply Z.pow_le_mono_r; lia).
  lia.
Qed.

(** The rounding of an exact product that is at most [B]: zero, or a finite
    number whose integer part is at most [B]. *)
Lemma binary_round_aux_bound (s : bool) (M : positive) (E B : Z) :
  E <= -1 -> 0 <= B < 2 ^ 52 -> Zpos M <= B * 2 ^ (- E) ->
  match binary_round_aux prec emax s (Zpos M) E loc_Exact with
  | S754_zero s' => s' = s
  | S754_finite s' m e => s' = s /\ trunc_mag m e <= B
  | _ => False
  end.
Proof.
  intros HE [HB0 HB] HM.
  unfold binary_round_aux, shr_fexp.
  cbn [shr_record_of_loc].
  set (d := Zdigits2 (Zpos M)).
  set (n1 := SpecFloat.fexp prec emax (d + E) - E).
  pose proof (shr_spec (Build_shr_record (Zpos M) false false) E n1 ltac:(cbn; lia))
    as [Hq He'].
  destruct (shr (Build_shr_record (Zpos M) false false) E n1) as [mrs' e'] eqn:Es.
  cbn [fst snd shr_m] in Hq, He'.
  set (a := Z.max 0 n1) in *.
  assert (Ha : 0 <= a) by lia.
  (* digits of the product *)
  assert (Hd : d <= 52 - E).
  { apply Zdigits2_le; [| lia]. split; [lia |].
    apply Z.le_lt_trans with (1 := HM).
    replace (52 - E) with (52 + - E) by lia. rewrite Z.pow_add_r by lia.
    apply Z.mul_lt_mono_pos_r; [apply Z.pow_pos_nonneg; lia | lia]. }
  assert (He1 : e' <= -1).
  { rewrite He'. subst a n1. unfold SpecFloat.fexp, SpecFloat.emin, prec, emax. lia. }
  set (k := - e').
  assert (Hk : 1 <= k) by lia.
  assert (HEk : - E = a + k) by lia.
  assert (P2k : 2 <= 2 ^ k).
  { change 2 with (2 ^ 1) at 1. apply Z.pow_le_mono_r; lia. }
  assert (Pa : 0 < 2 ^ a) by (apply Z.pow_pos_nonneg; lia).
  assert (Hq1 : 0 <= shr_m mrs' <= B * 2 ^ k).
  { rewrite Hq. split; [apply Z.div_pos; lia |].
    apply Z.le_trans with ((B * 2 ^ (- E)) / 2 ^ a);
      [apply Z.div_le_mono; lia |].
    rewrite HEk, Z.pow_add_r by lia.
    replace (B * (2 ^ a * 2 ^ k)) with (B * 2 ^ k * 2 ^ a) by ring.
    rewrite Z.div_mul by lia. lia. }
  pose proof (round_nearest_even_bounds (shr_m mrs') (loc_of_shr_record mrs')) as Hr.
  set (m' := round_nearest_even (shr_m mrs') (loc_of_shr_record mrs')) in *.
  assert (Hm' : 0 <= m' <= B * 2 ^ k + 1) by lia.
  set (n2 := SpecFloat.fexp prec emax (Zdigits2 m' + e') - e').
  pose proof (shr_spec (Build_shr_record m' false false) e' n2 ltac:(cbn; lia))
    as [Hq2 He2].
  destruct (shr (Build_shr_record m' false false) e' n2) as [mrs'' e''] eqn:Es2.
  cbn [fst snd shr_m] in Hq2, He2.
  set (a2 := Z.max 0 n2) in *.
  assert (Hd' : Zdigits2 m' <= 52 + k).
  { apply Zdigits2_le; [| lia]. split; [lia |].
    rewrite Z.pow_add_r by lia.
    assert (B * 2 ^ k + 1 < 2 ^ 52 * 2 ^ k) by nia. lia. }
  assert (He'' : e'' <= -1).
  { rewrite He2. subst a2 n2. unfold SpecFloat.fexp, SpecFloat.emin, prec, emax. lia. }
  assert (Ha2 : 0 <= a2 /\ a2 <= k - 1) by lia.
  assert (Pa2 : 0 < 2 ^ a2) by (apply Z.pow_pos_nonneg; lia).
  assert (Hm'' : 0 <= shr_m mrs'').
  { rewrite Hq2. apply Z.div_pos; lia. }
  destruct (shr_m mrs'') as [|m|m] eqn:Em; [reflexivity | | lia].
  replace (e'' <=? emax - prec) with true
    by (symmetry; apply Z.leb_le; unfold emax, prec; lia).
  split; [reflexivity |].
  unfold trunc_mag. replace (0 <=? e'') with false by (symmetry; apply Z.leb_gt; lia).
  rewrite Hq2.
  rewrite Z.div_div by (try apply Z.pow_pos_nonneg; lia).
  rewrite <- Z.pow_add_r by lia.
  replace (a2 + - e'') with k by lia.
  apply Z.le_trans with ((B * 2 ^ k + 1) / 2 ^ k);
    [apply Z.div_le_mono; lia |].
  rewrite Z.div_add_l by lia.
  rewrite Z.div_small by lia. lia.
Qed.

Lemma trunc_mag_nonneg (m : positive) (e : Z) : 0 <= trunc_mag m e.
Proof.
  unfold trunc_mag. destruct (0 <=? e) eqn:E.
  - apply Z.leb_le in E. apply Z.mul_nonneg_nonneg; [lia | apply Z.pow_nonneg; lia].
  - apply Z.div_pos; [lia | apply Z.pow_pos_nonneg; lia].
Qed.

(** The mantissa of a float has at most 53 digits. *)
Lemma bounded_mantissa (m : positive) (e : Z) :
  bounded prec emax m e = true -> Zpos m < 2 ^ 53.
Proof.
  unfold bounded, canonical_mantissa. intros H.
  apply andb_true_iff in H as [H _]. apply Z.eqb_eq in H.
  pose proof (digits2_pos_bounds m) as [_ Hd].
  assert (Hle : Zpos (digits2_pos m) <= 53).
  { revert H. unfold SpecFloat.fexp, SpecFloat.emin, prec, emax. lia. }
  apply Z.lt_le_trans with (1 := Hd). apply Z.pow_le_mono_r; lia.
Qed.

(** The order of two finite floats of one sign, with the larger one normal. *)
Lemma magnitude_core (m mb : positive) (e eb : Z) :
  Zpos m < 2 ^ 53 -> 2 ^ 52 <= Zpos mb ->
  e < eb \/ (e = eb /\ Zpos m <= Zpos mb) ->
  e <= eb /\ Zpos m <= Zpos mb * 2 ^ (eb - e).
Proof.
  intros Hm Hb [Hlt | [-> Hle]].
  - split; [lia |].
    assert (2 ^ 1 <= 2 ^ (eb - e)) by (apply Z.pow_le_mono_r; lia).
    change (2 ^ 53) with (2 * 2 ^ 52) in Hm. change (2 ^ 1) with 2 in H. nia.
  - split; [lia |]. rewrite Z.sub_diag. cbn. lia.
Qed.

Lemma SFltb_upper (m mb : positive) (e eb : Z) :
  SFltb (S754_finite false mb eb) (S754_finite false m e) = false ->
  e < eb \/ (e = eb /\ Zpos m <= Zpos mb).
Proof.
  unfold SFltb, SFcompare.
  destruct (Z.compare_spec eb e) as [-> | Hlt | Hgt]; [| discriminate | intros _; lia].
  intros H. right. split; [reflexivity |].
  destruct (Pos.compare_cont Eq mb m) eqn:E; try discriminate H.
  - apply Pos.compare_eq in E. subst. lia.
  - apply (proj1 (Pos.compare_gt_iff _ _)) in E. lia.
Qed.

Lemma SFleb_upper (m mb : positive) (e eb : Z) :
  SFleb (S754_finite false m e) (S754_finite false mb eb) = true ->
  e < eb \/ (e = eb /\ Zpos m <= Zpos mb).
Proof.
  unfold SFleb, SFcompare.
  destruct (Z.compare_spec e eb) as [-> | Hlt | Hgt]; [| intros _; lia | discriminate].
  intros H. right. split; [reflexivity |].
  destruct (Pos.compare_cont Eq m mb) eqn:E; try discriminate H.
  - apply Pos.compare_eq in E. subst. lia.
  - apply (proj1 (Pos.compare_lt_iff _ _)) in E. lia.
Qed.

Lemma SFleb_lower (m mb : positive) (e eb : Z) :
  SFleb (S754_finite true mb eb) (S754_finite true m e) = true ->
  e < eb \/ (e = eb /\ Zpos m <= Zpos mb).
Proof.
  unfold SFleb, SFcompare.
  destruct (Z.compare_spec eb e) as [-> | Hlt | Hgt]; [| discriminate | intros _; lia].
  intros H. right. split; [reflexivity |].
  destruct (Pos.compare_cont Eq mb m) eqn:E; cbn in H; try discriminate H.
  - apply Pos.compare_eq in E. subst. lia.
  - apply (proj1 (Pos.compare_gt_iff _ _)) in E. lia.
Qed.

(** [0 <= x] on floats. *)
Lemma leb_zero_not_negative (x : float) :
  (0 <=? x)%float = true <-> not_negative x.
Proof.
  rewrite leb_spec. unfold not_negative.
  change (Prim2SF 0) with (S754_zero false).
  destruct (Prim2SF x) as [s | s | | s m e]; cbn;
    try destruct s; cbn; split; intros H; try exact I; try reflexivity;
    try discriminate H; try contradiction.
Qed.

(** A float between [-b] and [b]. *)
Lemma between_magnitude_le (x lo hi : float) (mb : positive) (eb : Z) :
  Prim2SF lo = S754_finite true mb eb -> Prim2SF hi = S754_finite false mb eb ->
  2 ^ 52 <= Zpos mb ->
  (lo <=? x)%float = true -> (x <=? hi)%float = true ->
  magnitude_le x mb eb.
Proof.
  intros Hlo Hhi Hb. rewrite !leb_spec, Hlo, Hhi. unfold magnitude_le.
  pose proof (Prim2SF_valid x) as Hv.
  destruct (Prim2SF x) as [s | s | | s m e]; cbn [valid_binary] in Hv.
  - intros _ _. exact I.
  - destruct s; cbn; intros H1 H2; discriminate.
  - cbn. intros H1; discriminate.
  - apply bounded_mantissa in Hv. intros H1 H2.
    apply magnitude_core; [exact Hv | exact Hb |].
    destruct s.
    + now apply SFleb_lower.
    + now apply SFleb_upper.
Qed.

(** A float from 0 up that is not above [b]. *)
Lemma below_magnitude_le (x hi : float) (mb : positive) (eb : Z) :
  Prim2SF hi = S754_finite false mb eb ->
  2 ^ 52 <= Zpos mb ->
  (0 <=? x)%float = true -> (hi <? x)%float = false ->
  magnitude_le x mb eb.
Proof.
  intros Hhi Hb. rewrite leb_spec, ltb_spec, Hhi. unfold magnitude_le.
  change (Prim2SF 0) with (S754_zero false).
  pose proof (Prim2SF_valid x) as Hv.
  destruct (Prim2SF x) as [s | s | | s m e]; cbn [valid_binary] in Hv.
  - intros _ _. exact I.
  - destruct s; cbn; intros H1 H2; discriminate.
  - cbn. intros H1; discriminate.
  - apply bounded_mantissa in Hv. intros H1 H2.
    apply magnitude_core; [exact Hv | exact Hb |].
    destruct s; [cbn in H1; discriminate H1 |].
    now apply SFltb_upper.
Qed.

(** [int(x * c)] for [x] of bounded magnitude and a positive constant [c]
    whose exact product with the bound is at most [B]: the conversion
    returns, and the integer is within [B] of zero. *)
Lemma int_of_float_scaled (field : string) (x c : float) (mb mc : positive)
    (eb ec B : Z) :
  Prim2SF c = S754_finite false mc ec ->
  magnitude_le x mb eb ->
  eb + ec <= -1 -> 0 <= B < 2 ^ 52 ->
  Zpos mb * Zpos mc <= B * 2 ^ (- eb - ec) ->
  exists n, int_of_float field (x * c) = Ok n
    /\ - B <= n <= B
    /\ (not_negative x -> 0 <= n).
Proof.
  intros Hc Hx He HB Hbound.
  unfold int_of_float, magnitude_le, not_negative in *.
  rewrite mul_spec, Hc.
  destruct (Prim2SF x) as [s | s | | s m e]; try contradiction.
  - cbn. exists 0. repeat split; lia.
  - destruct Hx as [Hex Hm].
    unfold SF64mul, SFmul.
    pose proof (binary_round_aux_bound (xorb s false) (m * mc) (e + ec) B) as Hr.
    assert (HM : Zpos (m * mc) <= B * 2 ^ (- (e + ec))).
    { rewrite Pos2Z.inj_mul.
      replace (- (e + ec)) with ((- eb - ec) + (eb - e)) by lia.
      rewrite Z.pow_add_r by lia.
      assert (0 < 2 ^ (eb - e)) by (apply Z.pow_pos_nonneg; lia).
      assert (0 <= 2 ^ (- eb - ec)) by (apply Z.pow_nonneg; lia).
      apply Z.le_trans with (Zpos mb * 2 ^ (eb - e) * Zpos mc); [nia |].
      replace (Zpos mb * 2 ^ (eb - e) * Zpos mc)
        with (Zpos mb * Zpos mc * 2 ^ (eb - e)) by ring.
      replace (B * (2 ^ (- eb - ec) * 2 ^ (eb - e)))
        with (B * 2 ^ (- eb - ec) * 2 ^ (eb - e)) by ring.
      apply Z.mul_le_mono_nonneg_r; lia. }
    specialize (Hr ltac:(lia) HB HM).
    destruct (binary_round_aux prec emax (xorb s false) (Zpos (m * mc)) (e + ec) loc_Exact)
      as [s' | s' | | s' m' e']; try contradiction.
    + exists 0. repeat split; lia.
    + destruct Hr as [-> Hr]. pose proof (trunc_mag_nonneg m' e') as Hn.
      exists (cond_Zopp (xorb s false) (trunc_mag m' e')).
      split; [reflexivity |].
      destruct s; cbn [xorb cond_Zopp]; split; try lia; intros Hs; try contradiction; lia.
Qed.

(** ** Wrapping *)

Lemma wrap_lines_step (fuel : nat) (text : string) (width : nat) :
  wrap_lines (S fuel) text width =
  if (String.length text =? 0)%nat then []
  else if (String.length text <=? width)%nat then [text]
  else substring 0 width text
       :: wrap_lines fuel (substring width (String.length text - width) text) width.
Proof. reflexivity. Qed.

(** The lines of a wrapped text, joined again, are the text. *)
Lemma wrap_lines_concat (width : nat) (Hw : (0 < width)%nat) :
  forall fuel text, (String.length text <= fuel)%nat ->
  String.concat "" (wrap_lines fuel text width) = text.
Proof.
  induction fuel as [|fuel IH]; intros text Hlen.
  - destruct text; simpl in *; [reflexivity | lia].
  - rewrite wrap_lines_step.
    destruct (String.length text =? 0)%nat eqn:E0.
    + apply Nat.eqb_eq in E0. destruct text; simpl in *; [reflexivity | lia].
    + apply Nat.eqb_neq in E0.
      destruct (String.length text <=? width)%nat eqn:E1; [reflexivity |].
      apply Nat.leb_gt in E1.
      set (rest := substring width (String.length text - width) text).
      assert (Hrest : String.length rest = (String.length text - width)%nat)
        by (apply length_substring; lia).
      assert (Hcat : String.concat "" (wrap_lines fuel rest width) = rest)
        by (apply IH; lia).
      cbn [String.concat].
      destruct (wrap_lines fuel rest width) as [|l ls] eqn:El.
      * cbn [String.concat] in Hcat.
        rewrite <- (substring_split text width) at 2 by lia.
        fold rest. now rewrite <- Hcat, append_nil_r.
      * rewrite Hcat. cbn [append].
        rewrite <- (substring_split text width) at 2 by lia. reflexivity.
Qed.

(** No line of a wrapped text is empty or longer than the width. *)
Lemma wrap_lines_width (width : nat) (Hw : (0 < width)%nat) :
  forall fuel text,
  Forall (fun line => 1 <= String.length line <= width)%nat
         (wrap_lines fuel text width).
Proof.
  induction fuel as [|fuel IH]; intros text; [constructor |].
  rewrite wrap_lines_step.
  destruct (String.length text =? 0)%nat eqn:E0; [constructor |].
  apply Nat.eqb_neq in E0.
  destruct (String.length text <=? width)%nat eqn:E1.
  - apply Nat.leb_le in E1. constructor; [lia | constructor].
  - apply Nat.leb_gt in E1. constructor; [| apply IH].
    rewrite length_substring; lia.
Qed.

(** The number of lines is the length divided by the width, rounded up. *)
Lemma wrap_lines_count (width : nat) (Hw : (0 < width)%nat) :
  forall fuel text, (String.length text <= fuel)%nat ->
  List.length (wrap_lines fuel text width)
  = ((String.length text + (width - 1)) / width)%nat.
Proof.
  induction fuel as [|fuel IH]; intros text Hlen.
  - assert (String.length text = 0)%nat as -> by lia. simpl.
    symmetry. apply Nat.div_small. lia.
  - rewrite wrap_lines_step.
    destruct (String.length text =? 0)%nat eqn:E0.
    + apply Nat.eqb_eq in E0. rewrite E0. simpl.
      symmetry. apply Nat.div_small. lia.
    + apply Nat.eqb_neq in E0.
      destruct (String.length text <=? width)%nat eqn:E1.
      * apply Nat.leb_le in E1. simpl.
        apply Nat.div_unique with (r := (String.length text - 1)%nat); lia.
      * apply Nat.leb_gt in E1. cbn [List.length].
        rewrite IH by (rewrite length_substring; lia).
        rewrite length_substring by lia.
        replace (String.length text + (width - 1))%nat
          with (String.length text - width + (width - 1) + 1 * width)%nat by lia.
        rewrite Nat.div_add by lia. lia.
Qed.

(** ** Armoring *)

Lemma fill_last (n : nat) :
  (n <> 0 -> n <= 6 -> (6 - n mod 6) mod 6 = 6 - n)%nat.
Proof.
  intros H0 H6.
  assert (n = 6 \/ n < 6)%nat as [-> | Hlt] by lia; [reflexivity |].
  rewrite (Nat.mod_small n 6) by lia. now rewrite Nat.mod_small by lia.
Qed.

Lemma count_last (n : nat) : (n <> 0 -> n <= 6 -> (n + 5) / 6 = 1)%nat.
Proof.
  intros H0 H6. symmetry.
  apply Nat.div_unique with (r := (n - 1)%nat); lia.
Qed.

Lemma count_step (n : nat) :
  (6 < n -> S ((n - 6 + 5) / 6) = (n + 5) / 6)%nat.
Proof.
  intros H. replace (n + 5)%nat with ((n - 6 + 5) + 1 * 6)%nat by lia.
  rewrite Nat.div_add by lia. lia.
Qed.

Lemma fill_step (n : nat) :
  (6 < n -> (6 - (n - 6) mod 6) mod 6 = (6 - n mod 6) mod 6)%nat.
Proof.
  intros H.
  replace (n mod 6)%nat with ((n - 6) mod 6)%nat; [reflexivity |].
  replace n with ((n - 6) + 1 * 6)%nat at 2 by lia.
  now rewrite Nat.Div0.mod_add.
Qed.

Lemma pad_item_spec (n : nat) :
  forall item fill,
  pad_item n item fill = (item ++ str_repeat "0" n, fill + Z.of_nat n).
Proof.
  induction n as [|n IH]; intros item fill.
  - simpl. rewrite append_nil_r. f_equal. lia.
  - cbn [pad_item str_repeat]. rewrite IH, append_assoc. cbn [append].
    f_equal. lia.
Qed.

(** The loop of [encode] on the six-bit items of a bit field: it returns one
    character per item and adds to [fill_bits] what the last item lacks. *)
Lemma encode_items_wrap :
  forall fuel text payload fill,
  (String.length text <= fuel)%nat ->
  is_bits text = true ->
  exists s,
    encode_items (wrap_lines fuel text 6) payload fill
    = Ok (payload ++ s,
          fill + Z.of_nat ((6 - String.length text mod 6) mod 6))
    /\ String.length s = ((String.length text + 5) / 6)%nat.
Proof.
  induction fuel as [|fuel IH]; intros text payload fill Hlen Hbits.
  - assert (E : String.length text = 0%nat) by lia.
    exists "". rewrite E. simpl. rewrite append_nil_r. split; [f_equal; f_equal; lia | reflexivity].
  - rewrite wrap_lines_step.
    destruct (String.length text =? 0)%nat eqn:E0.
    + apply Nat.eqb_eq in E0. exists "". rewrite E0. simpl.
      rewrite append_nil_r. split; [f_equal; f_equal; lia | reflexivity].
    + apply Nat.eqb_neq in E0.
      destruct (String.length text <=? 6)%nat eqn:E1.
      * apply Nat.leb_le in E1.
        cbn [encode_items]. rewrite pad_item_spec.
        destruct (bits_value_total
                    (text ++ str_repeat "0" (6 - String.length text)) 0)
          as [v Hv].
        { unfold is_bits. rewrite all_chars_append. unfold is_bits in Hbits.
          rewrite Hbits. now rewrite all_chars_str_repeat. }
        unfold convert_bits_to_int. rewrite Hv. cbn [bind encode_items].
        exists (String (get_char_of_ascii_code (convert_decimal_to_ascii_code v)) "").
        split.
        -- rewrite fill_last by assumption. reflexivity.
        -- cbn [String.length]. now rewrite count_last.
      * apply Nat.leb_gt in E1.
        cbn [encode_items]. rewrite pad_item_spec.
        rewrite length_substring by lia.
        change (6 - 6)%nat with 0%nat. cbn [str_repeat].
        rewrite append_nil_r.
        destruct (bits_value_total (substring 0 6 text) 0) as [v Hv].
        { now apply all_chars_substring. }
        unfold convert_bits_to_int. rewrite Hv. cbn [bind].
        set (ch := get_char_of_ascii_code (convert_decimal_to_ascii_code v)).
        destruct (IH (substring 6 (String.length text - 6) text)
                     (payload ++ String ch "") (fill + Z.of_nat 0))
          as [s [Hs Hl]].
        { rewrite length_substring; lia. }
        { now apply all_chars_substring. }
        rewrite length_substring in Hs, Hl by lia.
        exists (String ch s). rewrite Hs. split.
        -- rewrite append_assoc. cbn [append].
           rewrite fill_step by assumption. do 2 f_equal. lia.
        -- cbn [String.length]. rewrite Hl. now apply count_step.
Qed.

Lemma bits_value_bound (bits : string) :
  forall acc v,
  bits_value bits acc = Ok v ->
  acc * 2 ^ Z.of_nat (String.length bits)
  <= v < (acc + 1) * 2 ^ Z.of_nat (String.length bits).
Proof.
  induction bits as [|c bits IH]; intros acc v H.
  - cbn in H. injection H as <-. cbn. lia.
  - cbn [bits_value] in H. cbn [String.length].
    rewrite Nat2Z.inj_succ, Z.pow_succ_r by lia.
    assert (Hp : 0 < 2 ^ Z.of_nat (String.length bits))
      by (apply Z.pow_pos_nonneg; lia).
    destruct (Ascii.eqb c "0").
    + apply IH in H. nia.
    + destruct (Ascii.eqb c "1"); [| discriminate H].
      apply IH in H. nia.
Qed.

Lemma armor_char_of_sixbits (v : Z) :
  0 <= v < 64 ->
  is_armor_char (get_char_of_ascii_code (convert_decimal_to_ascii_code v)) = true.
Proof.
  intros Hv. unfold is_armor_char, get_char_of_ascii_code,
    convert_decimal_to_ascii_code.
  destruct (v <? 40) eqn:E.
  - apply Z.ltb_lt in E.
    rewrite N_ascii_embedding by lia. rewrite Z2N.id by lia.
    apply orb_true_iff. left. apply andb_true_iff. split; apply Z.leb_le; lia.
  - apply Z.ltb_ge in E.
    rewrite N_ascii_embedding by lia. rewrite Z2N.id by lia.
    apply orb_true_iff. right. apply andb_true_iff. split; apply Z.leb_le; lia.
Qed.

(** The loop of [encode] writes characters of the armoring alphabet only, so
    the armored payload is one word for [textwrap.wrap]. *)
Lemma encode_items_alphabet (items : list string) :
  forall payload fill s fill',
  Forall (fun item => (String.length item <= 6)%nat) items ->
  all_chars is_armor_char payload = true ->
  encode_items items payload fill = Ok (s, fill') ->
  all_chars is_armor_char s = true.
Proof.
  induction items as [|item items IH]; intros payload fill s fill' Hw Hp H;
    cbn [encode_items] in H.
  - injection H as <- _. exact Hp.
  - inversion Hw as [|x l Hi Hrest]; subst.
    rewrite pad_item_spec in H. bind_step H.
    apply bits_value_bound in E.
    rewrite length_append, length_str_repeat in E.
    replace (String.length item + (6 - String.length item))%nat with 6%nat
      in E by lia.
    change (2 ^ Z.of_nat 6) with 64 in E.
    apply (IH _ _ _ _ Hrest) in H; [exact H |].
    rewrite all_chars_append, Hp. cbn [all_chars andb].
    rewrite armor_char_of_sixbits by lia. reflexivity.
Qed.

Lemma wrap_lines_le (width : nat) (Hw : (0 < width)%nat) (fuel : nat)
    (text : string) :
  Forall (fun line => (String.length line <= width)%nat)
         (wrap_lines fuel text width).
Proof.
  eapply Forall_impl; [| apply (wrap_lines_width width Hw)].
  cbv beta. intros line H. lia.
Qed.

Lemma armored_payload_alphabet {A : Type} `{AISMessage A} (self self' : A)
    (s : string) :
  encode self = Ok (s, self') -> all_chars is_armor_char s = true.
Proof.
  unfold encode, _payload_sixbits_list. intros Henc.
  bind_step Henc. cbn [bind] in Henc.
  destruct (encode_items (wrap a 6) "" (fill_bits self)) as [[p f]|] eqn:Ei;
    cbn [bind] in Henc; [| discriminate Henc].
  injection Henc as <- _.
  apply (encode_items_alphabet (wrap a 6) "" (fill_bits self) p f);
    [apply wrap_lines_le; lia | reflexivity | exact Ei].
Qed.

(** [encode], for a message of either class whose payload is a bit field. *)
Lemma encode_spec {A : Type} `{AISMessage A} (self : A) (bits : string) :
  payload_bits self = Ok bits ->
  is_bits bits = true ->
  exists s,
    encode self
    = Ok (s, set_fill_bits self
               (fill_bits self
                + Z.of_nat ((6 - String.length bits mod 6) mod 6)))
    /\ String.length s = ((String.length bits + 5) / 6)%nat.
Proof.
  intros Hp Hb.
  destruct (encode_items_wrap (String.length bits) bits "" (fill_bits self)
              (Nat.le_refl _) Hb) as [s [Hs Hl]].
  exists s. split; [| exact Hl].
  unfold encode, _payload_sixbits_list, wrap. rewrite Hp. cbn [bind].
  rewrite Hs. reflexivity.
Qed.

(** ** The attributes of [AISMsgType5] *)

Lemma ascii6_bits_ok (text : string) :
  forall acc s,
  ascii6_bits text acc = Ok s ->
  String.length s = (String.length acc + 6 * String.length text)%nat
  /\ (is_bits acc = true -> is_bits s = true).
Proof.
  induction text as [|c text IH]; intros acc s H; cbn [ascii6_bits] in H.
  - injection H as <-. simpl. split; [lia | trivial].
  - bind_step H. bind_step H.
    apply convert_int_to_bits_ok in E0 as [Hl Hb].
    apply IH in H as [Hlen Hbits]. split.
    + rewrite Hlen, length_append, Hl. cbn [String.length]. lia.
    + intros Hacc. apply Hbits. unfold is_bits in *.
      now rewrite all_chars_append, Hacc, Hb.
Qed.

Lemma length_fixed_text (text : string) (n : nat) :
  (String.length text <= n)%nat -> String.length (AISMsgType5.fixed_text text n) = n.
Proof.
  intros Hle. unfold AISMsgType5.fixed_text, add_padding.
  destruct (String.length text =? 0)%nat.
  - apply length_str_repeat.
  - rewrite length_append, length_str_repeat. lia.
Qed.

Lemma fixed_setter_ok (text : string) (n : nat) (s : string) :
  (String.length text <? n + 1)%nat = true ->
  ascii6_bits (AISMsgType5.fixed_text text n) "" = Ok s ->
  String.length s = (6 * n)%nat /\ is_bits s = true.
Proof.
  intros Hlt H. apply Nat.ltb_lt in Hlt.
  apply ascii6_bits_ok in H as [Hl Hb].
  rewrite length_fixed_text in Hl by lia.
  split; [exact Hl | now apply Hb].
Qed.

(** What the [call_sign] setter stores has 42 bits, and the setter leaves
    [fill_bits] as it found it. *)
Lemma call_sign_setter_ok (fill : Z) (call_sign bits : string) (fill' : Z) :
  AISMsgType5.call_sign_setter fill call_sign = Ok (bits, fill') ->
  String.length bits = 42%nat /\ is_bits bits = true /\ fill' = fill.
Proof.
  unfold AISMsgType5.call_sign_setter. intros H.
  destruct (String.length call_sign <? 7 + 1)%nat eqn:Hlen;
    cbn [negb] in H; [| discriminate H].
  bind_step H.
  apply fixed_setter_ok in E as [Hl Hb]; [| exact Hlen].
  rewrite Hl in H. change (6 * 7 <? 42)%nat with false in H.
  injection H as <- <-. auto.
Qed.

Lemma ship_name_setter_ok (ship_name bits : string) :
  AISMsgType5.ship_name_setter ship_name = Ok bits ->
  String.length bits = 120%nat /\ is_bits bits = true.
Proof.
  unfold AISMsgType5.ship_name_setter. intros H.
  destruct (String.length ship_name <? 20 + 1)%nat eqn:Hlen;
    cbn [negb] in H; [| discriminate H].
  now apply fixed_setter_ok in H.
Qed.

Lemma destination_setter_ok (destination bits : string) :
  AISMsgType5.destination_setter destination = Ok bits ->
  String.length bits = 120%nat /\ is_bits bits = true.
Proof.
  unfold AISMsgType5.destination_setter. intros H.
  destruct (String.length destination <? 20 + 1)%nat eqn:Hlen;
    cbn [negb] in H; [| discriminate H].
  now apply fixed_setter_ok in H.
Qed.

Lemma ship_type_setter_ok (value : Z) (bits : string) :
  AISMsgType5.ship_type_setter value = Ok bits ->
  String.length bits = 8%nat /\ is_bits bits = true.
Proof.
  unfold AISMsgType5.ship_type_setter. intros H.
  destruct (negb _); [discriminate H |].
  now apply convert_int_to_bits_ok in H.
Qed.

Lemma draught_setter_ok (value : float) (bits : string) :
  AISMsgType5.draught_setter value = Ok bits ->
  String.length bits = 8%nat /\ is_bits bits = true.
Proof.
  unfold AISMsgType5.draught_setter. intros H.
  destruct (value <? 0)%float; [discriminate H |].
  bind_step H. now apply convert_int_to_bits_ok in H.
Qed.

Lemma ShipDimension_bits_ok (d : ShipDimension) (bits : string) :
  ShipDimension_bits d = Ok bits ->
  String.length bits = 30%nat /\ is_bits bits = true.
Proof.
  unfold ShipDimension_bits. intros H.
  do 4 bind_step H. injection H as <-.
  apply convert_int_to_bits_ok in E as [L1 B1], E0 as [L2 B2],
    E1 as [L3 B3], E2 as [L4 B4].
  unfold is_bits in *.
  rewrite !length_append, !all_chars_append, L1, L2, L3, L4, B1, B2, B3, B4.
  split; reflexivity.
Qed.

Lemma ShipEta_bits_ok (e : ShipEta) (bits : string) :
  ShipEta_bits e = Ok bits ->
  String.length bits = 20%nat /\ is_bits bits = true.
Proof.
  unfold ShipEta_bits. intros H.
  do 4 bind_step H. injection H as <-.
  apply convert_int_to_bits_ok in E as [L1 B1], E0 as [L2 B2],
    E1 as [L3 B3], E2 as [L4 B4].
  unfold is_bits in *.
  rewrite !length_append, !all_chars_append, L1, L2, L3, L4, B1, B2, B3, B4.
  split; reflexivity.
Qed.

(** Every object that [AISMsgType5.__init__] returns: a payload of 424 bits
    and [fill_bits] at zero. *)
Lemma AISMsgType5_init_ok (mmsi imo : Z) (call_sign ship_name : string)
    (ship_type : Z) (dimension : ShipDimension) (eta : ShipEta) (draught : float)
    (destination : string) (m : AISMsgType5.t) :
  AISMsgType5.init mmsi imo call_sign ship_name ship_type dimension eta
    draught destination = Ok m ->
  String.length (AISMsgType5.payload_bits m) = 424%nat
  /\ is_bits (AISMsgType5.payload_bits m) = true
  /\ AISMsgType5.fill_bits m = 0.
Proof.
  unfold AISMsgType5.init. intros H.
  do 5 bind_step H.
  destruct (AISMsgType5.call_sign_setter 0 call_sign) as [[cs fb]|] eqn:Ecs;
    cbn [bind] in H; [| discriminate H].
  cbv beta iota in H.
  do 8 bind_step H. injection H as <-.
  unfold AISMsgType5.mmsi_setter, AISMsgType5.imo_setter,
    AISMsgType5.dimension_setter, AISMsgType5.eta_setter in *.
  apply convert_int_to_bits_ok in E as [L0 B0], E0 as [L1 B1],
    E1 as [L2 B2], E2 as [L3 B3], E3 as [L4 B4], E7 as [L9 B9],
    E11 as [L13 B13].
  apply call_sign_setter_ok in Ecs as [L5 [B5 F5]].
  apply ship_name_setter_ok in E4 as [L6 B6].
  apply ship_type_setter_ok in E5 as [L7 B7].
  apply ShipDimension_bits_ok in E6 as [L8 B8].
  apply ShipEta_bits_ok in E8 as [L10 B10].
  apply draught_setter_ok in E9 as [L11 B11].
  apply destination_setter_ok in E10 as [L12 B12].
  unfold AISMsgType5.payload_bits, is_bits in *. cbn [AISMsgType5.msg_type
    AISMsgType5.repeat_indicator AISMsgType5.mmsi AISMsgType5.ais_version
    AISMsgType5.imo AISMsgType5.call_sign AISMsgType5.ship_name
    AISMsgType5.ship_type AISMsgType5.dimension AISMsgType5.pos_fix_type
    AISMsgType5.eta AISMsgType5.draught AISMsgType5.destination
    AISMsgType5.dte AISMsgType5.spare AISMsgType5.fill_bits].
  rewrite !length_append, !all_chars_append.
  rewrite L0, L1, L2, L3, L4, L5, L6, L7, L8, L9, L10, L11, L12, L13.
  rewrite B0, B1, B2, B3, B4, B5, B6, B7, B8, B9, B10, B11, B12, B13.
  split; [reflexivity | split; [reflexivity | exact F5]].
Qed.

(** ** The payload of [AISMsgPayloadType1] *)

Lemma field_to_bits_ok (field : Key.name) (v : value) (bits : string) :
  AISMsgPayloadType1.field_to_bits field v = Ok bits ->
  String.length bits = FieldBitsCountEnum field /\ is_bits bits = true.
Proof.
  unfold AISMsgPayloadType1.field_to_bits. intros H.
  destruct (Key.among field [Key.lon; Key.lat]).
  - bind_step H. now apply convert_int_to_bits_ok in H.
  - bind_step H. destruct a as [num | x]; [| discriminate H].
    now apply convert_int_to_bits_ok in H.
Qed.

Lemma AISMsgPayloadType1_payload_ok (self : AISMsgPayloadType1.t)
    (bits : string) :
  AISMsgPayloadType1.payload_bits self = Ok bits ->
  String.length bits = 168%nat /\ is_bits bits = true.
Proof.
  unfold AISMsgPayloadType1.payload_bits. intros H.
  destruct AISMsgPayloadType1._constants_bits as [consts|] eqn:Ec;
    cbn [bind] in H; [| discriminate H].
  vm_compute in Ec. injection Ec as <-.
  unfold AISMsgPayloadType1._fields_to_bits, AISMsgPayloadType1.dict_items in H.
  cbn [AISMsgPayloadType1.fields_loop] in H.
  do 9 bind_step H. injection H as <-.
  apply field_to_bits_ok in E as [L0 B0], E0 as [L1 B1],
    E1 as [L2 B2], E2 as [L3 B3], E3 as [L4 B4], E4 as [L5 B5],
    E5 as [L6 B6], E6 as [L7 B7], E7 as [L8 B8].
  cbn [FieldBitsCountEnum] in L0, L1, L2, L3, L4, L5, L6, L7, L8.
  cbn [dict_set Key.eqb String.concat]. unfold is_bits in *.
  repeat (cbn [String.length all_chars]
          || rewrite length_append || rewrite all_chars_append).
  rewrite L0, L1, L2, L3, L4, L5, L6, L7, L8.
  rewrite B0, B1, B2, B3, B4, B5, B6, B7, B8.
  split; reflexivity.
Qed.

Lemma example_type5_built : example_type5 = Ok example_type5_msg.
Proof. vm_compute. reflexivity. Qed.

(** ** Armoring: lengths and fill bits *)

(** [encode] on a static and voyage message adds two fill bits, whatever
    [fill_bits] holds at the call. *)
Lemma type5_encode_adds_two (m : AISMsgType5.t) :
  String.length (AISMsgType5.payload_bits m) = 424%nat ->
  is_bits (AISMsgType5.payload_bits m) = true ->
  exists s,
    encode m = Ok (s, AISMsgType5.set_fill_bits m (AISMsgType5.fill_bits m + 2))
    /\ String.length s = 71%nat.
Proof.
  intros Hl Hb.
  destruct (@encode_spec _ AISMsgType5_message m
              (AISMsgType5.payload_bits m) eq_refl Hb) as [s [Hs Hls]].
  rewrite Hl in Hs, Hls. exists s. split; [exact Hs | exact Hls].
Qed.

(** C3. Every [AISMsgType5] object has a payload of exactly 424 bits, and
    its first [encode] returns 71 characters and leaves [fill_bits] at 2.
    For a message of either class whose payload is a bit field of exactly
    168 bits, [encode] returns 28 characters and adds no fill bit; the
    payload of every position report is such a bit field, so its [encode]
    returns 28 characters and leaves [fill_bits] as it was (0 for a message
    created with the default). *)
Theorem armored_payload_lengths :
  (forall mmsi imo call_sign ship_name ship_type dimension eta draught
          destination m,
      AISMsgType5.init mmsi imo call_sign ship_name ship_type dimension eta
        draught destination = Ok m ->
      String.length (AISMsgType5.payload_bits m) = 424%nat
      /\ is_bits (AISMsgType5.payload_bits m) = true
      /\ exists s m',
           encode m = Ok (s, m')
           /\ String.length s = 71%nat
           /\ AISMsgType5.fill_bits m' = 2)
  /\ (forall (A : Type) (M : AISMessage A) (self : A) (bits : string),
      payload_bits self = Ok bits ->
      is_bits bits = true ->
      String.length bits = 168%nat ->
      exists s,
        encode self = Ok (s, set_fill_bits self (fill_bits self + 0))
        /\ String.length s = 28%nat)
  /\ (forall (self : AISMsgPayloadType1.t) (bits : string),
      AISMsgPayloadType1.payload_bits self = Ok bits ->
      String.length bits = 168%nat
      /\ is_bits bits = true
      /\ exists s self',
           encode self = Ok (s, self')
           /\ String.length s = 28%nat
           /\ AISMsgPayloadType1.fill_bits self'
              = AISMsgPayloadType1.fill_bits self).
Proof.
  split; [| split].
  - intros mmsi imo call_sign ship_name ship_type dimension eta draught
      destination m Hinit.
    apply AISMsgType5_init_ok in Hinit as [Hl [Hb Hf]].
    split; [exact Hl |]. split; [exact Hb |].
    destruct (type5_encode_adds_two m Hl Hb) as [s [Hs Hls]].
    exists s. eexists. split; [exact Hs |]. split; [exact Hls |].
    cbn [AISMsgType5.set_fill_bits AISMsgType5.fill_bits]. rewrite Hf. reflexivity.
  - intros A M self bits Hp Hb Hl.
    destruct (encode_spec self bits Hp Hb) as [s [Hs Hls]].
    rewrite Hl in Hs, Hls. exists s. split; [exact Hs | exact Hls].
  - intros self bits Hp.
    destruct (AISMsgPayloadType1_payload_ok self bits Hp) as [Hl Hb].
    split; [exact Hl |]. split; [exact Hb |].
    destruct (@encode_spec _ AISMsgPayloadType1_message self bits Hp Hb)
      as [s [Hs Hls]].
    rewrite Hl in Hs, Hls. exists s. eexists. split; [exact Hs |].
    split; [exact Hls |].
    cbn [set_fill_bits fill_bits AISMsgPayloadType1_message
         AISMsgPayloadType1.set_fill_bits AISMsgPayloadType1.fill_bits].
    change (Z.of_nat ((6 - 168 mod 6) mod 6)) with 0. lia.
Qed.

Lemma armored_payload_lengths_witness :
  String.length (AISMsgType5.payload_bits example_type5_msg) = 424%nat
  /\ is_bits (AISMsgType5.payload_bits example_type5_msg) = true
  /\ exists s m',
       encode example_type5_msg = Ok (s, m')
       /\ String.length s = 71%nat
       /\ AISMsgType5.fill_bits m' = 2.
Proof.
  apply (proj1 armored_payload_lengths 205344990 9134270 "3FOF8"
           "EVER DIADEM" 70 example_dimension example_eta 12.2%float "NEW YORK").
  vm_compute. reflexivity.
Defined.

(** C1. [encode] does not start from zero: the loop adds to the [fill_bits]
    the object already holds.  On the static and voyage message of
    [__main__], two calls return the same payload and leave [fill_bits] at 2
    and then at 4, and a third call leaves 6, outside the range 0-5 that the
    comment on the attribute gives. *)
Theorem encode_twice_accumulates_fill_bits :
  let s := "533m@o`2;H;s<HtKR20EHE:0@T4@Dn2222222216L961O5Gf0NSQEp6ClRp888888888880" in
  let m0 := example_type5_msg in
  let m1 := AISMsgType5.set_fill_bits m0 2 in
  let m2 := AISMsgType5.set_fill_bits m0 4 in
  let m3 := AISMsgType5.set_fill_bits m0 6 in
  AISMsgType5.fill_bits m0 = 0
  /\ encode m0 = Ok (s, m1)
  /\ encode m1 = Ok (s, m2)
  /\ encode m2 = Ok (s, m3)
  /\ AISMsgType5.fill_bits m1 = 2
  /\ AISMsgType5.fill_bits m2 = 4
  /\ AISMsgType5.fill_bits m3 = 6.
Proof.
  cbv zeta.
  split; [reflexivity |].
  split; [vm_compute; reflexivity |].
  split; [vm_compute; reflexivity |].
  split; [vm_compute; reflexivity |].
  split; [reflexivity |]. split; reflexivity.
Qed.

(** ** Fixed-length strings *)

Lemma fixed_text_nonempty (text : string) (n : nat) :
  (0 < String.length text)%nat ->
  AISMsgType5.fixed_text text n = text ++ str_repeat " " (n - String.length text).
Proof.
  intros Hpos. unfold AISMsgType5.fixed_text, add_padding.
  destruct (String.length text =? 0)%nat eqn:E; [| reflexivity].
  apply Nat.eqb_eq in E. lia.
Qed.

(** The zero-bit padding of the [call_sign] setter is dead code: on a call
    sign of at most 7 characters the setter is the ASCII6 loop alone. *)
Lemma call_sign_setter_eq (fill : Z) (call_sign : string) :
  (String.length call_sign <= 7)%nat ->
  AISMsgType5.call_sign_setter fill call_sign
  = (bits <- ascii6_bits (AISMsgType5.fixed_text call_sign 7) "" ;;
     Ok (bits, fill)).
Proof.
  intros Hle. unfold AISMsgType5.call_sign_setter.
  assert (Hlt : (String.length call_sign <? 7 + 1)%nat = true)
    by (apply Nat.ltb_lt; lia).
  rewrite Hlt. cbn [negb].
  destruct (ascii6_bits (AISMsgType5.fixed_text call_sign 7) "") as [bits|e] eqn:E;
    cbn [bind]; [| reflexivity].
  apply fixed_setter_ok in E as [Hl _]; [| exact Hlt].
  rewrite Hl. reflexivity.
Qed.

Lemma too_long (text : string) (n : nat) :
  (n < String.length text)%nat -> negb (String.length text <? n + 1)%nat = true.
Proof.
  intros H. apply negb_true_iff, Nat.ltb_ge. lia.
Qed.

Lemma not_too_long (text : string) (n : nat) :
  (String.length text <= n)%nat -> negb (String.length text <? n + 1)%nat = false.
Proof.
  intros H. apply negb_false_iff, Nat.ltb_lt. lia.
Qed.

(** C7. The three fixed-length string attributes of [AISMsgType5]
    ([call_sign] of 7 characters, [ship_name] and [destination] of 20): a
    text that is not empty and not longer than the declared count goes
    through the ASCII6 loop right-padded with spaces to that count; a longer
    text raises the [ValueError] on the length; the empty text is replaced by
    the declared count of at signs.  [STORM] as a ship name becomes [STORM]
    followed by 15 spaces. *)
Theorem fixed_length_string_fields (text : string) (fill : Z) :
  ((0 < String.length text <= 7)%nat ->
     AISMsgType5.call_sign_setter fill text
     = (bits <- ascii6_bits (text ++ str_repeat " " (7 - String.length text)) "" ;;
        Ok (bits, fill)))
  /\ ((7 < String.length text)%nat ->
     AISMsgType5.call_sign_setter fill text = Raise (ValueError "call_sign"))
  /\ AISMsgType5.call_sign_setter fill ""
     = (bits <- ascii6_bits (str_repeat "@" 7) "" ;; Ok (bits, fill))
  /\ ((0 < String.length text <= 20)%nat ->
     AISMsgType5.ship_name_setter text
     = ascii6_bits (text ++ str_repeat " " (20 - String.length text)) "")
  /\ ((20 < String.length text)%nat ->
     AISMsgType5.ship_name_setter text = Raise (ValueError "ship_name"))
  /\ AISMsgType5.ship_name_setter "" = ascii6_bits (str_repeat "@" 20) ""
  /\ ((0 < String.length text <= 20)%nat ->
     AISMsgType5.destination_setter text
     = ascii6_bits (text ++ str_repeat " " (20 - String.length text)) "")
  /\ ((20 < String.length text)%nat ->
     AISMsgType5.destination_setter text = Raise (ValueError "destination"))
  /\ AISMsgType5.destination_setter "" = ascii6_bits (str_repeat "@" 20) ""
  /\ AISMsgType5.fixed_text "STORM" 20 = "STORM" ++ str_repeat " " 15
  /\ AISMsgType5.ship_name_setter "STORM"
     = ascii6_bits ("STORM" ++ str_repeat " " 15) "".
Proof.
  repeat split.
  - intros [Hpos Hle]. rewrite call_sign_setter_eq by exact Hle.
    now rewrite fixed_text_nonempty.
  - intros Hgt. unfold AISMsgType5.call_sign_setter.
    now rewrite too_long.
  - intros [Hpos Hle]. unfold AISMsgType5.ship_name_setter.
    rewrite not_too_long by exact Hle. now rewrite fixed_text_nonempty.
  - intros Hgt. unfold AISMsgType5.ship_name_setter. now rewrite too_long.
  - intros [Hpos Hle]. unfold AISMsgType5.destination_setter.
    rewrite not_too_long by exact Hle. now rewrite fixed_text_nonempty.
  - intros Hgt. unfold AISMsgType5.destination_setter. now rewrite too_long.
Qed.

Lemma fixed_length_string_fields_witness :
  AISMsgType5.ship_name_setter "STORM"
  = ascii6_bits ("STORM" ++ str_repeat " " (20 - String.length "STORM")) ""
  /\ AISMsgType5.destination_setter "THE QUICK BROWN FOX JUMPS OVER"
     = Raise (ValueError "destination")
  /\ AISMsgType5.call_sign_setter 0 "SQWD"
     = (bits <- ascii6_bits ("SQWD" ++ str_repeat " " (7 - String.length "SQWD")) "" ;;
        Ok (bits, 0)).
Proof.
  split; [| split].
  - apply (proj1 (proj2 (proj2 (proj2 (fixed_length_string_fields "STORM" 0))))).
    simpl. lia.
  - apply (proj1 (proj2 (proj2 (proj2 (proj2 (proj2 (proj2 (proj2
             (fixed_length_string_fields "THE QUICK BROWN FOX JUMPS OVER" 0))))))))).
    simpl. lia.
  - apply (proj1 (fixed_length_string_fields "SQWD" 0)). simpl. lia.
Defined.

(** ** The call sign and the fill bits *)

Lemma ascii6_code_ok (c : ascii) (v : Z) :
  convert_ascii_char_to_ascii6_code c = Ok v ->
  in_ascii6 c = true /\ 0 <= v < 64.
Proof.
  unfold convert_ascii_char_to_ascii6_code, in_ascii6.
  set (code := Z.of_N (N_of_ascii c)). intros H.
  destruct ((64 <=? code) && (code <=? 95)) eqn:E1.
  - injection H as <-. apply andb_true_iff in E1 as [Ha Hb].
    apply Z.leb_le in Ha, Hb. split; [| lia].
    apply andb_true_iff. split; apply Z.leb_le; lia.
  - destruct ((32 <=? code) && (code <=? 63)) eqn:E2; [| discriminate H].
    injection H as <-. apply andb_true_iff in E2 as [Ha Hb].
    apply Z.leb_le in Ha, Hb. split; [| lia].
    apply andb_true_iff. split; apply Z.leb_le; lia.
Qed.

Lemma ascii6_code_total (c : ascii) :
  in_ascii6 c = true ->
  exists v, convert_ascii_char_to_ascii6_code c = Ok v /\ 0 <= v < 64.
Proof.
  unfold convert_ascii_char_to_ascii6_code, in_ascii6.
  set (code := Z.of_N (N_of_ascii c)). intros H.
  apply andb_true_iff in H as [Ha Hb]. apply Z.leb_le in Ha, Hb.
  destruct ((64 <=? code) && (code <=? 95)) eqn:E1.
  - apply andb_true_iff in E1 as [Hc Hd]. apply Z.leb_le in Hc, Hd.
    eexists. split; [reflexivity | lia].
  - apply andb_false_iff in E1.
    assert (Hlt : code <= 63).
    { destruct E1 as [E | E]; [apply Z.leb_gt in E | apply Z.leb_gt in E]; lia. }
    assert (E2 : (32 <=? code) && (code <=? 63) = true)
      by (apply andb_true_iff; split; apply Z.leb_le; lia).
    rewrite E2. eexists. split; [reflexivity | lia].
Qed.

(** The ASCII6 loop returns exactly on the texts of the alphabet. *)
Lemma ascii6_bits_accepts (text : string) :
  forall acc,
  (exists s, ascii6_bits text acc = Ok s) <-> all_chars in_ascii6 text = true.
Proof.
  induction text as [|c text IH]; intros acc; cbn [ascii6_bits all_chars].
  - split; [reflexivity | intros _; now exists acc].
  - split.
    + intros [s H]. bind_step H. bind_step H.
      apply ascii6_code_ok in E as [Hc _]. rewrite Hc. cbn [andb].
      apply (IH (acc ++ a0)). now exists s.
    + intros H. apply andb_true_iff in H as [Hc Ht].
      destruct (ascii6_code_total c Hc) as [v [Hv Hr]].
      rewrite Hv. cbn [bind].
      rewrite convert_int_to_bits_unsigned by (change (2 ^ Z.of_nat 6) with 64; lia).
      cbn [bind]. now apply IH.
Qed.

Lemma fixed_text_in_ascii6 (text : string) (n : nat) :
  all_chars in_ascii6 (AISMsgType5.fixed_text text n) = all_chars in_ascii6 text.
Proof.
  unfold AISMsgType5.fixed_text, add_padding.
  destruct (String.length text =? 0)%nat eqn:E.
  - apply Nat.eqb_eq in E. destruct text; [| discriminate E].
    now apply all_chars_str_repeat.
  - rewrite all_chars_append, all_chars_str_repeat by reflexivity.
    apply andb_true_r.
Qed.

(** C10. The [call_sign] setter accepts exactly the strings of 0 to 7
    characters of the ASCII6 alphabet.  On each of them the bits that the
    loop builds are exactly 42, so the test [len(call_sign_bits) < 42] is
    false, [add_padding_0_bits] is not called, the stored field is what the
    loop built and [fill_bits] is what it was before the assignment. *)
Theorem call_sign_setter_keeps_fill_bits (fill : Z) (call_sign : string) :
  ((exists bits fill',
       AISMsgType5.call_sign_setter fill call_sign = Ok (bits, fill'))
   <-> (String.length call_sign <= 7)%nat
       /\ all_chars in_ascii6 call_sign = true)
  /\ (forall bits fill',
       AISMsgType5.call_sign_setter fill call_sign = Ok (bits, fill') ->
       ascii6_bits (AISMsgType5.fixed_text call_sign 7) "" = Ok bits
       /\ String.length bits = 42%nat
       /\ (String.length bits <? 42)%nat = false
       /\ fill' = fill).
Proof.
  split.
  - split.
    + intros [bits [fill' H]].
      unfold AISMsgType5.call_sign_setter in H.
      destruct (String.length call_sign <? 7 + 1)%nat eqn:Hlt;
        cbn [negb] in H; [| discriminate H].
      apply Nat.ltb_lt in Hlt. split; [lia |].
      bind_step H.
      rewrite <- (fixed_text_in_ascii6 call_sign 7).
      apply (ascii6_bits_accepts _ ""). now exists a.
    + intros [Hle Hall].
      rewrite call_sign_setter_eq by exact Hle.
      rewrite <- (fixed_text_in_ascii6 call_sign 7) in Hall.
      apply (ascii6_bits_accepts _ "") in Hall as [s Hs].
      rewrite Hs. cbn [bind]. now exists s, fill.
  - intros bits fill' H.
    pose proof (call_sign_setter_ok _ _ _ _ H) as [Hl [_ Hf]].
    assert (Hle : (String.length call_sign <= 7)%nat).
    { unfold AISMsgType5.call_sign_setter in H.
      destruct (String.length call_sign <? 7 + 1)%nat eqn:Hlt;
        cbn [negb] in H; [| discriminate H].
      apply Nat.ltb_lt in Hlt. lia. }
    rewrite call_sign_setter_eq in H by exact Hle.
    bind_step H. injection H as -> _.
    rewrite Hl. repeat split; assumption.
Qed.

Lemma call_sign_setter_keeps_fill_bits_witness :
  ascii6_bits (AISMsgType5.fixed_text "3FOF8" 7) ""
  = Ok "110011000110001111000110111000100000100000"
  /\ String.length "110011000110001111000110111000100000100000" = 42%nat
  /\ (String.length "110011000110001111000110111000100000100000" <? 42)%nat = false
  /\ 3 = 3.
Proof.
  apply (proj2 (call_sign_setter_keeps_fill_bits 3 "3FOF8")).
  vm_compute. reflexivity.
Defined.

(** ** Scaling and truncation *)

(** The products that the module truncates, on inputs where the binary64
    product and the exact product truncate differently, and on the two
    inputs that [int] refuses. *)
Lemma int_of_float_examples :
  int_of_float "lat" (3.4996866666666664 * 600000) = Ok 2099812
  /\ int_of_float "draught" (0.8999999999999999 * 10) = Ok 9
  /\ int_of_float "draught" (12.2 * 10) = Ok 122
  /\ int_of_float "lon" (223.69621333333333 * 600000) = Ok 134217728
  /\ int_of_float "lon" (-4.407046666667 * 600000) = Ok (-2644228)
  /\ int_of_float "lon" (1e308 * 600000) = Raise OverflowError
  /\ int_of_float "lon" (nan * 600000) = Raise (ValueError "lon").
Proof. vm_compute. repeat split. Qed.

(** A draught that passed the guard and the clamp scales to 0..255. *)
Lemma draught_scaled (v : float) :
  (0 <=? v)%float = true -> (25.5 <? v)%float = false ->
  exists n, int_of_float "draught" (v * 10) = Ok n /\ 0 <= n <= 255.
Proof.
  intros H0 H1.
  pose proof (below_magnitude_le v 25.5 7177611906121728 (-48) eq_refl
                ltac:(vm_compute; discriminate) H0 H1) as Hm.
  destruct (int_of_float_scaled "draught" v 10 7177611906121728
              5629499534213120 (-48) (-49) 255 eq_refl Hm
              ltac:(lia) ltac:(split; [lia | reflexivity])
              ltac:(vm_compute; discriminate))
    as (n & Hn & Hb & Hs).
  exists n. split; [exact Hn |].
  apply (proj1 (leb_zero_not_negative _)) in H0. specialize (Hs H0). lia.
Qed.

(** A latitude in [-90, 90] scales to within 54000000 of zero. *)
Lemma lat_scaled (field : string) (v : float) :
  (-90 <=? v)%float = true -> (v <=? 90)%float = true ->
  exists n, int_of_float field (v * 600000) = Ok n
    /\ - 54000000 <= n <= 54000000.
Proof.
  intros H0 H1.
  pose proof (between_magnitude_le v (-90) 90 6333186975989760 (-46) eq_refl
                eq_refl ltac:(vm_compute; discriminate) H0 H1) as Hm.
  destruct (int_of_float_scaled field v 600000 6333186975989760
              5153960755200000 (-46) (-33) 54000000 eq_refl Hm
              ltac:(lia) ltac:(split; [lia | reflexivity])
              ltac:(vm_compute; discriminate))
    as (n & Hn & Hb & _).
  exists n. split; [exact Hn | exact Hb].
Qed.

(** A longitude in [-180, 180] scales to within 108000000 of zero. *)
Lemma lon_scaled (field : string) (v : float) :
  (-180 <=? v)%float = true -> (v <=? 180)%float = true ->
  exists n, int_of_float field (v * 600000) = Ok n
    /\ - 108000000 <= n <= 108000000.
Proof.
  intros H0 H1.
  pose proof (between_magnitude_le v (-180) 180 6333186975989760 (-45) eq_refl
                eq_refl ltac:(vm_compute; discriminate) H0 H1) as Hm.
  destruct (int_of_float_scaled field v 600000 6333186975989760
              5153960755200000 (-45) (-33) 108000000 eq_refl Hm
              ltac:(lia) ltac:(split; [lia | reflexivity])
              ltac:(vm_compute; discriminate))
    as (n & Hn & Hb & _).
  exists n. split; [exact Hn | exact Hb].
Qed.

(** ** Draught *)

(** A float above 25.5 is not below 0. *)
Lemma above_clamp_not_negative (v : float) :
  (25.5 <? v)%float = true -> (v <? 0)%float = false.
Proof.
  rewrite !ltb_spec.
  destruct (Prim2SF v) as [s | s | | s m e]; cbn;
    try discriminate; try (destruct s; cbn; congruence).
Qed.

(** A float from 0 up is not below 0. *)
Lemma leb_zero_not_below (v : float) :
  (0 <=? v)%float = true -> (v <? 0)%float = false.
Proof.
  rewrite leb_spec, ltb_spec.
  change (Prim2SF 0) with (S754_zero false).
  destruct (Prim2SF v) as [s | s | | s m e]; cbn;
    try discriminate; try (destruct s; cbn; congruence); reflexivity.
Qed.

(** A float that is not below 0 is from 0 up, or is a NaN. *)
Lemma not_below_zero_cases (v : float) :
  (v <? 0)%float = false ->
  (0 <=? v)%float = true \/ Prim2SF v = S754_nan.
Proof.
  rewrite leb_spec, ltb_spec.
  change (Prim2SF 0) with (S754_zero false).
  destruct (Prim2SF v) as [s | s | | s m e]; cbn;
    try (destruct s; cbn; intros H; try discriminate H; left; reflexivity).
  intros _. right. reflexivity.
Qed.

(** A NaN passes the guard and the clamp, and [int] refuses it. *)
Lemma draught_setter_nan (v : float) :
  Prim2SF v = S754_nan ->
  AISMsgType5.draught_setter v = Raise (ValueError "draught").
Proof.
  intros Hnan. unfold AISMsgType5.draught_setter.
  assert (E0 : (v <? 0)%float = false) by (rewrite ltb_spec, Hnan; reflexivity).
  assert (E1 : (25.5 <? v)%float = false).
  { rewrite ltb_spec, Hnan. now destruct (Prim2SF 25.5). }
  rewrite E0, E1. unfold int_of_float. rewrite mul_spec, Hnan.
  reflexivity.
Qed.

(** The integer that the setter writes for a draught from 0 up. *)
Lemma draught_setter_scaled (value : float) :
  (0 <=? value)%float = true ->
  exists n,
    int_of_float "draught"
      ((if (25.5 <? value)%float then 25.5 else value) * 10) = Ok n
    /\ 0 <= n <= 255
    /\ AISMsgType5.draught_setter value = convert_int_to_bits n 8 false.
Proof.
  intros Hpos. unfold AISMsgType5.draught_setter.
  rewrite (leb_zero_not_below value Hpos).
  destruct (25.5 <? value)%float eqn:E.
  - exists 255. split; [vm_compute; reflexivity |]. split; [lia |].
    reflexivity.
  - destruct (draught_scaled value Hpos E) as (n & Hn & Hb).
    exists n. split; [exact Hn |]. split; [exact Hb |].
    rewrite Hn. reflexivity.
Qed.

(** C8. A draught below 0 raises the [ValueError]; a draught above 25.5 is
    stored as 25.5 is, so 30 and 25.5 give the same field, which is
    [11111111]; every draught from 0 up is stored on 8 bits, the unsigned
    value of ten times the draught (25.5 at most) as binary64 computes it,
    truncated. *)
Theorem draught_clamped_at_25_5 (value : float) :
  ((value <? 0)%float = true ->
     AISMsgType5.draught_setter value = Raise (ValueError "draught"))
  /\ ((25.5 <? value)%float = true ->
     AISMsgType5.draught_setter value = AISMsgType5.draught_setter 25.5)
  /\ AISMsgType5.draught_setter 30 = AISMsgType5.draught_setter 25.5
  /\ AISMsgType5.draught_setter 25.5 = Ok "11111111"
  /\ ((0 <=? value)%float = true ->
     exists bits n,
       AISMsgType5.draught_setter value = Ok bits
       /\ String.length bits = 8%nat
       /\ int_of_float "draught"
            ((if (25.5 <? value)%float then 25.5 else value) * 10) = Ok n
       /\ 0 <= n <= 255
       /\ convert_bits_to_int bits = Ok n).
Proof.
  split; [| split; [| split; [| split]]].
  - intros Hneg. unfold AISMsgType5.draught_setter. now rewrite Hneg.
  - intros Hbig. unfold AISMsgType5.draught_setter.
    rewrite (above_clamp_not_negative value Hbig), Hbig. reflexivity.
  - vm_compute. reflexivity.
  - vm_compute. reflexivity.
  - intros Hpos.
    destruct (draught_setter_scaled value Hpos) as (n & Hn & Hb & Hs).
    exists (bits_of 8 n), n.
    assert (Hr : 0 <= n < 2 ^ Z.of_nat 8).
    { change (2 ^ Z.of_nat 8) with 256. lia. }
    rewrite Hs, (convert_int_to_bits_unsigned n 8 Hr).
    split; [reflexivity |]. split; [apply length_bits_of |].
    split; [exact Hn |]. split; [exact Hb |].
    unfold convert_bits_to_int. rewrite bits_value_bits_of.
    rewrite Z.mod_small by exact Hr. reflexivity.
Qed.

Lemma draught_clamped_at_25_5_witness :
  AISMsgType5.draught_setter (-1) = Raise (ValueError "draught")
  /\ AISMsgType5.draught_setter 26 = AISMsgType5.draught_setter 25.5
  /\ exists bits n,
       AISMsgType5.draught_setter 12.2 = Ok bits
       /\ String.length bits = 8%nat
       /\ int_of_float "draught"
            ((if (25.5 <? 12.2)%float then 25.5 else 12.2) * 10) = Ok n
       /\ 0 <= n <= 255
       /\ convert_bits_to_int bits = Ok n.
Proof.
  split; [| split].
  - apply (proj1 (draught_clamped_at_25_5 (-1))). reflexivity.
  - apply (proj1 (proj2 (draught_clamped_at_25_5 26))). reflexivity.
  - apply (proj2 (proj2 (proj2 (proj2 (draught_clamped_at_25_5 12.2))))).
    reflexivity.
Defined.

(** ** Latitude and longitude *)

(** Signed encoding at a width, read back. *)
Lemma decode_signed_convert (num : Z) (w : nat) :
  (0 < w)%nat ->
  - 2 ^ (Z.of_nat w - 1) <= num < 2 ^ (Z.of_nat w - 1) ->
  exists bits,
    convert_int_to_bits num w true = Ok bits
    /\ String.length bits = w
    /\ decode_signed bits = Ok num.
Proof.
  intros Hw [Hlo Hhi].
  assert (Hpow : 2 ^ Z.of_nat w = 2 * 2 ^ (Z.of_nat w - 1)).
  { rewrite <- Z.pow_succ_r by lia. f_equal. lia. }
  assert (Hpos : 0 < 2 ^ (Z.of_nat w - 1)) by (apply Z.pow_pos_nonneg; lia).
  exists (bits_of w (num mod 2 ^ Z.of_nat w)).
  split; [| split].
  - unfold convert_int_to_bits.
    apply Z.leb_le in Hlo. apply Z.ltb_lt in Hhi. now rewrite Hlo, Hhi.
  - apply length_bits_of.
  - unfold decode_signed, convert_bits_to_int.
    rewrite bits_value_bits_of, length_bits_of. cbn [bind].
    rewrite Z.mod_mod by lia. rewrite Z.mul_0_l, Z.add_0_l. f_equal.
    destruct (Z.neg_nonneg_cases num) as [Hneg | Hnn].
    + assert (E : num mod 2 ^ Z.of_nat w = num + 2 ^ Z.of_nat w).
      { symmetry. apply Z.mod_unique with (q := -1); lia. }
      rewrite E.
      destruct (num + 2 ^ Z.of_nat w <? 2 ^ (Z.of_nat w - 1)) eqn:El.
      * apply Z.ltb_lt in El. lia.
      * lia.
    + rewrite Z.mod_small by lia.
      apply Z.ltb_lt in Hhi. now rewrite Hhi.
Qed.

(** What [_fields_to_bits] stores under [lon] and [lat]. *)
Lemma fields_to_bits_lon_lat (self : AISMsgPayloadType1.t) (fields : dict) :
  AISMsgPayloadType1._fields_to_bits self = Ok fields ->
  AISMsgPayloadType1.field_to_bits Key.lon (Float (AISMsgPayloadType1.lon self))
  = Ok (fields Key.lon)
  /\ AISMsgPayloadType1.field_to_bits Key.lat (Float (AISMsgPayloadType1.lat self))
     = Ok (fields Key.lat).
Proof.
  unfold AISMsgPayloadType1._fields_to_bits, AISMsgPayloadType1.dict_items.
  cbn [AISMsgPayloadType1.fields_loop]. intros H.
  do 9 bind_step H. injection H as <-.
  cbn [dict_set Key.eqb]. split; reflexivity.
Qed.

(** C9. A latitude in [-90, 90] is multiplied by 600000, truncated toward
    zero and written signed on 27 bits, a longitude in [-180, 180] likewise
    on 28 bits: the product is the binary64 product, its truncation never
    fails and lies within 54000000 (108000000) of zero, so it fits the
    width; the two's-complement reading of the field is that scaled integer
    again, hence the same quotient by 600000.  This is the field that
    [_fields_to_bits] stores for the attribute. *)
Theorem lat_lon_scaled_round_trip :
  (forall v : float,
     (-90 <=? v)%float = true -> (v <=? 90)%float = true ->
     exists bits n,
       int_of_float "lat" (v * 600000) = Ok n
       /\ - 54000000 <= n <= 54000000
       /\ AISMsgPayloadType1.field_to_bits Key.lat (Float v) = Ok bits
       /\ convert_int_to_bits n 27 true = Ok bits
       /\ String.length bits = 27%nat
       /\ decode_signed bits = Ok n)
  /\ (forall v : float,
     (-180 <=? v)%float = true -> (v <=? 180)%float = true ->
     exists bits n,
       int_of_float "lon" (v * 600000) = Ok n
       /\ - 108000000 <= n <= 108000000
       /\ AISMsgPayloadType1.field_to_bits Key.lon (Float v) = Ok bits
       /\ convert_int_to_bits n 28 true = Ok bits
       /\ String.length bits = 28%nat
       /\ decode_signed bits = Ok n)
  /\ (forall (self : AISMsgPayloadType1.t) (fields : dict),
     AISMsgPayloadType1._fields_to_bits self = Ok fields ->
     (-90 <=? AISMsgPayloadType1.lat self)%float = true ->
     (AISMsgPayloadType1.lat self <=? 90)%float = true ->
     (-180 <=? AISMsgPayloadType1.lon self)%float = true ->
     (AISMsgPayloadType1.lon self <=? 180)%float = true ->
     exists nlat nlon,
       int_of_float "lat" (AISMsgPayloadType1.lat self * 600000) = Ok nlat
       /\ int_of_float "lon" (AISMsgPayloadType1.lon self * 600000) = Ok nlon
       /\ decode_signed (fields Key.lat) = Ok nlat
       /\ decode_signed (fields Key.lon) = Ok nlon).
Proof.
  assert (Hlat : forall v : float,
     (-90 <=? v)%float = true -> (v <=? 90)%float = true ->
     exists bits n,
       int_of_float "lat" (v * 600000) = Ok n
       /\ - 54000000 <= n <= 54000000
       /\ AISMsgPayloadType1.field_to_bits Key.lat (Float v) = Ok bits
       /\ convert_int_to_bits n 27 true = Ok bits
       /\ String.length bits = 27%nat
       /\ decode_signed bits = Ok n).
  { intros v Hlo Hhi.
    destruct (lat_scaled "lat" v Hlo Hhi) as (n & Hn & Hb).
    destruct (decode_signed_convert n 27) as (bits & Hc & Hl & Hd); [lia | |].
    { change (2 ^ (Z.of_nat 27 - 1)) with 67108864. lia. }
    exists bits, n. split; [exact Hn |]. split; [exact Hb |].
    split; [| split; [exact Hc | split; assumption]].
    unfold AISMsgPayloadType1.field_to_bits.
    cbn [Key.among existsb Key.eqb orb Key.to_string FieldBitsCountEnum
         int_of_scaled].
    rewrite Hn. exact Hc. }
  assert (Hlon : forall v : float,
     (-180 <=? v)%float = true -> (v <=? 180)%float = true ->
     exists bits n,
       int_of_float "lon" (v * 600000) = Ok n
       /\ - 108000000 <= n <= 108000000
       /\ AISMsgPayloadType1.field_to_bits Key.lon (Float v) = Ok bits
       /\ convert_int_to_bits n 28 true = Ok bits
       /\ String.length bits = 28%nat
       /\ decode_signed bits = Ok n).
  { intros v Hlo Hhi.
    destruct (lon_scaled "lon" v Hlo Hhi) as (n & Hn & Hb).
    destruct (decode_signed_convert n 28) as (bits & Hc & Hl & Hd); [lia | |].
    { change (2 ^ (Z.of_nat 28 - 1)) with 134217728. lia. }
    exists bits, n. split; [exact Hn |]. split; [exact Hb |].
    split; [| split; [exact Hc | split; assumption]].
    unfold AISMsgPayloadType1.field_to_bits.
    cbn [Key.among existsb Key.eqb orb Key.to_string FieldBitsCountEnum
         int_of_scaled].
    rewrite Hn. exact Hc. }
  split; [exact Hlat | split; [exact Hlon |]].
  intros self fields Hfields Hlat0 Hlat1 Hlon0 Hlon1.
  apply fields_to_bits_lon_lat in Hfields as [Elon Elat].
  destruct (Hlat _ Hlat0 Hlat1) as (b1 & n1 & Hn1 & _ & Hf1 & _ & _ & Hd1).
  destruct (Hlon _ Hlon0 Hlon1) as (b2 & n2 & Hn2 & _ & Hf2 & _ & _ & Hd2).
  rewrite Elat in Hf1. rewrite Elon in Hf2.
  injection Hf1 as ->. injection Hf2 as ->.
  exists n1, n2. repeat split; assumption.
Qed.

Lemma lat_lon_scaled_round_trip_witness :
  (-90 <=? -51.229636666667)%float = true
  /\ (-51.229636666667 <=? 90)%float = true
  /\ exists bits n,
       int_of_float "lat" (-51.229636666667 * 600000) = Ok n
       /\ - 54000000 <= n <= 54000000
       /\ AISMsgPayloadType1.field_to_bits Key.lat (Float (-51.229636666667))
          = Ok bits
       /\ convert_int_to_bits n 27 true = Ok bits
       /\ String.length bits = 27%nat
       /\ decode_signed bits = Ok n.
Proof.
  split; [reflexivity |]. split; [reflexivity |].
  apply (proj1 lat_lon_scaled_round_trip); reflexivity.
Defined.

(** ** Which exceptions a call can raise *)

Lemma raises_only_Ok {A : Type} (P : error -> Prop) (a : A) :
  raises_only P (Ok a).
Proof. intros e H. discriminate H. Qed.

Lemma raises_only_Raise {A : Type} (P : error -> Prop) (e : error) :
  P e -> raises_only P (@Raise A e).
Proof. intros He e' H. injection H as <-. exact He. Qed.

Lemma raises_only_bind {A B : Type} (P : error -> Prop) (r : result A)
    (k : A -> result B) :
  raises_only P r -> (forall a, raises_only P (k a)) ->
  raises_only P (bind r k).
Proof.
  intros Hr Hk e H. destruct r as [a|e0]; cbn [bind] in H.
  - exact (Hk a e H).
  - injection H as <-. now apply Hr.
Qed.

Lemma raises_only_bind_Ok {A B C : Type} (P : error -> Prop) (r : result A)
    (f : A -> B) (k : B -> result C) :
  raises_only P r -> (forall a, raises_only P (k (f a))) ->
  raises_only P (bind (bind r (fun a => Ok (f a))) k).
Proof.
  intros Hr Hk. destruct r as [a | e]; cbn [bind]; [apply Hk |].
  intros e' H. apply (Hr e'). injection H as <-. reflexivity.
Qed.

Lemma int_of_float_raises (P : error -> Prop) (field : string) (x : float) :
  P OverflowError -> P (ValueError field) ->
  raises_only P (int_of_float field x).
Proof.
  intros Ho Hv. unfold int_of_float.
  destruct (Prim2SF x);
    (apply raises_only_Ok || now apply raises_only_Raise).
Qed.

Section Raises.

Variable P : error -> Prop.
Hypothesis range_error : P RangeError.

Lemma convert_int_to_bits_raises (num : Z) (w : nat) (sg : bool) :
  raises_only P (convert_int_to_bits num w sg).
Proof.
  unfold convert_int_to_bits.
  destruct sg; destruct (_ && _);
    (apply raises_only_Ok || now apply raises_only_Raise).
Qed.

Lemma ShipDimension_bits_raises (d : ShipDimension) :
  raises_only P (ShipDimension_bits d).
Proof.
  unfold ShipDimension_bits.
  repeat (apply raises_only_bind; [apply convert_int_to_bits_raises | intros ?]).
  apply raises_only_Ok.
Qed.

Lemma ShipEta_bits_raises (e : ShipEta) : raises_only P (ShipEta_bits e).
Proof.
  unfold ShipEta_bits.
  repeat (apply raises_only_bind; [apply convert_int_to_bits_raises | intros ?]).
  apply raises_only_Ok.
Qed.

Hypothesis invalid_character_error : P InvalidCharacterError.

Lemma ascii6_bits_raises (text : string) :
  forall acc, raises_only P (ascii6_bits text acc).
Proof.
  induction text as [|c text IH]; intros acc; cbn [ascii6_bits].
  - apply raises_only_Ok.
  - apply raises_only_bind.
    + unfold convert_ascii_char_to_ascii6_code.
      destruct (_ && _); [apply raises_only_Ok |].
      destruct (_ && _); [apply raises_only_Ok | now apply raises_only_Raise].
    + intros v. apply raises_only_bind; [apply convert_int_to_bits_raises |].
      intros bits. apply IH.
Qed.

Lemma call_sign_setter_raises (fill : Z) (call_sign : string) :
  P (ValueError "call_sign") ->
  raises_only P (AISMsgType5.call_sign_setter fill call_sign).
Proof.
  intros Hv. unfold AISMsgType5.call_sign_setter.
  destruct (negb _); [now apply raises_only_Raise |].
  apply raises_only_bind; [apply ascii6_bits_raises |].
  intros bits. destruct (_ <? _)%nat; apply raises_only_Ok.
Qed.

Lemma ship_name_setter_raises (ship_name : string) :
  P (ValueError "ship_name") ->
  raises_only P (AISMsgType5.ship_name_setter ship_name).
Proof.
  intros Hv. unfold AISMsgType5.ship_name_setter.
  destruct (negb _); [now apply raises_only_Raise | apply ascii6_bits_raises].
Qed.

Lemma destination_setter_raises (destination : string) :
  P (ValueError "destination") ->
  raises_only P (AISMsgType5.destination_setter destination).
Proof.
  intros Hv. unfold AISMsgType5.destination_setter.
  destruct (negb _); [now apply raises_only_Raise | apply ascii6_bits_raises].
Qed.

(** An infinite draught never reaches [int]: the guard takes the negative
    one and the clamp the positive one.  A NaN passes both and raises the
    [ValueError] of [int]. *)
Lemma draught_setter_raises (value : float) :
  P (ValueError "draught") ->
  raises_only P (AISMsgType5.draught_setter value).
Proof.
  intros Hv.
  destruct (value <? 0)%float eqn:E0.
  - unfold AISMsgType5.draught_setter. rewrite E0.
    now apply raises_only_Raise.
  - destruct (not_below_zero_cases value E0) as [Hpos | Hnan].
    + destruct (draught_setter_scaled value Hpos) as (n & _ & _ & Hs).
      rewrite Hs. apply convert_int_to_bits_raises.
    + rewrite (draught_setter_nan value Hnan). now apply raises_only_Raise.
Qed.

End Raises.

(** ** Ship type *)

Lemma ship_type_in_range (value : Z) :
  negb ((1 <=? value) && (value <? 100)) = false <-> 1 <= value <= 99.
Proof.
  rewrite negb_false_iff, andb_true_iff, Z.leb_le, Z.ltb_lt. lia.
Qed.

(** The counterexample to C2: the constructor rejects a ship type because of
    its value.  0 is a ship type that the tests of the validation layer take
    as correct, 100 is the first value above the range. *)
Lemma ship_type_zero_is_rejected :
  AISMsgType5.init 205344990 9134270 "3FOF8" "EVER DIADEM" 0
    example_dimension example_eta 12.2 "NEW YORK"
  = Raise (ValueError "ship_type")
  /\ AISMsgType5.init 205344990 9134270 "3FOF8" "EVER DIADEM" 100
       example_dimension example_eta 12.2 "NEW YORK"
     = Raise (ValueError "ship_type").
Proof. split; vm_compute; reflexivity. Qed.

(** C2, amended. The codec does check one domain range again: the
    [ship_type] setter raises its [ValueError] exactly on the values outside
    1..99, and stores the 8 unsigned bits of every value inside.  So no
    [AISMsgType5] object has a ship type outside 1..99, and a construction
    with a ship type inside 1..99 never raises the ship-type error. *)
Theorem ship_type_range_is_checked :
  (forall value,
     AISMsgType5.ship_type_setter value = Raise (ValueError "ship_type")
     <-> ~ 1 <= value <= 99)
  /\ (forall value,
     1 <= value <= 99 ->
     AISMsgType5.ship_type_setter value = Ok (bits_of 8 value))
  /\ (forall mmsi imo call_sign ship_name ship_type dimension eta draught
             destination m,
     AISMsgType5.init mmsi imo call_sign ship_name ship_type dimension eta
       draught destination = Ok m ->
     1 <= ship_type <= 99)
  /\ (forall mmsi imo call_sign ship_name ship_type dimension eta draught
             destination,
     1 <= ship_type <= 99 ->
     AISMsgType5.init mmsi imo call_sign ship_name ship_type dimension eta
       draught destination <> Raise (ValueError "ship_type")).
Proof.
  assert (Hin : forall value, 1 <= value <= 99 ->
            AISMsgType5.ship_type_setter value = Ok (bits_of 8 value)).
  { intros value Hr. unfold AISMsgType5.ship_type_setter.
    rewrite (proj2 (ship_type_in_range value) Hr).
    apply convert_int_to_bits_unsigned. change (2 ^ Z.of_nat 8) with 256. lia. }
  split; [| split; [exact Hin | split]].
  - intros value. split.
    + intros H Hr. rewrite (Hin value Hr) in H. discriminate H.
    + intros Hout. unfold AISMsgType5.ship_type_setter.
      destruct (negb ((1 <=? value) && (value <? 100))) eqn:E; [reflexivity |].
      apply ship_type_in_range in E. contradiction.
  - intros mmsi imo call_sign ship_name ship_type dimension eta draught
      destination m H.
    unfold AISMsgType5.init in H.
    do 5 bind_step H.
    destruct (AISMsgType5.call_sign_setter 0 call_sign) as [[cs fb]|] eqn:Ecs;
      cbn [bind] in H; [| discriminate H].
    cbv beta iota in H.
    do 2 bind_step H.
    unfold AISMsgType5.ship_type_setter in E5.
    destruct (negb ((1 <=? ship_type) && (ship_type <? 100))) eqn:Er;
      [discriminate E5 |].
    now apply ship_type_in_range.
  - intros mmsi imo call_sign ship_name ship_type dimension eta draught
      destination Hr.
    set (P := fun e : error => e <> ValueError "ship_type").
    assert (Hall : raises_only P
              (AISMsgType5.init mmsi imo call_sign ship_name ship_type
                 dimension eta draught destination)).
    { assert (P1 : P RangeError) by (intros H; discriminate H).
      assert (P2 : P InvalidCharacterError) by (intros H; discriminate H).
      assert (P3 : P (ValueError "call_sign")) by (intros H; discriminate H).
      assert (P4 : P (ValueError "ship_name")) by (intros H; discriminate H).
      assert (P5 : P (ValueError "draught")) by (intros H; discriminate H).
      assert (P6 : P (ValueError "destination")) by (intros H; discriminate H).
      unfold AISMsgType5.init.
      unfold AISMsgType5.mmsi_setter, AISMsgType5.imo_setter,
        AISMsgType5.dimension_setter, AISMsgType5.eta_setter.
      rewrite (Hin ship_type Hr).
      repeat
        (apply raises_only_bind;
         [ first [ now apply convert_int_to_bits_raises
                 | now apply call_sign_setter_raises
                 | now apply ship_name_setter_raises
                 | now apply ShipDimension_bits_raises
                 | now apply ShipEta_bits_raises
                 | now apply draught_setter_raises
                 | now apply destination_setter_raises
                 | apply raises_only_Ok ]
         | intros ? ]);
        try match goal with |- raises_only _ (let '(_, _) := ?p in _) =>
              destruct p end.
      all: repeat
        (apply raises_only_bind;
         [ first [ now apply convert_int_to_bits_raises
                 | now apply ship_name_setter_raises
                 | now apply ShipDimension_bits_raises
                 | now apply ShipEta_bits_raises
                 | now apply draught_setter_raises
                 | now apply destination_setter_raises
                 | apply raises_only_Ok ]
         | intros ? ]).
      all: apply raises_only_Ok. }
    intros H. exact (Hall _ H eq_refl).
Qed.

Lemma ship_type_range_is_checked_witness :
  1 <= 70 <= 99
  /\ AISMsgType5.ship_type_setter 70 = Ok (bits_of 8 70)
  /\ AISMsgType5.init 205344990 9134270 "3FOF8" "EVER DIADEM" 70
       example_dimension example_eta 12.2 "NEW YORK"
     <> Raise (ValueError "ship_type").
Proof.
  assert (H : 1 <= 70 <= 99) by lia.
  split; [exact H |]. split.
  - exact (proj1 (proj2 ship_type_range_is_checked) 70 H).
  - exact (proj2 (proj2 (proj2 ship_type_range_is_checked)) 205344990 9134270
             "3FOF8" "EVER DIADEM" 70 example_dimension example_eta 12.2%float
             "NEW YORK" H).
Defined.

(** ** Sentences *)

Lemma split_on_field (a : string) :
  forall cur rest,
  all_chars no_comma a = true ->
  split_on "," (a ++ String "," rest) cur = (cur ++ a) :: split_on "," rest "".
Proof.
  induction a as [|c a IH]; intros cur rest Ha; cbn [append split_on].
  - change (Ascii.eqb "," ",") with true. cbv iota. now rewrite append_nil_r.
  - cbn [all_chars] in Ha. apply andb_true_iff in Ha as [Hc Ha].
    unfold no_comma in Hc. apply negb_true_iff in Hc. rewrite Hc.
    rewrite IH by exact Ha. now rewrite append_assoc.
Qed.

Lemma split_on_char (c : ascii) (rest cur : string) :
  Ascii.eqb c "," = false ->
  split_on "," (String c rest) cur = split_on "," rest (cur ++ String c "").
Proof. intros H. cbn [split_on]. now rewrite H. Qed.

Lemma split_on_comma (rest cur : string) :
  split_on "," (String "," rest) cur = cur :: split_on "," rest "".
Proof. reflexivity. Qed.

Lemma string_of_uint_no_comma (d : Decimal.uint) :
  all_chars no_comma (NilEmpty.string_of_uint d) = true.
Proof. induction d; cbn [NilEmpty.string_of_uint all_chars]; auto. Qed.

(** A count or an index, written in decimal, holds no comma. *)
Lemma str_of_int_no_comma (n : nat) :
  all_chars no_comma (str_of_int (Z.of_nat n)) = true.
Proof.
  unfold str_of_int.
  destruct (Z.of_nat n) as [|p|p] eqn:E; [reflexivity | | lia].
  cbn [Z.to_int NilZero.string_of_int]. unfold NilZero.string_of_uint.
  destruct (Pos.to_uint p); try apply string_of_uint_no_comma. reflexivity.
Qed.

(** The checksum: two uppercase hexadecimal digits. *)
Lemma xor_bytes_range (data : string) :
  forall acc, 0 <= acc < 256 -> 0 <= xor_bytes data acc < 256.
Proof.
  induction data as [|c data IH]; intros acc Hacc; cbn [xor_bytes];
    [exact Hacc |].
  apply IH.
  assert (Hc : 0 <= Z.of_N (N_of_ascii c) < 256).
  { pose proof (N_ascii_bounded c). lia. }
  set (b := Z.of_N (N_of_ascii c)) in *.
  assert (Hnn : 0 <= Z.lxor acc b) by (apply Z.lxor_nonneg; lia).
  split; [exact Hnn |].
  destruct (Z.eq_dec (Z.lxor acc b) 0) as [-> | Hnz]; [lia |].
  change 256 with (2 ^ 8). apply Z.log2_lt_pow2; [lia |].
  apply Z.le_lt_trans with (m := Z.max (Z.log2 acc) (Z.log2 b));
    [apply Z.log2_lxor; lia |].
  apply Z.max_lub_lt.
  - destruct (Z.eq_dec acc 0) as [-> | Ha]; [reflexivity |].
    apply Z.log2_lt_pow2; [lia | change (2 ^ 8) with 256; lia].
  - destruct (Z.eq_dec b 0) as [-> | Hb]; [reflexivity |].
    apply Z.log2_lt_pow2; [lia | change (2 ^ 8) with 256; lia].
Qed.

Lemma hex_digit_upper (n : Z) : 0 <= n < 16 -> is_upper_hex (hex_digit n) = true.
Proof.
  intros H. rewrite <- (Z2Nat.id n) by lia.
  assert (Hk : (Z.to_nat n < 16)%nat) by lia.
  generalize dependent (Z.to_nat n). intros k Hk.
  do 16 (destruct k as [|k]; [reflexivity |]). lia.
Qed.

Lemma nmea_checksum_form (data : string) :
  String.length (nmea_checksum data) = 2%nat
  /\ all_chars is_upper_hex (nmea_checksum data) = true.
Proof.
  unfold nmea_checksum.
  pose proof (xor_bytes_range data 0 ltac:(lia)) as Hx.
  set (x := xor_bytes data 0) in *.
  split; [reflexivity |].
  cbn [all_chars].
  rewrite !hex_digit_upper; [reflexivity | |].
  - apply Z.mod_pos_bound. lia.
  - split; [apply Z.div_pos; lia | apply Z.div_lt_upper_bound; lia].
Qed.

(** The [i]-th turn of the loop of [get_sentences]. *)
Lemma sentences_loop_nth (self : NMEAMessage) (fill : Z) (parts : list string) :
  forall k i chunk,
  nth_error parts i = Some chunk ->
  nth_error (sentences_loop self fill parts k) i
  = Some (let data :=
            sentence_data self (k + i)
              (if (1 <? number_of_sentences self)%nat then "1" else "")
              chunk
              (if (k + i =? number_of_sentences self)%nat then fill else 0) in
          "!" ++ data ++ "*" ++ nmea_checksum data ++ CRLF).
Proof.
  induction parts as [|p parts IH]; intros k i chunk H.
  - destruct i; discriminate H.
  - destruct i as [|i]; cbn [nth_error sentences_loop] in *.
    + injection H as ->. rewrite Nat.add_0_r. reflexivity.
    + rewrite (IH (S k) i chunk H).
      replace (S k + i)%nat with (k + S i)%nat by lia. reflexivity.
Qed.

Lemma sentences_loop_length (self : NMEAMessage) (fill : Z) (parts : list string) :
  forall k, List.length (sentences_loop self fill parts k) = List.length parts.
Proof.
  induction parts as [|p parts IH]; intros k; cbn [sentences_loop List.length];
    [reflexivity | now rewrite IH].
Qed.

(** What [NMEAMessage.__init__] builds. *)
Lemma NMEAMessage_init_inv {A : Type} `{AISMessage A} (payload payload' : A)
    (self : NMEAMessage) :
  NMEAMessage_init payload = Ok (self, payload') ->
  exists armored,
    encode payload = Ok (armored, payload')
    /\ nmea_msg_type self = "AIVDM"
    /\ ais_channel self = "A"
    /\ payload_parts self = wrap armored 60
    /\ number_of_sentences self = List.length (payload_parts self).
Proof.
  unfold NMEAMessage_init. intros Hinit.
  destruct (encode payload) as [[armored p]|] eqn:E; cbn [bind] in Hinit;
    [| discriminate Hinit].
  injection Hinit as <- <-. exists armored. cbn. repeat split; reflexivity.
Qed.

(** The text of a sentence, with the literal parts written out. *)
Lemma sentence_text (self : NMEAMessage) (k : nat) (fragid chunk : string)
    (fill : Z) :
  nmea_msg_type self = "AIVDM" ->
  ais_channel self = "A" ->
  sentence_data self k fragid chunk fill
  = "AIVDM," ++ str_of_int (Z.of_nat (number_of_sentences self)) ++ ","
    ++ str_of_int (Z.of_nat k) ++ "," ++ fragid ++ ",A," ++ chunk ++ ","
    ++ str_of_int fill.
Proof.
  intros Ht Hc. unfold sentence_data. rewrite Ht, Hc. reflexivity.
Qed.

(** The sentence that [get_sentences] returns at position [i], and how many
    it returns. *)
Lemma get_sentences_nth {A : Type} {M : AISMessage A}
    (payload payload' now : A) (self : NMEAMessage) :
  NMEAMessage_init payload = Ok (self, payload') ->
  List.length (get_sentences self now) = List.length (payload_parts self)
  /\ forall i chunk,
       nth_error (payload_parts self) i = Some chunk ->
       let count := str_of_int (Z.of_nat (List.length (payload_parts self))) in
       let index := str_of_int (Z.of_nat (i + 1)) in
       let fragid :=
         if (1 <? List.length (payload_parts self))%nat then "1" else "" in
       let fillbits :=
         str_of_int
           (if (i + 1 =? List.length (payload_parts self))%nat
            then fill_bits now else 0) in
       let body :=
         "AIVDM," ++ count ++ "," ++ index ++ "," ++ fragid ++ ",A," ++ chunk
         ++ "," ++ fillbits in
       nth_error (get_sentences self now) i
       = Some ("!" ++ body ++ "*" ++ nmea_checksum body ++ CRLF).
Proof.
  intros Hinit.
  destruct (NMEAMessage_init_inv _ _ _ Hinit)
    as [armored [Henc [Ht [Hc [Hparts Hn]]]]].
  split.
  - unfold get_sentences. apply sentences_loop_length.
  - intros i chunk Hi. cbv zeta. unfold get_sentences.
    rewrite (sentences_loop_nth self (fill_bits now) _ 1 i chunk Hi).
    cbv zeta. rewrite sentence_text by assumption.
    rewrite Hn. replace (1 + i)%nat with (i + 1)%nat by lia.
    reflexivity.
Qed.

(** C6. The sentences of a message, in order: as many as the chunks of the
    armored payload, which have at most 60 characters each and join to the
    armored payload again; the sentence at position [i] (from 0) has index
    [i + 1] and is exactly [!AIVDM,count,index,fragid,A,chunk,fillbits*CC]
    followed by CRLF, where CC, the checksum of the text between the
    exclamation mark and the star, is two uppercase hexadecimal digits.
    [now] is the message object as it is when [get_sentences] runs. *)
Theorem get_sentences_exact_form {A : Type} {M : AISMessage A}
    (payload payload' now : A) (self : NMEAMessage) :
  NMEAMessage_init payload = Ok (self, payload') ->
  (exists armored,
      encode payload = Ok (armored, payload')
      /\ String.concat "" (payload_parts self) = armored)
  /\ Forall (fun chunk => (1 <= String.length chunk <= 60)%nat)
       (payload_parts self)
  /\ number_of_sentences self = List.length (payload_parts self)
  /\ List.length (get_sentences self now) = List.length (payload_parts self)
  /\ forall i chunk,
       nth_error (payload_parts self) i = Some chunk ->
       let count := str_of_int (Z.of_nat (List.length (payload_parts self))) in
       let index := str_of_int (Z.of_nat (i + 1)) in
       let fragid :=
         if (1 <? List.length (payload_parts self))%nat then "1" else "" in
       let fillbits :=
         str_of_int
           (if (i + 1 =? List.length (payload_parts self))%nat
            then fill_bits now else 0) in
       let body :=
         "AIVDM," ++ count ++ "," ++ index ++ "," ++ fragid ++ ",A," ++ chunk
         ++ "," ++ fillbits in
       nth_error (get_sentences self now) i
       = Some ("!" ++ body ++ "*" ++ nmea_checksum body ++ CRLF)
       /\ String.length (nmea_checksum body) = 2%nat
       /\ all_chars is_upper_hex (nmea_checksum body) = true.
Proof.
  intros Hinit.
  destruct (NMEAMessage_init_inv _ _ _ Hinit)
    as [armored [Henc [Ht [Hc [Hparts Hn]]]]].
  split; [| split; [| split; [| split]]].
  - exists armored. split; [exact Henc |].
    rewrite Hparts. unfold wrap. apply wrap_lines_concat; lia.
  - rewrite Hparts. unfold wrap. apply wrap_lines_width. lia.
  - exact Hn.
  - exact (proj1 (get_sentences_nth payload payload' now self Hinit)).
  - intros i chunk Hi. cbv zeta.
    split; [| apply nmea_checksum_form].
    exact (proj2 (get_sentences_nth payload payload' now self Hinit) i chunk Hi).
Qed.

Lemma example_nmea_built :
  NMEAMessage_init example_type5_msg
  = Ok (example_nmea, AISMsgType5.set_fill_bits example_type5_msg 2).
Proof. vm_compute. reflexivity. Qed.

Lemma get_sentences_exact_form_witness :
  nth_error
    (get_sentences example_nmea (AISMsgType5.set_fill_bits example_type5_msg 2))
    1
  = Some ("!AIVDM,2,2,1,A,88888888880,2*25" ++ CRLF).
Proof.
  pose proof (get_sentences_exact_form example_type5_msg
                (AISMsgType5.set_fill_bits example_type5_msg 2)
                (AISMsgType5.set_fill_bits example_type5_msg 2)
                example_nmea example_nmea_built) as H.
  destruct H as [_ [_ [_ [_ H]]]].
  exact (proj1 (H 1%nat "88888888880" eq_refl)).
Defined.

(** C5. When the armored payload makes more than one chunk, the fragment
    group field (the fourth field between commas) of every sentence is the
    digit 1; when it makes one chunk, the field is empty. *)
Theorem fragment_group_id_shared {A : Type} {M : AISMessage A}
    (payload payload' now : A) (self : NMEAMessage) :
  NMEAMessage_init payload = Ok (self, payload') ->
  forall i s,
    nth_error (get_sentences self now) i = Some s ->
    ((1 < List.length (payload_parts self))%nat ->
       nth_error (split_on "," s "") 3 = Some "1")
    /\ (List.length (payload_parts self) = 1%nat ->
       nth_error (split_on "," s "") 3 = Some "")
    /\ nth_error (split_on "," s "") 0 = Some "!AIVDM"
    /\ nth_error (split_on "," s "") 1
       = Some (str_of_int (Z.of_nat (List.length (payload_parts self))))
    /\ nth_error (split_on "," s "") 2 = Some (str_of_int (Z.of_nat (i + 1))).
Proof.
  intros Hinit i s Hs.
  destruct (get_sentences_nth payload payload' now self Hinit) as [Hlen Hnth].
  assert (Hi : (i < List.length (payload_parts self))%nat).
  { rewrite <- Hlen. apply nth_error_Some. congruence. }
  destruct (nth_error (payload_parts self) i) as [chunk|] eqn:Ec;
    [| apply nth_error_None in Ec; lia].
  pose proof (Hnth i chunk Ec) as Hform. cbv zeta in Hform.
  rewrite Hform in Hs. injection Hs as <-.
  set (n := List.length (payload_parts self)) in *.
  set (fragid := if (1 <? n)%nat then "1" else "").
  assert (Hfrag : all_chars no_comma fragid = true)
    by (subst fragid; destruct (1 <? n)%nat; reflexivity).
  match goal with
  | |- context [split_on "," ?t ""] =>
      assert (Hsplit : exists rest,
                split_on "," t ""
                = "!AIVDM" :: str_of_int (Z.of_nat n)
                  :: str_of_int (Z.of_nat (i + 1)) :: fragid :: rest)
  end.
  { eexists.
    repeat first [ rewrite split_on_comma
                 | rewrite split_on_char by reflexivity ].
    cbn [append].
    rewrite append_assoc. cbn [append].
    rewrite split_on_field by apply str_of_int_no_comma.
    rewrite append_assoc. cbn [append].
    rewrite split_on_field by apply str_of_int_no_comma.
    rewrite append_assoc. cbn [append].
    rewrite split_on_field by exact Hfrag.
    cbn [append]. reflexivity. }
  destruct Hsplit as [rest ->]. cbn [nth_error].
  repeat split.
  - intros Hn. subst fragid. apply Nat.ltb_lt in Hn. now rewrite Hn.
  - intros Hn. subst fragid. now rewrite Hn.
Qed.

Lemma fragment_group_id_shared_witness :
  (1 < List.length (payload_parts example_nmea))%nat
  /\ nth_error
       (split_on "," ("!AIVDM,2,2,1,A,88888888880,2*25" ++ CRLF) "") 3
     = Some "1".
Proof.
  assert (H : (1 < List.length (payload_parts example_nmea))%nat)
    by (cbn; lia).
  split; [exact H |].
  exact (proj1 (fragment_group_id_shared example_type5_msg
                  (AISMsgType5.set_fill_bits example_type5_msg 2)
                  (AISMsgType5.set_fill_bits example_type5_msg 2)
                  example_nmea example_nmea_built 1%nat
                  ("!AIVDM,2,2,1,A,88888888880,2*25" ++ CRLF) eq_refl) H).
Defined.

(** C4. [get_sentences] writes 0 in every sentence but the last and
    [self.payload.fill_bits] in the last; that attribute is the true count
    only if [encode] ran once.  Built from the fresh static and voyage
    message of [__main__], the two sentences carry 60 and 11 characters with
    fill bits 0 and 2.  Built from the same message after one earlier
    [encode], the second sentence carries 4. *)
Theorem last_sentence_fill_bits_after_earlier_encode :
  let fresh := example_type5_msg in
  let encoded_once := AISMsgType5.set_fill_bits example_type5_msg 2 in
  let encoded_twice := AISMsgType5.set_fill_bits example_type5_msg 4 in
  let first :=
    "!AIVDM,2,1,1,A,533m@o`2;H;s<HtKR20EHE:0@T4@Dn2222222216L961O5Gf0NSQEp6ClRp8,0*7D"
    ++ CRLF in
  AISMsgType5.fill_bits fresh = 0
  /\ NMEAMessage_init fresh = Ok (example_nmea, encoded_once)
  /\ List.map String.length (payload_parts example_nmea) = [60; 11]%nat
  /\ get_sentences example_nmea encoded_once
     = [first; "!AIVDM,2,2,1,A,88888888880,2*25" ++ CRLF]
  /\ (exists s, encode fresh = Ok (s, encoded_once))
  /\ NMEAMessage_init encoded_once = Ok (example_nmea, encoded_twice)
  /\ get_sentences example_nmea encoded_twice
     = [first; "!AIVDM,2,2,1,A,88888888880,4*23" ++ CRLF].
Proof.
  cbv zeta.
  split; [reflexivity |].
  split; [exact example_nmea_built |].
  split; [reflexivity |].
  split; [vm_compute; reflexivity |].
  split; [eexists; vm_compute; reflexivity |].
  split; [vm_compute; reflexivity |].
  vm_compute; reflexivity.
Qed.

(** * Further properties of the module *)

(** ** [encode] *)

Lemma all_chars_impl (p q : ascii -> bool) (s : string) :
  (forall c, p c = true -> q c = true) ->
  all_chars p s = true -> all_chars q s = true.
Proof.
  intros Hpq. induction s as [|c s IH]; cbn [all_chars]; [reflexivity |].
  intros H. apply andb_true_iff in H as [Hc Hs].
  now rewrite (Hpq c Hc), IH.
Qed.

Lemma armor_char_not_delimiter (c : ascii) :
  is_armor_char c = true -> negb (is_delimiter c) = true.
Proof.
  intros Hc. apply negb_true_iff. unfold is_delimiter. cbn [existsb].
  repeat match goal with
  | |- context [Ascii.eqb c ?d] =>
      destruct (Ascii.eqb_spec c d) as [-> | _]; [discriminate Hc |]
  end.
  reflexivity.
Qed.

Lemma fill_aligns (n : nat) :
  ((6 - n mod 6) mod 6 <= 5 /\ (n + (6 - n mod 6) mod 6) mod 6 = 0)%nat.
Proof.
  pose proof (Nat.mod_upper_bound n 6 ltac:(lia)) as Hr.
  pose proof (Nat.div_mod_eq n 6) as Hn.
  set (r := (n mod 6)%nat) in *. set (q := (n / 6)%nat) in *.
  split; [apply Nat.lt_succ_r, Nat.mod_upper_bound; lia |].
  destruct (Nat.eq_dec r 0) as [E | E].
  - rewrite E in *. change ((6 - 0) mod 6)%nat with 0%nat.
    replace (n + 0)%nat with (0 + q * 6)%nat by lia.
    now rewrite Nat.Div0.mod_add.
  - rewrite (Nat.mod_small (6 - r) 6) by lia.
    replace (n + (6 - r))%nat with (0 + (q + 1) * 6)%nat by lia.
    now rewrite Nat.Div0.mod_add.
Qed.

(** X1. For a message of either class whose payload is a bit field,
    [encode] returns one character for each group of six bits (the length
    divided by 6, rounded up) and adds to [fill_bits] the number of bits the
    last group lacks: at most 5, and what brings the length to a multiple of
    6. *)
Theorem encode_length_and_fill_bits {A : Type} {M : AISMessage A} (self : A)
    (bits : string) :
  payload_bits self = Ok bits ->
  is_bits bits = true ->
  let missing := ((6 - String.length bits mod 6) mod 6)%nat in
  (missing <= 5)%nat
  /\ ((String.length bits + missing) mod 6 = 0)%nat
  /\ exists s,
       encode self
       = Ok (s, set_fill_bits self (fill_bits self + Z.of_nat missing))
       /\ String.length s = ((String.length bits + 5) / 6)%nat.
Proof.
  intros Hp Hb. cbv zeta.
  destruct (fill_aligns (String.length bits)) as [H5 H6].
  split; [exact H5 |]. split; [exact H6 |].
  exact (encode_spec self bits Hp Hb).
Qed.

Lemma encode_length_and_fill_bits_witness :
  exists s,
    encode example_type1
    = Ok (s, set_fill_bits example_type1 (fill_bits example_type1 + Z.of_nat 0))
    /\ String.length s = 28%nat.
Proof.
  exact (proj2 (proj2
    (@encode_length_and_fill_bits _ AISMsgPayloadType1_message example_type1
       "000001000011000011110101010000110111101111100000000000000000100000010100001011001000001000011101010100000101011101100100010100111111111111010000000010010100000111110011"
       ltac:(vm_compute; reflexivity) ltac:(vm_compute; reflexivity)))).
Defined.

(** The loop of [encode] started with another [fill_bits]: the same payload,
    the same number of bits added. *)
Lemma encode_items_shift (items : list string) :
  forall payload fill s fill' other,
  encode_items items payload fill = Ok (s, fill') ->
  encode_items items payload other = Ok (s, other + (fill' - fill)).
Proof.
  induction items as [|item items IH]; intros payload fill s fill' other H;
    cbn [encode_items] in *.
  - injection H as <- <-. do 2 f_equal. lia.
  - rewrite pad_item_spec in *. bind_step H. cbn [bind].
    rewrite (IH _ _ _ _ (other + Z.of_nat (6 - String.length item)) H).
    do 2 f_equal. lia.
Qed.

(** X2. A second [encode] on the object that the first one left returns the
    same payload and adds to [fill_bits] the same number of bits again, for
    a static and voyage message and for a position report. *)
Theorem encode_again_same_payload :
  (forall (m m' : AISMsgType5.t) (s : string),
     encode m = Ok (s, m') ->
     encode m'
     = Ok (s, AISMsgType5.set_fill_bits m'
                (AISMsgType5.fill_bits m'
                 + (AISMsgType5.fill_bits m' - AISMsgType5.fill_bits m))))
  /\ (forall (m m' : AISMsgPayloadType1.t) (s : string),
     encode m = Ok (s, m') ->
     encode m'
     = Ok (s, AISMsgPayloadType1.set_fill_bits m'
                (AISMsgPayloadType1.fill_bits m'
                 + (AISMsgPayloadType1.fill_bits m'
                    - AISMsgPayloadType1.fill_bits m)))).
Proof.
  split.
  - intros m m' s H. unfold encode, _payload_sixbits_list in *.
    cbn [payload_bits fill_bits set_fill_bits AISMsgType5_message bind] in *.
    destruct (encode_items (wrap (AISMsgType5.payload_bits m) 6) ""
                (AISMsgType5.fill_bits m)) as [[p f]|] eqn:E;
      cbn [bind] in H; [| discriminate H].
    injection H as <- <-.
    change (AISMsgType5.payload_bits (AISMsgType5.set_fill_bits m f))
      with (AISMsgType5.payload_bits m).
    cbn [AISMsgType5.fill_bits AISMsgType5.set_fill_bits].
    rewrite (encode_items_shift _ _ _ _ _ f E). reflexivity.
  - intros m m' s H. unfold encode, _payload_sixbits_list in *.
    cbn [payload_bits fill_bits set_fill_bits AISMsgPayloadType1_message] in *.
    change (AISMsgPayloadType1.payload_bits m')
      with (AISMsgPayloadType1.payload_bits
              (AISMsgPayloadType1.set_fill_bits m' (AISMsgPayloadType1.fill_bits m))).
    destruct (AISMsgPayloadType1.payload_bits m) as [bits|] eqn:Ep;
      cbn [bind] in H; [| discriminate H].
    destruct (encode_items (wrap bits 6) "" (AISMsgPayloadType1.fill_bits m))
      as [[p f]|] eqn:E; cbn [bind] in H; [| discriminate H].
    injection H as <- <-.
    change (AISMsgPayloadType1.payload_bits
              (AISMsgPayloadType1.set_fill_bits
                 (AISMsgPayloadType1.set_fill_bits m f)
                 (AISMsgPayloadType1.fill_bits m)))
      with (AISMsgPayloadType1.payload_bits m).
    rewrite Ep. cbn [bind AISMsgPayloadType1.fill_bits
                     AISMsgPayloadType1.set_fill_bits].
    rewrite (encode_items_shift _ _ _ _ _ f E). reflexivity.
Qed.

Lemma encode_again_same_payload_witness :
  encode (AISMsgType5.set_fill_bits example_type5_msg 2)
  = Ok ("533m@o`2;H;s<HtKR20EHE:0@T4@Dn2222222216L961O5Gf0NSQEp6ClRp888888888880",
        AISMsgType5.set_fill_bits (AISMsgType5.set_fill_bits example_type5_msg 2)
          (2 + (2 - 0))).
Proof.
  apply (proj1 encode_again_same_payload example_type5_msg).
  vm_compute. reflexivity.
Defined.

(** X3. Whatever the message, the text that [encode] returns holds only
    characters with codes 48 to 87 or 96 to 119: never a comma, a star or an
    exclamation mark, which frame a sentence, and never a space or a hyphen,
    at which [textwrap.wrap] would break a line. *)
Theorem encode_alphabet {A : Type} {M : AISMessage A} (self self' : A)
    (s : string) :
  encode self = Ok (s, self') ->
  all_chars is_armor_char s = true
  /\ all_chars (fun c => negb (is_delimiter c)) s = true.
Proof.
  intros H. pose proof (armored_payload_alphabet self self' s H) as Ha.
  split; [exact Ha |].
  exact (all_chars_impl _ _ s armor_char_not_delimiter Ha).
Qed.

Lemma encode_alphabet_witness :
  all_chars is_armor_char "133m@ogP00PD;88MD5MTDww@2D7k" = true
  /\ all_chars (fun c => negb (is_delimiter c)) "133m@ogP00PD;88MD5MTDww@2D7k"
     = true.
Proof.
  apply (@encode_alphabet _ AISMsgPayloadType1_message example_type1
           (AISMsgPayloadType1.set_fill_bits example_type1 0)).
  vm_compute. reflexivity.
Defined.

(** ** Pieces of a concatenation *)

Lemma substring_prefix (a b : string) :
  substring 0 (String.length a) (a ++ b) = a.
Proof.
  induction a as [|c a IH]; cbn [append String.length substring].
  - destruct b; reflexivity.
  - now rewrite IH.
Qed.

Lemma substring_skip (a b : string) (n m : nat) :
  substring (String.length a + n) m (a ++ b) = substring n m b.
Proof.
  induction a as [|c a IH]; cbn [append String.length substring Nat.add];
    [reflexivity | exact IH].
Qed.

(** ** Armoring loses nothing *)

Lemma unarmor_append (a b : string) : unarmor (a ++ b) = unarmor a ++ unarmor b.
Proof.
  induction a as [|c a IH]; cbn [append unarmor]; [reflexivity |].
  now rewrite IH, append_assoc.
Qed.

Lemma sixbits_of_armored (v : Z) :
  0 <= v < 64 ->
  sixbits_of_armor_char
    (get_char_of_ascii_code (convert_decimal_to_ascii_code v)) = v.
Proof.
  intros Hv. unfold sixbits_of_armor_char, get_char_of_ascii_code,
    convert_decimal_to_ascii_code.
  destruct (v <? 40) eqn:E.
  - apply Z.ltb_lt in E.
    rewrite N_ascii_embedding by lia. rewrite Z2N.id by lia.
    destruct (v + 48 <? 88) eqn:E2; [lia | apply Z.ltb_ge in E2; lia].
  - apply Z.ltb_ge in E.
    rewrite N_ascii_embedding by lia. rewrite Z2N.id by lia.
    destruct (v + 56 <? 88) eqn:E2; [apply Z.ltb_lt in E2; lia | lia].
Qed.

Lemma testbit_of_block (v a : Z) (n : nat) (b : bool) :
  (2 * a + Z.b2z b) * 2 ^ Z.of_nat n <= v
  < (2 * a + Z.b2z b + 1) * 2 ^ Z.of_nat n ->
  Z.testbit v (Z.of_nat n) = b.
Proof.
  intros Hv.
  assert (Hp : 0 < 2 ^ Z.of_nat n) by (apply Z.pow_pos_nonneg; lia).
  assert (Hq : v / 2 ^ Z.of_nat n = 2 * a + Z.b2z b).
  { symmetry.
    apply (Z.div_unique v (2 ^ Z.of_nat n) _
             (v - (2 * a + Z.b2z b) * 2 ^ Z.of_nat n)); [left; lia | ring]. }
  pose proof (Z.testbit_spec' v (Z.of_nat n) ltac:(lia)) as Hs.
  rewrite Hq in Hs.
  rewrite Z.add_comm, Z.mul_comm, Z_mod_plus_full in Hs.
  destruct (Z.testbit v (Z.of_nat n)), b; cbn in Hs; congruence.
Qed.

(** A bit field is the binary writing of its own value. *)
Lemma bits_of_bits_value (bits : string) :
  forall acc v,
  is_bits bits = true ->
  bits_value bits acc = Ok v ->
  bits_of (String.length bits) v = bits.
Proof.
  induction bits as [|c bits IH]; intros acc v Hb H; [reflexivity |].
  unfold is_bits in Hb. cbn [all_chars] in Hb.
  apply andb_true_iff in Hb as [_ Hb].
  cbn [bits_value] in H. cbn [String.length bits_of].
  destruct (Ascii.eqb_spec c "0") as [-> | _].
  - pose proof (bits_value_bound _ _ _ H) as Hv.
    rewrite (IH _ _ Hb H).
    rewrite (testbit_of_block v acc _ false) by (cbn [Z.b2z]; lia).
    reflexivity.
  - destruct (Ascii.eqb_spec c "1") as [-> | _]; [| discriminate H].
    pose proof (bits_value_bound _ _ _ H) as Hv.
    rewrite (IH _ _ Hb H).
    rewrite (testbit_of_block v acc _ true) by (cbn [Z.b2z]; lia).
    reflexivity.
Qed.

(** One turn of the loop of [encode], read back. *)
Lemma unarmor_item (item : string) (v : Z) :
  is_bits item = true ->
  String.length item = 6%nat ->
  bits_value item 0 = Ok v ->
  bits_of 6 (sixbits_of_armor_char
               (get_char_of_ascii_code (convert_decimal_to_ascii_code v)))
  = item.
Proof.
  intros Hb Hl Hv.
  pose proof (bits_value_bound _ _ _ Hv) as Hr. rewrite Hl in Hr.
  change (2 ^ Z.of_nat 6) with 64 in Hr.
  rewrite sixbits_of_armored by lia.
  rewrite <- Hl. exact (bits_of_bits_value item 0 v Hb Hv).
Qed.

Lemma encode_items_wrap_unarmor :
  forall fuel text payload fill s fill',
  (String.length text <= fuel)%nat ->
  is_bits text = true ->
  encode_items (wrap_lines fuel text 6) payload fill = Ok (s, fill') ->
  unarmor s
  = unarmor payload ++ text
    ++ str_repeat "0" ((6 - String.length text mod 6) mod 6).
Proof.
  induction fuel as [|fuel IH]; intros text payload fill s fill' Hlen Hbits H.
  - destruct text; [| cbn in Hlen; lia].
    cbn in H. injection H as <- _. cbn. now rewrite append_nil_r.
  - rewrite wrap_lines_step in H.
    destruct (String.length text =? 0)%nat eqn:E0.
    + apply Nat.eqb_eq in E0. destruct text; [| discriminate E0].
      cbn in H. injection H as <- _. cbn. now rewrite append_nil_r.
    + apply Nat.eqb_neq in E0.
      destruct (String.length text <=? 6)%nat eqn:E1.
      * apply Nat.leb_le in E1.
        cbn [encode_items] in H. rewrite pad_item_spec in H.
        unfold convert_bits_to_int in H. bind_step H.
        cbn [encode_items] in H. injection H as <- _.
        rewrite unarmor_append. cbn [unarmor]. rewrite append_nil_r.
        rewrite fill_last by assumption. f_equal.
        apply unarmor_item; [| | exact E].
        -- unfold is_bits in *.
           now rewrite all_chars_append, Hbits, all_chars_str_repeat.
        -- rewrite length_append, length_str_repeat. lia.
      * apply Nat.leb_gt in E1.
        cbn [encode_items] in H. rewrite pad_item_spec in H.
        rewrite length_substring in H by lia.
        change (6 - 6)%nat with 0%nat in H. cbn [str_repeat] in H.
        rewrite append_nil_r in H.
        unfold convert_bits_to_int in H. bind_step H.
        apply IH in H;
          [| rewrite length_substring; lia | now apply all_chars_substring].
        rewrite H, unarmor_append. cbn [unarmor].
        rewrite append_nil_r, length_substring by lia.
        rewrite fill_step by assumption.
        rewrite (unarmor_item (substring 0 6 text) a);
          [| now apply all_chars_substring | apply length_substring; lia
           | exact E].
        rewrite !append_assoc. f_equal.
        rewrite <- append_assoc. f_equal.
        apply substring_split. lia.
Qed.

(** X4. Armoring loses nothing: the six bits of each character of the text
    that [encode] returns, put one after the other, are the payload bits
    followed by as many zero bits as [encode] counted as fill bits; so the
    payload is the start of what a receiver unpacks. *)
Theorem unarmor_encode {A : Type} {M : AISMessage A} (self self' : A)
    (bits s : string) :
  payload_bits self = Ok bits ->
  is_bits bits = true ->
  encode self = Ok (s, self') ->
  unarmor s
  = bits ++ str_repeat "0" ((6 - String.length bits mod 6) mod 6)
  /\ substring 0 (String.length bits) (unarmor s) = bits.
Proof.
  intros Hp Hb H.
  assert (Hu : unarmor s
               = bits ++ str_repeat "0" ((6 - String.length bits mod 6) mod 6)).
  { unfold encode, _payload_sixbits_list, wrap in H. rewrite Hp in H.
    cbn [bind] in H.
    destruct (encode_items (wrap_lines (String.length bits) bits 6) ""
                (fill_bits self)) as [[p f]|] eqn:E;
      cbn [bind] in H; [| discriminate H].
    injection H as <- _.
    exact (encode_items_wrap_unarmor _ _ _ _ _ _ (Nat.le_refl _) Hb E). }
  split; [exact Hu |].
  rewrite Hu. apply substring_prefix.
Qed.

Lemma unarmor_encode_witness :
  unarmor "533m@o`2;H;s<HtKR20EHE:0@T4@Dn2222222216L961O5Gf0NSQEp6ClRp888888888880"
  = AISMsgType5.payload_bits example_type5_msg
    ++ str_repeat "0"
         ((6 - String.length (AISMsgType5.payload_bits example_type5_msg) mod 6)
          mod 6)
  /\ substring 0 (String.length (AISMsgType5.payload_bits example_type5_msg))
       (unarmor "533m@o`2;H;s<HtKR20EHE:0@T4@Dn2222222216L961O5Gf0NSQEp6ClRp888888888880")
     = AISMsgType5.payload_bits example_type5_msg.
Proof.
  apply (@unarmor_encode _ AISMsgType5_message example_type5_msg
           (AISMsgType5.set_fill_bits example_type5_msg 2)).
  - reflexivity.
  - vm_compute. reflexivity.
  - vm_compute. reflexivity.
Defined.

(** ** The construction of [AISMsgType5] *)

Lemma convert_int_to_bits_unsigned_inv (num : Z) (w : nat) (bits : string) :
  convert_int_to_bits num w false = Ok bits ->
  0 <= num < 2 ^ Z.of_nat w /\ bits = bits_of w num.
Proof.
  unfold convert_int_to_bits. intros H.
  destruct ((0 <=? num) && (num <? 2 ^ Z.of_nat w)) eqn:E; [| discriminate H].
  injection H as <-. apply andb_true_iff in E as [H0 H1].
  apply Z.leb_le in H0. apply Z.ltb_lt in H1. split; [lia | reflexivity].
Qed.

Lemma convert_int_to_bits_unsigned_iff (num : Z) (w : nat) :
  (exists bits, convert_int_to_bits num w false = Ok bits)
  <-> 0 <= num < 2 ^ Z.of_nat w.
Proof.
  split.
  - intros [bits H]. now apply convert_int_to_bits_unsigned_inv in H.
  - intros H. exists (bits_of w num). now apply convert_int_to_bits_unsigned.
Qed.

(** A fixed-length string attribute is stored exactly when the text is not
    longer than the declared count and is written in the ASCII6 alphabet. *)
Lemma fixed_string_accepts (text : string) (n : nat) :
  (String.length text <= n)%nat ->
  (exists bits, ascii6_bits (AISMsgType5.fixed_text text n) "" = Ok bits)
  <-> all_chars in_ascii6 text = true.
Proof.
  intros _. rewrite <- (fixed_text_in_ascii6 text n).
  apply ascii6_bits_accepts.
Qed.

Lemma call_sign_setter_accepts (fill : Z) (call_sign : string) :
  (exists stored, AISMsgType5.call_sign_setter fill call_sign = Ok stored)
  <-> (String.length call_sign <= 7)%nat
      /\ all_chars in_ascii6 call_sign = true.
Proof.
  split.
  - intros [stored H]. unfold AISMsgType5.call_sign_setter in H.
    destruct (String.length call_sign <? 7 + 1)%nat eqn:Hlt;
      cbn [negb] in H; [| discriminate H].
    apply Nat.ltb_lt in Hlt. assert (Hle : (String.length call_sign <= 7)%nat) by lia.
    split; [exact Hle |]. bind_step H.
    apply (fixed_string_accepts call_sign 7 Hle). now exists a.
  - intros [Hle Hall]. rewrite call_sign_setter_eq by exact Hle.
    apply (fixed_string_accepts call_sign 7 Hle) in Hall as [bits Hb].
    rewrite Hb. cbn [bind]. now eexists.
Qed.

Lemma ship_name_setter_accepts (ship_name : string) :
  (exists bits, AISMsgType5.ship_name_setter ship_name = Ok bits)
  <-> (String.length ship_name <= 20)%nat
      /\ all_chars in_ascii6 ship_name = true.
Proof.
  unfold AISMsgType5.ship_name_setter. split.
  - intros [bits H].
    destruct (String.length ship_name <? 20 + 1)%nat eqn:Hlt;
      cbn [negb] in H; [| discriminate H].
    apply Nat.ltb_lt in Hlt.
    assert (Hle : (String.length ship_name <= 20)%nat) by lia.
    split; [exact Hle |].
    apply (fixed_string_accepts ship_name 20 Hle). now exists bits.
  - intros [Hle Hall]. rewrite not_too_long by exact Hle.
    now apply (fixed_string_accepts ship_name 20 Hle).
Qed.

Lemma destination_setter_accepts (destination : string) :
  (exists bits, AISMsgType5.destination_setter destination = Ok bits)
  <-> (String.length destination <= 20)%nat
      /\ all_chars in_ascii6 destination = true.
Proof.
  unfold AISMsgType5.destination_setter. split.
  - intros [bits H].
    destruct (String.length destination <? 20 + 1)%nat eqn:Hlt;
      cbn [negb] in H; [| discriminate H].
    apply Nat.ltb_lt in Hlt.
    assert (Hle : (String.length destination <= 20)%nat) by lia.
    split; [exact Hle |].
    apply (fixed_string_accepts destination 20 Hle). now exists bits.
  - intros [Hle Hall]. rewrite not_too_long by exact Hle.
    now apply (fixed_string_accepts destination 20 Hle).
Qed.

Lemma ship_type_setter_accepts (value : Z) :
  (exists bits, AISMsgType5.ship_type_setter value = Ok bits)
  <-> 1 <= value <= 99.
Proof.
  unfold AISMsgType5.ship_type_setter. split.
  - intros [bits H].
    destruct (negb ((1 <=? value) && (value <? 100))) eqn:E;
      [discriminate H | now apply ship_type_in_range].
  - intros Hr. rewrite (proj2 (ship_type_in_range value) Hr).
    apply convert_int_to_bits_unsigned_iff.
    change (2 ^ Z.of_nat 8) with 256. lia.
Qed.

Lemma draught_setter_accepts (value : float) :
  (exists bits, AISMsgType5.draught_setter value = Ok bits)
  <-> (0 <=? value)%float = true.
Proof.
  split.
  - intros [bits H].
    destruct (value <? 0)%float eqn:E0.
    { unfold AISMsgType5.draught_setter in H. rewrite E0 in H.
      discriminate H. }
    destruct (not_below_zero_cases value E0) as [Hpos | Hnan];
      [exact Hpos |].
    rewrite (draught_setter_nan value Hnan) in H. discriminate H.
  - intros Hpos.
    destruct (draught_setter_scaled value Hpos) as (n & _ & Hb & Hs).
    rewrite Hs. apply convert_int_to_bits_unsigned_iff.
    change (2 ^ Z.of_nat 8) with 256. lia.
Qed.

(** What [__init__] went through when it returned. *)
Lemma AISMsgType5_init_inv (mmsi imo : Z) (call_sign ship_name : string)
    (ship_type : Z) (dimension : ShipDimension) (eta : ShipEta) (draught : float)
    (destination : string) (m : AISMsgType5.t) :
  AISMsgType5.init mmsi imo call_sign ship_name ship_type dimension eta
    draught destination = Ok m ->
  exists cs sn st dim et dr dest,
    convert_int_to_bits mmsi 30 false = Ok (bits_of 30 mmsi)
    /\ convert_int_to_bits imo 30 false = Ok (bits_of 30 imo)
    /\ AISMsgType5.call_sign_setter 0 call_sign = Ok (cs, 0)
    /\ AISMsgType5.ship_name_setter ship_name = Ok sn
    /\ AISMsgType5.ship_type_setter ship_type = Ok st
    /\ ShipDimension_bits dimension = Ok dim
    /\ ShipEta_bits eta = Ok et
    /\ AISMsgType5.draught_setter draught = Ok dr
    /\ AISMsgType5.destination_setter destination = Ok dest
    /\ m = AISMsgType5.Build_t "00" (bits_of 30 mmsi) 0 "000101" "10"
             (bits_of 30 imo) cs sn st dim "0001" et dr dest "0" "0".
Proof.
  unfold AISMsgType5.init, AISMsgType5.mmsi_setter, AISMsgType5.imo_setter,
    AISMsgType5.dimension_setter, AISMsgType5.eta_setter.
  change (convert_int_to_bits 0 2 false) with (@Ok string "00").
  change (convert_int_to_bits 5 6 false) with (@Ok string "000101").
  change (convert_int_to_bits 2 2 false) with (@Ok string "10").
  change (convert_int_to_bits 1 4 false) with (@Ok string "0001").
  change (convert_int_to_bits 0 1 false) with (@Ok string "0").
  cbn [bind]. intros H.
  do 2 bind_step H.
  destruct (AISMsgType5.call_sign_setter 0 call_sign) as [[cs fb]|] eqn:Ecs;
    cbn [bind] in H; [| discriminate H].
  cbv beta iota in H.
  do 6 bind_step H. injection H as <-.
  pose proof (call_sign_setter_ok _ _ _ _ Ecs) as [_ [_ ->]].
  destruct (convert_int_to_bits_unsigned_inv _ _ _ E) as [Hr0 ->].
  destruct (convert_int_to_bits_unsigned_inv _ _ _ E0) as [Hr1 ->].
  exists cs, a1, a2, a3, a4, a5, a6.
  repeat (split; [assumption || reflexivity |]).
  reflexivity.
Qed.

(** X5. [AISMsgType5.__init__] returns an object exactly when: [mmsi] and
    [imo] are in 0 .. 2^30 - 1; [call_sign] has at most 7 characters and
    [ship_name] and [destination] at most 20, all of the ASCII6 alphabet
    (codes 32 to 95); [ship_type] is in 1..99; [draught] is not negative
    (it is from 0 up, which a NaN is not); and the dimension and the ETA
    give their bits. *)
Theorem AISMsgType5_init_succeeds_iff (mmsi imo : Z)
    (call_sign ship_name : string) (ship_type : Z) (dimension : ShipDimension)
    (eta : ShipEta) (draught : float) (destination : string) :
  (exists m,
      AISMsgType5.init mmsi imo call_sign ship_name ship_type dimension eta
        draught destination = Ok m)
  <-> 0 <= mmsi < 2 ^ 30
      /\ 0 <= imo < 2 ^ 30
      /\ ((String.length call_sign <= 7)%nat
          /\ all_chars in_ascii6 call_sign = true)
      /\ ((String.length ship_name <= 20)%nat
          /\ all_chars in_ascii6 ship_name = true)
      /\ 1 <= ship_type <= 99
      /\ (exists bits, ShipDimension_bits dimension = Ok bits)
      /\ (exists bits, ShipEta_bits eta = Ok bits)
      /\ (0 <=? draught)%float = true
      /\ ((String.length destination <= 20)%nat
          /\ all_chars in_ascii6 destination = true).
Proof.
  split.
  - intros [m H].
    destruct (AISMsgType5_init_inv _ _ _ _ _ _ _ _ _ _ H)
      as [cs [sn [st [dim [et [dr [dest
           [H1 [H2 [H3 [H4 [H5 [H6 [H7 [H8 [H9 _]]]]]]]]]]]]]]]].
    split; [apply (convert_int_to_bits_unsigned_iff mmsi 30); eauto |].
    split; [apply (convert_int_to_bits_unsigned_iff imo 30); eauto |].
    split; [apply (call_sign_setter_accepts 0); eauto |].
    split; [apply ship_name_setter_accepts; eauto |].
    split; [apply ship_type_setter_accepts; eauto |].
    split; [eauto |]. split; [eauto |].
    split; [apply draught_setter_accepts; eauto |].
    apply destination_setter_accepts; eauto.
  - intros [H1 [H2 [H3 [H4 [H5 [[dim H6] [[et H7] [H8 H9]]]]]]]].
    apply (convert_int_to_bits_unsigned_iff mmsi 30) in H1 as [b1 H1].
    apply (convert_int_to_bits_unsigned_iff imo 30) in H2 as [b2 H2].
    apply (call_sign_setter_accepts 0) in H3 as [[cs fb] H3].
    apply ship_name_setter_accepts in H4 as [sn H4].
    apply ship_type_setter_accepts in H5 as [st H5].
    apply draught_setter_accepts in H8 as [dr H8].
    apply destination_setter_accepts in H9 as [dest H9].
    unfold AISMsgType5.init, AISMsgType5.mmsi_setter, AISMsgType5.imo_setter,
      AISMsgType5.dimension_setter, AISMsgType5.eta_setter.
    change (convert_int_to_bits 0 2 false) with (@Ok string "00").
    change (convert_int_to_bits 5 6 false) with (@Ok string "000101").
    change (convert_int_to_bits 2 2 false) with (@Ok string "10").
    change (convert_int_to_bits 1 4 false) with (@Ok string "0001").
    change (convert_int_to_bits 0 1 false) with (@Ok string "0").
    rewrite H1, H2, H3, H4, H5, H6, H7, H8, H9. cbn [bind].
    eexists. reflexivity.
Qed.

Lemma AISMsgType5_init_succeeds_iff_witness :
  exists m,
    AISMsgType5.init 205344990 9134270 "" "STORM" 99 example_dimension
      ShipEta_default 30 "BORNHOLM" = Ok m.
Proof.
  apply (proj2 (AISMsgType5_init_succeeds_iff 205344990 9134270 "" "STORM" 99
                  example_dimension ShipEta_default 30 "BORNHOLM")).
  split; [vm_compute; split; [discriminate | reflexivity] |].
  split; [vm_compute; split; [discriminate | reflexivity] |].
  split; [split; [cbn; lia | reflexivity] |].
  split; [split; [cbn; lia | reflexivity] |].
  split; [lia |].
  split; [eexists; vm_compute; reflexivity |].
  split; [eexists; vm_compute; reflexivity |].
  split; [reflexivity |].
  split; [cbn; lia | reflexivity].
Defined.

Lemma ship_type_setter_raises (P : error -> Prop) (value : Z) :
  P RangeError -> P (ValueError "ship_type") ->
  raises_only P (AISMsgType5.ship_type_setter value).
Proof.
  intros Hr Hv. unfold AISMsgType5.ship_type_setter.
  destruct (negb _);
    [now apply raises_only_Raise | now apply convert_int_to_bits_raises].
Qed.

(** The exceptions of [__init__] are those of its calls. *)
Lemma AISMsgType5_init_raises (P : error -> Prop) (mmsi imo : Z)
    (call_sign ship_name : string) (ship_type : Z) (dimension : ShipDimension)
    (eta : ShipEta) (draught : float) (destination : string) :
  P RangeError -> P InvalidCharacterError ->
  P (ValueError "call_sign") -> P (ValueError "ship_name") ->
  P (ValueError "ship_type") -> P (ValueError "draught") ->
  P (ValueError "destination") ->
  raises_only P
    (AISMsgType5.init mmsi imo call_sign ship_name ship_type dimension eta
       draught destination).
Proof.
  intros P1 P2 P3 P4 P5 P6 P7.
  unfold AISMsgType5.init, AISMsgType5.mmsi_setter, AISMsgType5.imo_setter,
    AISMsgType5.dimension_setter, AISMsgType5.eta_setter.
  do 5 (apply raises_only_bind;
        [now apply convert_int_to_bits_raises | intros ?]).
  apply raises_only_bind; [now apply call_sign_setter_raises |].
  intros [cs fb].
  apply raises_only_bind; [now apply ship_name_setter_raises | intros ?].
  apply raises_only_bind; [now apply ship_type_setter_raises | intros ?].
  apply raises_only_bind; [now apply ShipDimension_bits_raises | intros ?].
  apply raises_only_bind; [now apply convert_int_to_bits_raises | intros ?].
  apply raises_only_bind; [now apply ShipEta_bits_raises | intros ?].
  apply raises_only_bind; [now apply draught_setter_raises | intros ?].
  apply raises_only_bind; [now apply destination_setter_raises | intros ?].
  do 2 (apply raises_only_bind;
        [now apply convert_int_to_bits_raises | intros ?]).
  apply raises_only_Ok.
Qed.

(** X6. [AISMsgType5.__init__] raises nothing but a [RangeError], an
    [InvalidCharacterError] or the [ValueError] of one of the five guarded
    attributes ([call_sign], [ship_name], [ship_type], [draught],
    [destination]).  The MMSI is stored first: when it does not fit 30 bits
    the exception is the [RangeError], whatever the other arguments are. *)
Theorem AISMsgType5_init_exceptions (mmsi imo : Z)
    (call_sign ship_name : string) (ship_type : Z) (dimension : ShipDimension)
    (eta : ShipEta) (draught : float) (destination : string) :
  (forall e,
     AISMsgType5.init mmsi imo call_sign ship_name ship_type dimension eta
       draught destination = Raise e ->
     In e [ RangeError; InvalidCharacterError; ValueError "call_sign";
            ValueError "ship_name"; ValueError "ship_type";
            ValueError "draught"; ValueError "destination" ])
  /\ (~ 0 <= mmsi < 2 ^ 30 ->
      AISMsgType5.init mmsi imo call_sign ship_name ship_type dimension eta
        draught destination = Raise RangeError).
Proof.
  split.
  - apply (AISMsgType5_init_raises
             (fun e => In e [ RangeError; InvalidCharacterError;
                              ValueError "call_sign"; ValueError "ship_name";
                              ValueError "ship_type"; ValueError "draught";
                              ValueError "destination" ]));
      cbn [In]; tauto.
  - intros Hout.
    unfold AISMsgType5.init, AISMsgType5.mmsi_setter.
    change (convert_int_to_bits 0 2 false) with (@Ok string "00").
    cbn [bind].
    destruct (convert_int_to_bits mmsi 30 false) as [b|e] eqn:E.
    + exfalso. apply Hout.
      apply (convert_int_to_bits_unsigned_iff mmsi 30). now exists b.
    + cbn [bind]. f_equal.
      exact (convert_int_to_bits_raises (fun e => e = RangeError) eq_refl
               mmsi 30 false e E).
Qed.

Lemma AISMsgType5_init_exceptions_witness :
  ~ 0 <= 2 ^ 30 < 2 ^ 30
  /\ AISMsgType5.init (2 ^ 30) 9134270 "far too long" "sToRM" 0
       example_dimension example_eta (-1) "NEW YORK"
     = Raise RangeError.
Proof.
  assert (H : ~ 0 <= 2 ^ 30 < 2 ^ 30) by lia.
  split; [exact H |].
  exact (proj2 (AISMsgType5_init_exceptions (2 ^ 30) 9134270 "far too long"
                  "sToRM" 0 example_dimension example_eta (-1) "NEW YORK") H).
Defined.

(** ** The layout of the static and voyage payload *)

Lemma substring_after (a b : string) (k n m : nat) :
  String.length a = k -> (k <= n)%nat ->
  substring n m (a ++ b) = substring (n - k) m b.
Proof.
  intros Hl Hle. replace n with (String.length a + (n - k))%nat at 1 by lia.
  apply substring_skip.
Qed.

Lemma substring_first (a b : string) (m : nat) :
  String.length a = m -> substring 0 m (a ++ b) = a.
Proof. intros <-. apply substring_prefix. Qed.

Lemma bits_read_back (num : Z) (w : nat) :
  0 <= num < 2 ^ Z.of_nat w ->
  convert_bits_to_int (bits_of w num) = Ok num.
Proof.
  intros Hr. unfold convert_bits_to_int. rewrite bits_value_bits_of.
  f_equal. rewrite Z.mod_small by exact Hr. lia.
Qed.

(** X7. In the payload of every [AISMsgType5] object each attribute sits at
    a fixed place: the message type 5 in bits 0-5, the MMSI in bits 8-37,
    the AIS version in bits 38-39, the IMO number in bits 40-69, the call
    sign in bits 70-111, the ship name in bits 112-231, the ship type in bits
    232-239, the dimension in bits 240-269, the position fix type in bits
    270-273, the ETA in bits 274-293, the draught in bits 294-301, the
    destination in bits 302-421 and two zero bits at the end.  The MMSI, the
    IMO number and the ship type read back, unsigned, as the numbers given
    to the constructor. *)
Theorem AISMsgType5_payload_layout (mmsi imo : Z)
    (call_sign ship_name : string) (ship_type : Z) (dimension : ShipDimension)
    (eta : ShipEta) (draught : float) (destination : string) (m : AISMsgType5.t) :
  AISMsgType5.init mmsi imo call_sign ship_name ship_type dimension eta
    draught destination = Ok m ->
  let p := AISMsgType5.payload_bits m in
  substring 0 8 p = "00010100"
  /\ convert_bits_to_int (substring 8 30 p) = Ok mmsi
  /\ substring 38 2 p = "10"
  /\ convert_bits_to_int (substring 40 30 p) = Ok imo
  /\ AISMsgType5.call_sign_setter 0 call_sign = Ok (substring 70 42 p, 0)
  /\ AISMsgType5.ship_name_setter ship_name = Ok (substring 112 120 p)
  /\ convert_bits_to_int (substring 232 8 p) = Ok ship_type
  /\ ShipDimension_bits dimension = Ok (substring 240 30 p)
  /\ substring 270 4 p = "0001"
  /\ ShipEta_bits eta = Ok (substring 274 20 p)
  /\ AISMsgType5.draught_setter draught = Ok (substring 294 8 p)
  /\ AISMsgType5.destination_setter destination = Ok (substring 302 120 p)
  /\ substring 422 2 p = "00".
Proof.
  intros H. cbv zeta.
  destruct (AISMsgType5_init_inv _ _ _ _ _ _ _ _ _ _ H)
    as [cs [sn [st [dim [et [dr [dest
         [H1 [H2 [H3 [H4 [H5 [H6 [H7 [H8 [H9 ->]]]]]]]]]]]]]]]].
  assert (R1 : 0 <= mmsi < 2 ^ Z.of_nat 30)
    by (apply convert_int_to_bits_unsigned_iff; eauto).
  assert (R2 : 0 <= imo < 2 ^ Z.of_nat 30)
    by (apply convert_int_to_bits_unsigned_iff; eauto).
  assert (R5 : 0 <= ship_type < 2 ^ Z.of_nat 8).
  { apply convert_int_to_bits_unsigned_iff.
    unfold AISMsgType5.ship_type_setter in H5.
    destruct (negb _); [discriminate H5 | eauto]. }
  assert (E5 : st = bits_of 8 ship_type).
  { unfold AISMsgType5.ship_type_setter in H5.
    destruct (negb _); [discriminate H5 |].
    now apply convert_int_to_bits_unsigned_inv in H5. }
  pose proof (length_bits_of 30 mmsi) as L1.
  pose proof (length_bits_of 30 imo) as L2.
  pose proof (call_sign_setter_ok _ _ _ _ H3) as [L3 _].
  pose proof (ship_name_setter_ok _ _ H4) as [L4 _].
  pose proof (ship_type_setter_ok _ _ H5) as [L5 _].
  pose proof (ShipDimension_bits_ok _ _ H6) as [L6 _].
  pose proof (ShipEta_bits_ok _ _ H7) as [L7 _].
  pose proof (draught_setter_ok _ _ H8) as [L8 _].
  pose proof (destination_setter_ok _ _ H9) as [L9 _].
  rewrite H3, H4, H6, H7, H8, H9.
  unfold AISMsgType5.payload_bits.
  cbn [AISMsgType5.msg_type AISMsgType5.repeat_indicator AISMsgType5.mmsi
       AISMsgType5.ais_version AISMsgType5.imo AISMsgType5.call_sign
       AISMsgType5.ship_name AISMsgType5.ship_type AISMsgType5.dimension
       AISMsgType5.pos_fix_type AISMsgType5.eta AISMsgType5.draught
       AISMsgType5.destination AISMsgType5.dte AISMsgType5.spare].
  set (t13 := "0" ++ "0").
  set (t12 := dest ++ t13). set (t11 := dr ++ t12). set (t10 := et ++ t11).
  set (t9 := "0001" ++ t10). set (t8 := dim ++ t9). set (t7 := st ++ t8).
  set (t6 := sn ++ t7). set (t5 := cs ++ t6).
  set (t4 := bits_of 30 imo ++ t5). set (t3 := "10" ++ t4).
  set (t2 := bits_of 30 mmsi ++ t3).
  assert (S2 : forall n k, substring (8 + n) k ("000101" ++ "00" ++ t2)
                           = substring n k t2) by reflexivity.
  assert (S3 : forall n k, substring (30 + n) k t2 = substring n k t3).
  { intros n k. subst t2. rewrite (substring_after _ _ 30) by (assumption || lia).
    f_equal. lia. }
  assert (S4 : forall n k, substring (2 + n) k t3 = substring n k t4)
    by reflexivity.
  assert (S5 : forall n k, substring (30 + n) k t4 = substring n k t5).
  { intros n k. subst t4. rewrite (substring_after _ _ 30) by (assumption || lia).
    f_equal. lia. }
  assert (S6 : forall n k, substring (42 + n) k t5 = substring n k t6).
  { intros n k. subst t5. rewrite (substring_after _ _ 42) by (assumption || lia).
    f_equal. lia. }
  assert (S7 : forall n k, substring (120 + n) k t6 = substring n k t7).
  { intros n k. subst t6. rewrite (substring_after _ _ 120) by (assumption || lia).
    f_equal. lia. }
  assert (S8 : forall n k, substring (8 + n) k t7 = substring n k t8).
  { intros n k. subst t7. rewrite (substring_after _ _ 8) by (assumption || lia).
    f_equal. lia. }
  assert (S9 : forall n k, substring (30 + n) k t8 = substring n k t9).
  { intros n k. subst t8. rewrite (substring_after _ _ 30) by (assumption || lia).
    f_equal. lia. }
  assert (S10 : forall n k, substring (4 + n) k t9 = substring n k t10)
    by reflexivity.
  assert (S11 : forall n k, substring (20 + n) k t10 = substring n k t11).
  { intros n k. subst t10. rewrite (substring_after _ _ 20) by (assumption || lia).
    f_equal. lia. }
  assert (S12 : forall n k, substring (8 + n) k t11 = substring n k t12).
  { intros n k. subst t11. rewrite (substring_after _ _ 8) by (assumption || lia).
    f_equal. lia. }
  assert (S13 : forall n k, substring (120 + n) k t12 = substring n k t13).
  { intros n k. subst t12. rewrite (substring_after _ _ 120) by (assumption || lia).
    f_equal. lia. }
  assert (P2 : substring 8 30 ("000101" ++ "00" ++ t2) = bits_of 30 mmsi).
  { rewrite (S2 0%nat). subst t2. now apply substring_first. }
  assert (P4 : substring 40 30 ("000101" ++ "00" ++ t2) = bits_of 30 imo).
  { rewrite (S2 32%nat), (S3 2%nat), (S4 0%nat). subst t4.
    now apply substring_first. }
  assert (P5 : substring 70 42 ("000101" ++ "00" ++ t2) = cs).
  { rewrite (S2 62%nat), (S3 32%nat), (S4 30%nat), (S5 0%nat). subst t5.
    now apply substring_first. }
  assert (P6 : substring 112 120 ("000101" ++ "00" ++ t2) = sn).
  { rewrite (S2 104%nat), (S3 74%nat), (S4 72%nat), (S5 42%nat), (S6 0%nat).
    subst t6. now apply substring_first. }
  assert (P7 : substring 232 8 ("000101" ++ "00" ++ t2) = st).
  { rewrite (S2 224%nat), (S3 194%nat), (S4 192%nat), (S5 162%nat),
      (S6 120%nat), (S7 0%nat). subst t7. now apply substring_first. }
  assert (P8 : substring 240 30 ("000101" ++ "00" ++ t2) = dim).
  { rewrite (S2 232%nat), (S3 202%nat), (S4 200%nat), (S5 170%nat),
      (S6 128%nat), (S7 8%nat), (S8 0%nat). subst t8.
    now apply substring_first. }
  assert (P9 : substring 270 4 ("000101" ++ "00" ++ t2) = "0001").
  { rewrite (S2 262%nat), (S3 232%nat), (S4 230%nat), (S5 200%nat),
      (S6 158%nat), (S7 38%nat), (S8 30%nat), (S9 0%nat). subst t9.
    now apply substring_first. }
  assert (P10 : substring 274 20 ("000101" ++ "00" ++ t2) = et).
  { rewrite (S2 266%nat), (S3 236%nat), (S4 234%nat), (S5 204%nat),
      (S6 162%nat), (S7 42%nat), (S8 34%nat), (S9 4%nat), (S10 0%nat).
    subst t10. now apply substring_first. }
  assert (P11 : substring 294 8 ("000101" ++ "00" ++ t2) = dr).
  { rewrite (S2 286%nat), (S3 256%nat), (S4 254%nat), (S5 224%nat),
      (S6 182%nat), (S7 62%nat), (S8 54%nat), (S9 24%nat), (S10 20%nat),
      (S11 0%nat). subst t11. now apply substring_first. }
  assert (P12 : substring 302 120 ("000101" ++ "00" ++ t2) = dest).
  { rewrite (S2 294%nat), (S3 264%nat), (S4 262%nat), (S5 232%nat),
      (S6 190%nat), (S7 70%nat), (S8 62%nat), (S9 32%nat), (S10 28%nat),
      (S11 8%nat), (S12 0%nat). subst t12. now apply substring_first. }
  assert (P13 : substring 422 2 ("000101" ++ "00" ++ t2) = "00").
  { rewrite (S2 414%nat), (S3 384%nat), (S4 382%nat), (S5 352%nat),
      (S6 310%nat), (S7 190%nat), (S8 182%nat), (S9 152%nat), (S10 148%nat),
      (S11 128%nat), (S12 120%nat), (S13 0%nat). reflexivity. }
  assert (P3 : substring 38 2 ("000101" ++ "00" ++ t2) = "10").
  { rewrite (S2 30%nat), (S3 0%nat). reflexivity. }
  rewrite P2, P3, P4, P5, P6, P7, P8, P9, P10, P11, P12, P13.
  rewrite E5, !bits_read_back by assumption.
  repeat split; reflexivity.
Qed.

Lemma AISMsgType5_payload_layout_witness :
  let p := AISMsgType5.payload_bits example_type5_msg in
  convert_bits_to_int (substring 8 30 p) = Ok 205344990
  /\ convert_bits_to_int (substring 40 30 p) = Ok 9134270
  /\ convert_bits_to_int (substring 232 8 p) = Ok 70.
Proof.
  pose proof (AISMsgType5_payload_layout 205344990 9134270 "3FOF8"
                "EVER DIADEM" 70 example_dimension example_eta 12.2%float "NEW YORK"
                example_type5_msg example_type5_built) as H.
  cbv zeta in *.
  destruct H as [_ [H1 [_ [H2 [_ [_ [H3 _]]]]]]].
  split; [exact H1 | split; [exact H2 | exact H3]].
Defined.

(** ** The sentences as a receiver reads them *)

Lemma some_eq {T : Type} (x y : T) : Some x = Some y -> x = y.
Proof. intros H. now injection H. Qed.

Lemma split_on_last (s : string) :
  forall cur,
  all_chars no_comma s = true -> split_on "," s cur = [cur ++ s].
Proof.
  induction s as [|c s IH]; intros cur Hs; cbn [split_on all_chars] in *.
  - now rewrite append_nil_r.
  - apply andb_true_iff in Hs as [Hc Hs].
    unfold no_comma in Hc. apply negb_true_iff in Hc. rewrite Hc.
    rewrite IH by exact Hs. now rewrite append_assoc.
Qed.

Lemma str_of_any_int_no_comma (n : Z) :
  all_chars no_comma (str_of_int n) = true.
Proof.
  unfold str_of_int. destruct n as [|p|p]; [reflexivity | |].
  - cbn [Z.to_int NilZero.string_of_int]. unfold NilZero.string_of_uint.
    destruct (Pos.to_uint p); try apply string_of_uint_no_comma. reflexivity.
  - cbn [Z.to_int NilZero.string_of_int all_chars].
    unfold NilZero.string_of_uint.
    destruct (Pos.to_uint p); try apply string_of_uint_no_comma. reflexivity.
Qed.

Lemma upper_hex_no_comma (c : ascii) :
  is_upper_hex c = true -> no_comma c = true.
Proof.
  intros H. unfold no_comma. apply negb_true_iff.
  destruct (Ascii.eqb_spec c ",") as [-> | _]; [discriminate H | reflexivity].
Qed.

Lemma armor_char_no_comma (c : ascii) :
  is_armor_char c = true -> no_comma c = true.
Proof.
  intros H. unfold no_comma. apply negb_true_iff.
  destruct (Ascii.eqb_spec c ",") as [-> | _]; [discriminate H | reflexivity].
Qed.

Lemma wrap_lines_all_chars (p : ascii -> bool) (width : nat) :
  forall fuel text,
  all_chars p text = true ->
  Forall (fun line => all_chars p line = true) (wrap_lines fuel text width).
Proof.
  induction fuel as [|fuel IH]; intros text Ht; [constructor |].
  rewrite wrap_lines_step.
  destruct (String.length text =? 0)%nat; [constructor |].
  destruct (String.length text <=? width)%nat.
  - constructor; [exact Ht | constructor].
  - constructor; [now apply all_chars_substring |].
    apply IH. now apply all_chars_substring.
Qed.

(** The chunks of a message hold no comma. *)
Lemma payload_parts_no_comma {A : Type} `{AISMessage A} (payload payload' : A)
    (self : NMEAMessage) (i : nat) (chunk : string) :
  NMEAMessage_init payload = Ok (self, payload') ->
  nth_error (payload_parts self) i = Some chunk ->
  all_chars no_comma chunk = true.
Proof.
  intros Hinit Hi.
  destruct (NMEAMessage_init_inv _ _ _ Hinit)
    as [armored [Henc [_ [_ [Hparts _]]]]].
  pose proof (armored_payload_alphabet _ _ _ Henc) as Ha.
  apply (all_chars_impl _ _ _ armor_char_no_comma) in Ha.
  pose proof (wrap_lines_all_chars no_comma 60 (String.length armored)
                armored Ha) as Hall.
  rewrite Hparts in Hi. apply nth_error_In in Hi.
  exact (proj1 (Forall_forall _ _) Hall chunk Hi).
Qed.

(** X10. Every sentence of a message, cut at its commas, has exactly seven
    fields: [!AIVDM], the number of sentences, the index of the sentence
    (from 1), the fragment group id, the channel [A], the payload chunk, and
    the fill bits followed by the star, the two characters of the checksum
    and CRLF.  No field of the code holds a comma of its own. *)
Theorem sentence_has_seven_fields {A : Type} {M : AISMessage A}
    (payload payload' now : A) (self : NMEAMessage) :
  NMEAMessage_init payload = Ok (self, payload') ->
  forall i s,
    nth_error (get_sentences self now) i = Some s ->
    exists chunk cc,
      nth_error (payload_parts self) i = Some chunk
      /\ String.length cc = 2%nat
      /\ split_on "," s ""
         = [ "!AIVDM";
             str_of_int (Z.of_nat (List.length (payload_parts self)));
             str_of_int (Z.of_nat (i + 1));
             if (1 <? List.length (payload_parts self))%nat then "1" else "";
             "A";
             chunk;
             str_of_int
               (if (i + 1 =? List.length (payload_parts self))%nat
                then fill_bits now else 0)
             ++ "*" ++ cc ++ CRLF ].
Proof.
  intros Hinit i s Hs.
  destruct (get_sentences_nth payload payload' now self Hinit) as [Hlen Hnth].
  assert (Hi : (i < List.length (payload_parts self))%nat).
  { rewrite <- Hlen. apply nth_error_Some. congruence. }
  destruct (nth_error (payload_parts self) i) as [chunk|] eqn:Ec;
    [| apply nth_error_None in Ec; lia].
  pose proof (payload_parts_no_comma _ _ _ _ _ Hinit Ec) as Hchunk.
  pose proof (Hnth i chunk Ec) as Hform. cbv zeta in Hform.
  rewrite Hform in Hs. apply some_eq in Hs. subst s.
  set (n := List.length (payload_parts self)) in *.
  set (fragid := if (1 <? n)%nat then "1" else "").
  set (fill := str_of_int (if (i + 1 =? n)%nat then fill_bits now else 0)).
  match goal with
  | |- context [nmea_checksum ?b] => set (cc := nmea_checksum b)
  end.
  assert (Hfrag : all_chars no_comma fragid = true)
    by (subst fragid; destruct (1 <? n)%nat; reflexivity).
  assert (Hfill : all_chars no_comma fill = true)
    by apply str_of_any_int_no_comma.
  assert (Hcc : String.length cc = 2%nat /\ all_chars no_comma cc = true).
  { subst cc. match goal with |- context [nmea_checksum ?b] =>
      destruct (nmea_checksum_form b) as [L U] end.
    split; [exact L | exact (all_chars_impl _ _ _ upper_hex_no_comma U)]. }
  destruct Hcc as [Lcc Ncc].
  exists chunk, cc. split; [reflexivity |]. split; [exact Lcc |].
  cbn [append].
  repeat first [ rewrite split_on_comma
               | rewrite split_on_char by reflexivity ].
  cbn [append].
  rewrite append_assoc. cbn [append].
  rewrite split_on_field by apply str_of_int_no_comma.
  rewrite append_assoc. cbn [append].
  rewrite split_on_field by apply str_of_int_no_comma.
  rewrite append_assoc. cbn [append].
  rewrite split_on_field by exact Hfrag.
  repeat first [ rewrite split_on_comma
               | rewrite split_on_char by reflexivity ].
  rewrite append_assoc. cbn [append].
  rewrite split_on_field by exact Hchunk.
  rewrite split_on_last.
  - cbn [append]. reflexivity.
  - rewrite all_chars_append, Hfill. cbn [andb all_chars].
    rewrite all_chars_append, Ncc. reflexivity.
Qed.

Lemma sentence_has_seven_fields_witness :
  exists chunk cc,
    nth_error (payload_parts example_nmea) 0 = Some chunk
    /\ String.length cc = 2%nat
    /\ split_on ","
         ("!AIVDM,2,1,1,A,533m@o`2;H;s<HtKR20EHE:0@T4@Dn2222222216L961O5Gf0NSQEp6ClRp8,0*7D"
          ++ CRLF) ""
       = [ "!AIVDM";
           str_of_int (Z.of_nat (List.length (payload_parts example_nmea)));
           str_of_int (Z.of_nat (0 + 1));
           if (1 <? List.length (payload_parts example_nmea))%nat
           then "1" else "";
           "A"; chunk;
           str_of_int
             (if (0 + 1 =? List.length (payload_parts example_nmea))%nat
              then fill_bits (AISMsgType5.set_fill_bits example_type5_msg 2)
              else 0)
           ++ "*" ++ cc ++ CRLF ].
Proof.
  exact (sentence_has_seven_fields example_type5_msg
           (AISMsgType5.set_fill_bits example_type5_msg 2)
           (AISMsgType5.set_fill_bits example_type5_msg 2)
           example_nmea example_nmea_built 0%nat _ eq_refl).
Defined.

Lemma str_of_int_digit (n : Z) :
  0 <= n <= 9 -> String.length (str_of_int n) = 1%nat.
Proof.
  intros H. rewrite <- (Z2Nat.id n) by lia.
  assert (Hk : (Z.to_nat n <= 9)%nat) by lia.
  generalize dependent (Z.to_nat n). intros k Hk.
  do 10 (destruct k as [|k]; [reflexivity |]). lia.
Qed.

(** X9. No sentence is longer than the 82 characters of an NMEA frame, CRLF
    included, as long as the message makes at most 9 sentences and the
    [fill_bits] of its payload object is in 0..9 when [get_sentences]
    runs. *)
Theorem sentence_within_82_characters {A : Type} {M : AISMessage A}
    (payload payload' now : A) (self : NMEAMessage) :
  NMEAMessage_init payload = Ok (self, payload') ->
  (List.length (payload_parts self) <= 9)%nat ->
  0 <= fill_bits now <= 9 ->
  Forall (fun s => (String.length s <= 82)%nat) (get_sentences self now).
Proof.
  intros Hinit H9 Hfill.
  destruct (get_sentences_nth payload payload' now self Hinit) as [Hlen Hnth].
  destruct (NMEAMessage_init_inv _ _ _ Hinit)
    as [armored [_ [_ [_ [Hparts _]]]]].
  assert (Hw : Forall (fun line => (String.length line <= 60)%nat)
                 (payload_parts self)).
  { rewrite Hparts. unfold wrap. apply wrap_lines_le. lia. }
  apply Forall_forall. intros s Hin.
  apply In_nth_error in Hin as [i Hi].
  assert (Hlt : (i < List.length (payload_parts self))%nat).
  { rewrite <- Hlen. apply nth_error_Some. congruence. }
  destruct (nth_error (payload_parts self) i) as [chunk|] eqn:Ec;
    [| apply nth_error_None in Ec; lia].
  pose proof (proj1 (Forall_forall _ _) Hw chunk (nth_error_In _ _ Ec)) as Hc.
  pose proof (Hnth i chunk Ec) as Hform. cbv zeta in Hform.
  rewrite Hform in Hi. apply some_eq in Hi. subst s.
  match goal with
  | |- context [nmea_checksum ?b] =>
      destruct (nmea_checksum_form b) as [Lcc _];
      set (cc := nmea_checksum b) in *
  end.
  assert (L1 : String.length
                 (str_of_int (Z.of_nat (List.length (payload_parts self))))
               = 1%nat) by (apply str_of_int_digit; lia).
  assert (L2 : String.length (str_of_int (Z.of_nat (i + 1))) = 1%nat)
    by (apply str_of_int_digit; lia).
  assert (L3 : String.length
                 (str_of_int
                    (if (i + 1 =? List.length (payload_parts self))%nat
                     then fill_bits now else 0)) = 1%nat).
  { apply str_of_int_digit. destruct (_ =? _)%nat; lia. }
  assert (L4 : (String.length
                  (if (1 <? List.length (payload_parts self))%nat
                   then "1" else "") <= 1)%nat).
  { destruct (_ <? _)%nat; cbn; lia. }
  repeat (rewrite length_append || cbn [String.length]).
  rewrite L1, L2, L3, Lcc. change (String.length CRLF) with 2%nat.
  revert L4.
  generalize (String.length
                (if (1 <? List.length (payload_parts self))%nat
                 then "1" else "")).
  intros fragid_length L4. cbv beta in Hc. lia.
Qed.

Lemma sentence_within_82_characters_witness :
  Forall (fun s => (String.length s <= 82)%nat)
    (get_sentences example_nmea (AISMsgType5.set_fill_bits example_type5_msg 2)).
Proof.
  apply (sentence_within_82_characters example_type5_msg
           (AISMsgType5.set_fill_bits example_type5_msg 2)
           (AISMsgType5.set_fill_bits example_type5_msg 2)
           example_nmea example_nmea_built).
  - cbn. lia.
  - cbn. lia.
Defined.

(** ** How many sentences a message makes *)

Lemma wrap_one_line (s : string) (width : nat) :
  (0 < String.length s <= width)%nat -> wrap s width = [s].
Proof.
  intros [Hpos Hle]. unfold wrap.
  destruct (String.length s) as [|k] eqn:El; [lia |].
  rewrite wrap_lines_step, El.
  replace (S k =? 0)%nat with false by (symmetry; apply Nat.eqb_neq; lia).
  replace (S k <=? width)%nat with true by (symmetry; apply Nat.leb_le; lia).
  reflexivity.
Qed.

Lemma wrap_two_lines (s : string) (width : nat) :
  (0 < width)%nat ->
  (width < String.length s <= 2 * width)%nat ->
  wrap s width
  = [substring 0 width s; substring width (String.length s - width) s].
Proof.
  intros Hw [Hlo Hhi]. unfold wrap.
  destruct (String.length s) as [|k] eqn:El; [lia |].
  rewrite wrap_lines_step, El.
  replace (S k =? 0)%nat with false by (symmetry; apply Nat.eqb_neq; lia).
  replace (S k <=? width)%nat with false by (symmetry; apply Nat.leb_gt; lia).
  f_equal.
  set (rest := substring width (S k - width) s).
  assert (Hr : String.length rest = (S k - width)%nat)
    by (apply length_substring; lia).
  destruct k as [|k]; [lia |].
  rewrite wrap_lines_step, Hr.
  replace (S (S k) - width =? 0)%nat with false
    by (symmetry; apply Nat.eqb_neq; lia).
  replace (S (S k) - width <=? width)%nat with true
    by (symmetry; apply Nat.leb_le; lia).
  reflexivity.
Qed.

(** X8. A static and voyage message always makes two sentences, whatever
    its [fill_bits] holds when [NMEAMessage] is created: the first carries 60
    characters and fill bits 0, the second 11 characters and the
    [fill_bits] of the payload object at the time of [get_sentences]; the
    creation itself adds 2 to that attribute.  A position report always
    makes one sentence, numbered 1 of 1 with an empty fragment group id,
    carrying its 28 characters and the [fill_bits] of the payload object,
    which the creation leaves as it was. *)
Theorem sentences_of_each_message_type :
  let frame := fun body => "!" ++ body ++ "*" ++ nmea_checksum body ++ CRLF in
  (forall mmsi imo call_sign ship_name ship_type dimension eta draught
          destination m (held : Z) (now : AISMsgType5.t),
     AISMsgType5.init mmsi imo call_sign ship_name ship_type dimension eta
       draught destination = Ok m ->
     exists c1 c2,
       let self :=
         {| nmea_msg_type := "AIVDM"; payload_parts := [c1; c2];
            number_of_sentences := 2; ais_channel := "A" |} in
       NMEAMessage_init (AISMsgType5.set_fill_bits m held)
       = Ok (self, AISMsgType5.set_fill_bits m (held + 2))
       /\ String.length c1 = 60%nat
       /\ String.length c2 = 11%nat
       /\ get_sentences self now
          = [ frame ("AIVDM,2,1,1,A," ++ c1 ++ ",0");
              frame ("AIVDM,2,2,1,A," ++ c2 ++ ","
                     ++ str_of_int (AISMsgType5.fill_bits now)) ])
  /\ (forall (payload now : AISMsgPayloadType1.t) (bits : string),
     AISMsgPayloadType1.payload_bits payload = Ok bits ->
     exists armored payload',
       let self :=
         {| nmea_msg_type := "AIVDM"; payload_parts := [armored];
            number_of_sentences := 1; ais_channel := "A" |} in
       NMEAMessage_init payload = Ok (self, payload')
       /\ AISMsgPayloadType1.fill_bits payload'
          = AISMsgPayloadType1.fill_bits payload
       /\ String.length armored = 28%nat
       /\ get_sentences self now
          = [ frame ("AIVDM,1,1,,A," ++ armored ++ ","
                     ++ str_of_int (AISMsgPayloadType1.fill_bits now)) ]).
Proof.
  cbv zeta. split.
  - intros mmsi imo call_sign ship_name ship_type dimension eta draught
      destination m held now Hinit.
    apply AISMsgType5_init_ok in Hinit as [Hl [Hb _]].
    destruct (type5_encode_adds_two (AISMsgType5.set_fill_bits m held) Hl Hb)
      as [s [Hs Hls]].
    exists (substring 0 60 s), (substring 60 11 s).
    split; [| split; [| split]].
    + unfold NMEAMessage_init. rewrite Hs. cbn [bind].
      rewrite (wrap_two_lines s 60) by lia. rewrite Hls. reflexivity.
    + apply length_substring. lia.
    + apply length_substring. lia.
    + unfold get_sentences. cbn [payload_parts sentences_loop].
      unfold sentence_data.
      cbn [nmea_msg_type ais_channel number_of_sentences Nat.eqb Nat.ltb
           Nat.leb fill_bits AISMsgType5_message].
      change (str_of_int (Z.of_nat 2)) with "2".
      change (str_of_int (Z.of_nat 1)) with "1".
      change (str_of_int 0) with "0".
      cbn [append]. rewrite !append_assoc. cbn [append]. reflexivity.
  - intros payload now bits Hp.
    destruct (AISMsgPayloadType1_payload_ok payload bits Hp) as [Hl Hb].
    destruct (@encode_spec _ AISMsgPayloadType1_message payload bits Hp Hb)
      as [s [Hs Hls]].
    rewrite Hl in Hs, Hls.
    change ((168 + 5) / 6)%nat with 28%nat in Hls.
    exists s. eexists.
    split; [| split; [| split]].
    + unfold NMEAMessage_init. rewrite Hs. cbn [bind].
      rewrite (wrap_one_line s 60) by lia. reflexivity.
    + cbn [set_fill_bits fill_bits AISMsgPayloadType1_message
           AISMsgPayloadType1.set_fill_bits AISMsgPayloadType1.fill_bits].
      change (Z.of_nat ((6 - 168 mod 6) mod 6)) with 0. lia.
    + exact Hls.
    + unfold get_sentences. cbn [payload_parts sentences_loop].
      unfold sentence_data.
      cbn [nmea_msg_type ais_channel number_of_sentences Nat.eqb Nat.ltb
           Nat.leb fill_bits AISMsgPayloadType1_message].
      change (str_of_int (Z.of_nat 1)) with "1".
      cbn [append]. rewrite !append_assoc. cbn [append]. reflexivity.
Qed.

Lemma sentences_of_each_message_type_witness :
  exists armored payload',
    let self :=
      {| nmea_msg_type := "AIVDM"; payload_parts := [armored];
         number_of_sentences := 1; ais_channel := "A" |} in
    NMEAMessage_init example_type1 = Ok (self, payload')
    /\ AISMsgPayloadType1.fill_bits payload'
       = AISMsgPayloadType1.fill_bits example_type1
    /\ String.length armored = 28%nat
    /\ get_sentences self example_type1
       = [ "!" ++ ("AIVDM,1,1,,A," ++ armored ++ ","
                   ++ str_of_int (AISMsgPayloadType1.fill_bits example_type1))
           ++ "*"
           ++ nmea_checksum
                ("AIVDM,1,1,,A," ++ armored ++ ","
                 ++ str_of_int (AISMsgPayloadType1.fill_bits example_type1))
           ++ CRLF ].
Proof.
  apply (proj2 sentences_of_each_message_type example_type1 example_type1
           "000001000011000011110101010000110111101111100000000000000000100000010100001011001000001000011101010100000101011101100100010100111111111111010000000010010100000111110011").
  vm_compute. reflexivity.
Defined.

(** ** Printing a message before framing it *)

Lemma type5_str_repeatedly (m : AISMsgType5.t) (times : nat) :
  String.length (AISMsgType5.payload_bits m) = 424%nat ->
  is_bits (AISMsgType5.payload_bits m) = true ->
  forall held,
  str_repeatedly times (AISMsgType5.set_fill_bits m held)
  = Ok (AISMsgType5.set_fill_bits m (held + 2 * Z.of_nat times)).
Proof.
  intros Hl Hb. induction times as [|times IH]; intros held.
  - cbn [str_repeatedly]. do 2 f_equal. lia.
  - cbn [str_repeatedly]. unfold __str__.
    destruct (type5_encode_adds_two (AISMsgType5.set_fill_bits m held) Hl Hb)
      as [s [Hs _]].
    rewrite Hs. cbn [bind].
    change (AISMsgType5.set_fill_bits (AISMsgType5.set_fill_bits m held)
              (AISMsgType5.fill_bits (AISMsgType5.set_fill_bits m held) + 2))
      with (AISMsgType5.set_fill_bits m (held + 2)).
    rewrite IH. do 2 f_equal. lia.
Qed.

(** X11. [str(msg)] is not a read-only call: on every [AISMsgType5] object
    each call adds 2 to [fill_bits].  After [k] calls on a new object the
    attribute is [2 * k]; an [NMEAMessage] created then leaves it at
    [2 * k + 2], and that number is what its second sentence carries as fill
    bits, while the payload still has 2. *)
Theorem str_moves_fill_bits (mmsi imo : Z) (call_sign ship_name : string)
    (ship_type : Z) (dimension : ShipDimension) (eta : ShipEta) (draught : float)
    (destination : string) (m : AISMsgType5.t) (k : nat) :
  AISMsgType5.init mmsi imo call_sign ship_name ship_type dimension eta
    draught destination = Ok m ->
  exists printed framed self c2,
    str_repeatedly k m = Ok printed
    /\ AISMsgType5.fill_bits printed = 2 * Z.of_nat k
    /\ NMEAMessage_init printed = Ok (self, framed)
    /\ AISMsgType5.fill_bits framed = 2 * Z.of_nat k + 2
    /\ nth_error (payload_parts self) 1 = Some c2
    /\ nth_error (get_sentences self framed) 1
       = Some (let body :=
                 "AIVDM,2,2,1,A," ++ c2 ++ ","
                 ++ str_of_int (2 * Z.of_nat k + 2) in
               "!" ++ body ++ "*" ++ nmea_checksum body ++ CRLF).
Proof.
  intros Hinit.
  pose proof (AISMsgType5_init_ok _ _ _ _ _ _ _ _ _ _ Hinit) as [Hl [Hb Hf]].
  assert (Em : m = AISMsgType5.set_fill_bits m 0).
  { destruct m. cbn in Hf. subst. reflexivity. }
  pose proof (type5_str_repeatedly m k Hl Hb 0) as Hp.
  rewrite <- Em in Hp. rewrite Z.add_0_l in Hp.
  destruct (type5_encode_adds_two
              (AISMsgType5.set_fill_bits m (2 * Z.of_nat k)) Hl Hb)
    as [s [Hs Hls]].
  exists (AISMsgType5.set_fill_bits m (2 * Z.of_nat k)),
         (AISMsgType5.set_fill_bits m (2 * Z.of_nat k + 2)).
  eexists. exists (substring 60 11 s).
  split; [exact Hp |]. split; [reflexivity |].
  split; [| split; [reflexivity | split]].
  - unfold NMEAMessage_init. rewrite Hs. cbn [bind].
    rewrite (wrap_two_lines s 60) by lia. rewrite Hls. reflexivity.
  - reflexivity.
  - cbv zeta. unfold get_sentences. cbn [payload_parts sentences_loop nth_error].
    unfold sentence_data.
    cbn [nmea_msg_type ais_channel number_of_sentences Nat.eqb Nat.ltb
         Nat.leb List.length fill_bits AISMsgType5_message
         AISMsgType5.fill_bits AISMsgType5.set_fill_bits].
    change (71 - 60)%nat with 11%nat.
    change (str_of_int (Z.of_nat 2)) with "2".
    cbn [append]. rewrite !append_assoc. cbn [append]. reflexivity.
Qed.

Lemma str_moves_fill_bits_witness :
  exists printed framed self c2,
    str_repeatedly 3 example_type5_msg = Ok printed
    /\ AISMsgType5.fill_bits printed = 2 * Z.of_nat 3
    /\ NMEAMessage_init printed = Ok (self, framed)
    /\ AISMsgType5.fill_bits framed = 2 * Z.of_nat 3 + 2
    /\ nth_error (payload_parts self) 1 = Some c2
    /\ nth_error (get_sentences self framed) 1
       = Some (let body :=
                 "AIVDM,2,2,1,A," ++ c2 ++ ","
                 ++ str_of_int (2 * Z.of_nat 3 + 2) in
               "!" ++ body ++ "*" ++ nmea_checksum body ++ CRLF).
Proof.
  exact (str_moves_fill_bits 205344990 9134270 "3FOF8" "EVER DIADEM" 70
           example_dimension example_eta 12.2%float "NEW YORK" example_type5_msg 3
           example_type5_built).
Defined.

(** ** The number of sentences *)

(** X12. The number of sentences of a message is the number of characters
    of its armored payload divided by 60, rounded up, that is, for a payload
    of [L] bits, [L] divided by 6 and then by 60, rounded up each time.  A
    message whose payload is empty makes no sentence at all. *)
Theorem number_of_sentences_formula {A : Type} {M : AISMessage A}
    (payload payload' now : A) (self : NMEAMessage) (bits : string) :
  payload_bits payload = Ok bits ->
  is_bits bits = true ->
  NMEAMessage_init payload = Ok (self, payload') ->
  number_of_sentences self
  = (((String.length bits + 5) / 6 + 59) / 60)%nat
  /\ List.length (get_sentences self now) = number_of_sentences self
  /\ (bits = "" -> get_sentences self now = []).
Proof.
  intros Hp Hb Hinit.
  destruct (NMEAMessage_init_inv _ _ _ Hinit)
    as [armored [Henc [_ [_ [Hparts Hn]]]]].
  destruct (encode_spec payload bits Hp Hb) as [s [Hs Hls]].
  rewrite Hs in Henc. injection Henc as <- _.
  assert (Hcount : number_of_sentences self
                   = (((String.length bits + 5) / 6 + 59) / 60)%nat).
  { rewrite Hn, Hparts. unfold wrap.
    rewrite (wrap_lines_count 60) by lia. now rewrite Hls. }
  assert (Hsame : List.length (get_sentences self now)
                  = number_of_sentences self).
  { unfold get_sentences. rewrite sentences_loop_length. now rewrite Hn. }
  split; [exact Hcount |]. split; [exact Hsame |].
  intros ->. rewrite Hcount in Hsame. cbn in Hsame.
  destruct (get_sentences self now); [reflexivity | discriminate Hsame].
Qed.

Lemma number_of_sentences_formula_witness :
  number_of_sentences example_nmea
  = (((String.length (AISMsgType5.payload_bits example_type5_msg) + 5) / 6
      + 59) / 60)%nat
  /\ List.length (get_sentences example_nmea example_type5_msg)
     = number_of_sentences example_nmea
  /\ (AISMsgType5.payload_bits example_type5_msg = "" ->
      get_sentences example_nmea example_type5_msg = []).
Proof.
  apply (@number_of_sentences_formula _ AISMsgType5_message example_type5_msg
           (AISMsgType5.set_fill_bits example_type5_msg 2)).
  - reflexivity.
  - vm_compute. reflexivity.
  - exact example_nmea_built.
Defined.

(** ** When the payload of a position report exists *)

Lemma convert_int_to_bits_signed_iff (num : Z) (w : nat) :
  (exists bits, convert_int_to_bits num w true = Ok bits)
  <-> - 2 ^ (Z.of_nat w - 1) <= num < 2 ^ (Z.of_nat w - 1).
Proof.
  unfold convert_int_to_bits. split.
  - intros [bits H].
    destruct ((- 2 ^ (Z.of_nat w - 1) <=? num) && (num <? 2 ^ (Z.of_nat w - 1)))
      eqn:E; [| discriminate H].
    apply andb_true_iff in E as [H0 H1].
    apply Z.leb_le in H0. apply Z.ltb_lt in H1. lia.
  - intros [H0 H1]. apply Z.leb_le in H0. apply Z.ltb_lt in H1.
    rewrite H0, H1. now eexists.
Qed.

(** The exceptions of a chain of conversions are those of its calls. *)
Ltac raises_chain :=
  first
    [ apply raises_only_Ok
    | now apply convert_int_to_bits_raises
    | apply int_of_float_raises;
      [assumption | right; right; cbn [In]; tauto]
    | apply raises_only_bind_Ok;
      [raises_chain | intros ?; cbv beta iota; raises_chain]
    | apply raises_only_bind; [raises_chain | intros ?; raises_chain] ].

(** X13. [payload_bits] of a position report returns exactly when every
    attribute fits the width that [FieldBitsCountEnum] declares for it:
    unsigned for [repeat_indicator], [mmsi], [nav_status], [true_heading]
    and [timestamp]; for [speed] and [course], the binary64 product with 10
    is finite and its truncation fits unsigned; for [lon] and [lat], the
    binary64 product with 600000 is finite and its truncation fits signed.
    Otherwise it raises a [RangeError], the [OverflowError] of [int] on an
    infinite product, or the [ValueError] of [int] on a NaN in one of the
    four float fields; each of the three occurs, on the longitudes
    223.69621333333333 (which scales to 2^27), 1e308 and NaN. *)
Theorem AISMsgPayloadType1_payload_exists_iff (self : AISMsgPayloadType1.t) :
  let fits := fun (field : Key.name) (num : Z) =>
    0 <= num < 2 ^ Z.of_nat (FieldBitsCountEnum field) in
  let fits_signed := fun (field : Key.name) (num : Z) =>
    - 2 ^ (Z.of_nat (FieldBitsCountEnum field) - 1) <= num
    < 2 ^ (Z.of_nat (FieldBitsCountEnum field) - 1) in
  let scaled := fun (field : Key.name) (product : float) (ok : Z -> Prop) =>
    exists num,
      int_of_float (Key.to_string field) product = Ok num /\ ok num in
  ((exists bits, AISMsgPayloadType1.payload_bits self = Ok bits)
   <-> fits Key.repeat_indicator (AISMsgPayloadType1.repeat_indicator self)
       /\ fits Key.mmsi (AISMsgPayloadType1.mmsi self)
       /\ fits Key.nav_status (AISMsgPayloadType1.nav_status self)
       /\ scaled Key.speed (AISMsgPayloadType1.speed self * 10)%float
            (fits Key.speed)
       /\ scaled Key.lon (AISMsgPayloadType1.lon self * 600000)%float
            (fits_signed Key.lon)
       /\ scaled Key.lat (AISMsgPayloadType1.lat self * 600000)%float
            (fits_signed Key.lat)
       /\ scaled Key.course (AISMsgPayloadType1.course self * 10)%float
            (fits Key.course)
       /\ fits Key.true_heading (AISMsgPayloadType1.true_heading self)
       /\ fits Key.timestamp (AISMsgPayloadType1.timestamp self))
  /\ (forall e,
        AISMsgPayloadType1.payload_bits self = Raise e ->
        e = RangeError \/ e = OverflowError
        \/ In e [ ValueError "speed"; ValueError "lon"; ValueError "lat";
                  ValueError "course" ])
  /\ AISMsgPayloadType1.payload_bits (example_type1_at 223.69621333333333)
     = Raise RangeError
  /\ AISMsgPayloadType1.payload_bits (example_type1_at 1e308)
     = Raise OverflowError
  /\ AISMsgPayloadType1.payload_bits (example_type1_at nan)
     = Raise (ValueError "lon").
Proof.
  cbv zeta. split; [| split].
  - unfold AISMsgPayloadType1.payload_bits.
    change AISMsgPayloadType1._constants_bits
      with (@Ok dict (fun k' : Key.name =>
              if Key.eqb k' Key.radio_status then "0010100000111110011" else
              if Key.eqb k' Key.raim then "1" else
              if Key.eqb k' Key.spare_type_1 then "000" else
              if Key.eqb k' Key.maneuver then "00" else
              if Key.eqb k' Key.pos_accuracy then "1" else
              if Key.eqb k' Key.rot then "10000000" else
              if Key.eqb k' Key.msg_type then "000001" else "")).
    cbn [bind].
    unfold AISMsgPayloadType1._fields_to_bits, AISMsgPayloadType1.dict_items.
    cbn [AISMsgPayloadType1.fields_loop].
    unfold AISMsgPayloadType1.field_to_bits.
    cbn [Key.among existsb Key.eqb orb Key.to_string int_of_scaled bind].
    split.
    + intros [bits H]. do 13 bind_step H.
      do 8 (split;
            [ first [ apply convert_int_to_bits_unsigned_iff; now eauto
                    | apply convert_int_to_bits_signed_iff; now eauto
                    | eexists; split; [reflexivity |];
                      first [ apply convert_int_to_bits_unsigned_iff; now eauto
                            | apply convert_int_to_bits_signed_iff; now eauto ] ]
            |]).
      apply convert_int_to_bits_unsigned_iff; now eauto.
    + intros [H1 [H2 [H3 [[n4 [E4 H4]] [[n5 [E5 H5]] [[n6 [E6 H6]]
               [[n7 [E7 H7]] [H8 H9]]]]]]]].
      rewrite E4, E5, E6, E7. cbn [bind].
      apply convert_int_to_bits_unsigned_iff in H1 as [b1 ->].
      apply convert_int_to_bits_unsigned_iff in H2 as [b2 ->].
      apply convert_int_to_bits_unsigned_iff in H3 as [b3 ->].
      apply convert_int_to_bits_unsigned_iff in H4 as [b4 ->].
      apply convert_int_to_bits_signed_iff in H5 as [b5 ->].
      apply convert_int_to_bits_signed_iff in H6 as [b6 ->].
      apply convert_int_to_bits_unsigned_iff in H7 as [b7 ->].
      apply convert_int_to_bits_unsigned_iff in H8 as [b8 ->].
      apply convert_int_to_bits_unsigned_iff in H9 as [b9 ->].
      cbn [bind]. eexists. reflexivity.
  - set (P := fun e : error =>
                e = RangeError \/ e = OverflowError
                \/ In e [ ValueError "speed"; ValueError "lon";
                          ValueError "lat"; ValueError "course" ]).
    assert (Pr : P RangeError) by (left; reflexivity).
    assert (Po : P OverflowError) by (right; left; reflexivity).
    assert (Hall : raises_only P (AISMsgPayloadType1.payload_bits self)).
    { unfold AISMsgPayloadType1.payload_bits.
      apply raises_only_bind.
      - unfold AISMsgPayloadType1._constants_bits, AISMsgType1ConstsEnum.
        cbn [AISMsgPayloadType1.constants_loop].
        repeat (apply raises_only_bind;
                [now apply convert_int_to_bits_raises | intros ?]).
        apply raises_only_Ok.
      - intros consts. apply raises_only_bind; [| intros ?; apply raises_only_Ok].
        unfold AISMsgPayloadType1._fields_to_bits,
          AISMsgPayloadType1.dict_items.
        cbn [AISMsgPayloadType1.fields_loop].
        unfold AISMsgPayloadType1.field_to_bits.
        cbn [Key.among existsb Key.eqb orb Key.to_string int_of_scaled bind].
        raises_chain. }
    exact Hall.
  - vm_compute. repeat split.
Qed.

Lemma AISMsgPayloadType1_payload_exists_iff_witness :
  exists bits, AISMsgPayloadType1.payload_bits example_type1 = Ok bits.
Proof.
  apply (proj2 (proj1 (AISMsgPayloadType1_payload_exists_iff example_type1))).
  split; [vm_compute; repeat split; discriminate |].
  split; [vm_compute; repeat split; discriminate |].
  split; [vm_compute; repeat split; discriminate |].
  split; [exists 0; vm_compute; repeat split; discriminate |].
  split; [exists 2644228; vm_compute; repeat split; discriminate |].
  split; [exists 30737782; vm_compute; repeat split; discriminate |].
  split; [exists 1107; vm_compute; repeat split; discriminate |].
  split; vm_compute; repeat split; discriminate.
Defined.
